(** * mlpack: the feed-forward network engine and the dataset mapper

    A shallow embedding of [src/mlpack/methods/ann/ffn_impl.hpp] (class
    [FFN]) and [src/mlpack/core/data/dataset_mapper_impl.hpp] (class
    [DatasetMapper]), with the properties of both that the specification
    states.

    Conventions.  A [size_t] is a [Z] in [0, 2^64); every addition and
    multiplication of the source is written with its wrap-around.  A [double]
    is a binary64 float: a primitive float where the engine stores or adds
    it, its specification [spec_float] where the engine multiplies, floors
    and compares.  A [std::vector] is a [list]; indexing past
    the end is undefined behaviour and shows up as [Undefined].  An
    [std::unordered_map] is a [gmap].  A C++ exception is an outcome [Throw]. *)

From Stdlib Require Import ZArith Lia Floats.
From stdpp Require Import base option list gmap strings.

Open Scope Z_scope.

(** ** Outcomes of C++ calls *)

Module Cxx.

Inductive exception : Type :=
| invalid_argument
| out_of_range
| logic_error (what : string)
| runtime_error (what : string).

Inductive outcome (A : Type) : Type :=
| Return (a : A)
| Throw (e : exception)
| Undefined.

Arguments Return {A} a.
Arguments Throw {A} e.
Arguments Undefined {A}.

(** Sequencing: an exception or undefined behaviour ends the computation. *)
#[export] Instance outcome_ret : MRet outcome := λ A a, Return a.
#[export] Instance outcome_bind : MBind outcome := λ A B k m,
  match m with
  | Return a => k a
  | Throw e => Throw e
  | Undefined => Undefined
  end.

(** [std::vector::operator[]]: reading past the end is undefined. *)
Definition index {A : Type} (l : list A) (i : Z) : outcome A :=
  if (i <? 0) then Undefined else
  match l !! Z.to_nat i with
  | Some a => Return a
  | None => Undefined
  end.

(** Modelled from the spec: [Log::Assert] (core/util/log.hpp is not among the
    sources).  The specification calls a failed assertion a fatal
    internal-consistency check: the pass stops there with an error carrying
    the message. *)
Definition Log_Assert (condition : bool) (message : string) : outcome unit :=
  if condition then Return tt else Throw (runtime_error message).

Definition is_Return {A : Type} (m : outcome A) : bool :=
  match m with Return _ => true | _ => false end.

End Cxx.

Export Cxx.

(** ** [size_t] and [int] arithmetic *)

Module SizeT.

Definition modulus : Z := 2 ^ 64.
Definition SIZE_MAX : Z := modulus - 1.

Definition wrap (z : Z) : Z := z mod modulus.

Definition add (a b : Z) : Z := wrap (a + b).
Definition sub (a b : Z) : Z := wrap (a - b).
Definition mul (a b : Z) : Z := wrap (a * b).

Definition valid (z : Z) : Prop := 0 ≤ z < modulus.

(** Conversion of a [size_t] to a 32-bit [int] (modular), and back. *)
Definition to_int (z : Z) : Z := (z + 2 ^ 31) mod 2 ^ 32 - 2 ^ 31.
Definition of_int (i : Z) : Z := wrap i.

(** [std::accumulate(first, last, 0)] over a [std::vector<size_t>]: the
    initial value [0] is an [int], so the accumulator is an [int]; each step
    adds in [size_t] and converts the sum back to [int]. *)
Definition accumulate_int (l : list Z) : Z :=
  fold_left (λ acc x, to_int (add (of_int acc) x)) l 0.

End SizeT.

(** ** [double] arithmetic *)

Module Double.

(** A [double] is an IEEE 754 binary64 number.  Where the engine computes in
    [double] the operations are those of the Standard Library's
    specification of binary64 arithmetic ([SpecFloat], with 53 bits of
    precision and the exponent bound 1024), which its primitive floats
    implement: every operation rounds to nearest, ties to even. *)
Definition prec : Z := 53.
Definition emax : Z := 1024.

(** The conversion of a [size_t] to [double]. *)
Definition of_size_t (n : Z) : spec_float := binary_normalize prec emax n 0 false.

(** The literal [0.1]: the [double] nearest to a tenth, [0x1.999999999999ap-4],
    slightly above it. *)
Definition tenth : spec_float := S754_finite false 7205759403792794 (-56).

Definition mul (x y : spec_float) : spec_float := SFmul prec emax x y.

(** [std::floor]: the largest integer not above [x], which is a [double]
    whenever [x] is one. *)
Definition floor (x : spec_float) : spec_float :=
  match x with
  | S754_finite s m e =>
      binary_normalize prec emax (Z.shiftl (cond_Zopp s (Zpos m)) e) 0 s
  | _ => x
  end.

Definition ltb (x y : spec_float) : bool := SFltb x y.

(** [requested < std::floor(0.1 * n_elem)] for two [size_t]: the product and
    the floor are computed in [double], and [requested] is converted to
    [double] for the comparison. *)
Definition below_tenth (requested n_elem : Z) : bool :=
  ltb (of_size_t requested) (floor (mul tenth (of_size_t n_elem))).

End Double.

(** ** [DatasetMapper] *)

Module DatasetMapper.

Inductive Datatype : Type := numeric | categorical.

Section Mapper.

(** The mapped type [T] of [UnmapString<T>] and [NumUnmappings<T>], a
    floating-point type: [isnan] is [std::isnan], and [nan_key] is
    [std::nexttoward(std::numeric_limits<T>::max(), T(0))]. *)
Context {T : Type} `{Countable T} {PolicyType : Type}.
Variable isnan : T → bool.
Variable nan_key : T.

(** The members: the type of each dimension; [maps], of type [MapType], which
    holds per dimension the forward map (string to value) and the reverse map
    (value to the strings mapped to it); and the mapping policy. *)
Record t : Type := mk {
  types : list Datatype;
  maps : gmap Z (gmap string T * gmap T (list string));
  policy : PolicyType
}.

(** [DatasetMapper(policy, dimensionality)] *)
Definition new (policy : PolicyType) (dimensionality : Z) : t :=
  {| types := replicate (Z.to_nat dimensionality) numeric;
     maps := ∅;
     policy := policy |}.

(** [maps.at(dimension)] and [.second.at(value)]: [at] throws
    [std::out_of_range] for a missing key. *)
Definition at_ {K V : Type} `{Countable K} (m : gmap K V) (k : K) : outcome V :=
  match m !! k with
  | Some v => Return v
  | None => Throw out_of_range
  end.

Definition UnmapString (self : t) (value : T) (dimension unmappingIndex : Z)
  : outcome string :=
  let usedValue := if isnan value then nan_key else value in
  d ← at_ (maps self) dimension;
  if bool_decide (d.2 !! usedValue = None) then Throw invalid_argument else
  d' ← at_ (maps self) dimension;
  strings ← at_ d'.2 usedValue;
  if bool_decide (Z.of_nat (length strings) ≤ unmappingIndex)
  then Throw invalid_argument
  else
    d'' ← at_ (maps self) dimension;
    strings' ← at_ d''.2 usedValue;
    index strings' unmappingIndex.

Definition NumUnmappings (self : t) (value : T) (dimension : Z) : outcome Z :=
  if isnan value then
    let newValue := nan_key in
    d ← at_ (maps self) dimension;
    strings ← at_ d.2 newValue;
    Return (Z.of_nat (length strings))
  else
    d ← at_ (maps self) dimension;
    strings ← at_ d.2 value;
    Return (Z.of_nat (length strings)).

Definition Dimensionality (self : t) : Z := Z.of_nat (length (types self)).

(** [Datatype Type(const size_t dimension) const] *)
Definition Type_const (self : t) (dimension : Z) : outcome Datatype :=
  if bool_decide (Z.of_nat (length (types self)) ≤ dimension)
  then Throw invalid_argument
  else index (types self) dimension.


(** [maps[dimension]] in a non-const method: [operator[]] inserts an entry
    with two empty maps for a dimension that has none, and hands out the
    entry. *)
Definition subscript (m : gmap Z (gmap string T * gmap T (list string)))
    (dimension : Z)
  : gmap Z (gmap string T * gmap T (list string))
    * (gmap string T * gmap T (list string)) :=
  match m !! dimension with
  | Some d => (m, d)
  | None => (<[dimension := (∅, ∅)]> m, (∅, ∅))
  end.

(** [UnmapValue(string, dimension)]: the mapper as the call leaves it (also
    when it throws) and the outcome. *)
Definition UnmapValue (self : t) (string : string) (dimension : Z)
  : t * outcome T :=
  let r := subscript (maps self) dimension in
  if bool_decide (r.2.1 !! string = None)
  then ({| types := types self; maps := r.1; policy := policy self |},
        Throw invalid_argument)
  else
    let r' := subscript r.1 dimension in
    ({| types := types self; maps := r'.1; policy := policy self |},
     at_ r'.2.1 string).

(** [NumMappings(dimension)] *)
Definition NumMappings (self : t) (dimension : Z) : Z :=
  match maps self !! dimension with
  | None => 0
  | Some d => Z.of_nat (size d.1)
  end.


(** The key that a value denotes in the reverse maps. *)
Definition used_key (value : T) : T := if isnan value then nan_key else value.

(** "The key has a mapping in dimension [d]". *)
Definition has_mapping (self : t) (key : T) (dimension : Z) : Prop :=
  ∃ d strings, maps self !! dimension = Some d ∧ d.2 !! key = Some strings.

(** "[k] is at least the number of unmappings stored for the key". *)
Definition index_past_unmappings (self : t) (key : T) (dimension k : Z) : Prop :=
  ∃ d strings, maps self !! dimension = Some d ∧ d.2 !! key = Some strings
               ∧ Z.of_nat (length strings) ≤ k.

End Mapper.

Arguments t T {_ _} PolicyType.

End DatasetMapper.

(** ** The feed-forward network *)

Module Ann.

(** *** Matrices and memory

    An Armadillo matrix is a descriptor: where its elements start, its shape,
    and whether it is a strict alias of memory it does not own (the
    constructor [Mat(ptr, rows, cols, false, true)]).  Element contents live
    in the store, which the engine never inspects. *)

Record Ptr : Type := mkPtr { block : N; offset : Z }.

Definition nullptr : Ptr := mkPtr 0 0.

(** [p + n] on an element pointer. *)
Definition ptr_add (p : Ptr) (n : Z) : Ptr := mkPtr (block p) (offset p + n).

Record Mat : Type := mkMat {
  memptr : Ptr;
  n_rows : Z;
  n_cols : Z;
  strict_alias : bool
}.

Definition n_elem (m : Mat) : Z := SizeT.mul (n_rows m) (n_cols m).
Definition is_empty (m : Mat) : bool := n_elem m =? 0.

(** A default-constructed matrix, and a matrix after [clear()]. *)
Definition empty_Mat : Mat := mkMat nullptr 0 0 false.

#[export] Instance Ptr_eq_dec : EqDecision Ptr.
Proof. solve_decision. Defined.
#[export] Instance Mat_eq_dec : EqDecision Mat.
Proof. solve_decision. Defined.

(** [MakeAlias(m, newMem, numRows, numCols)]: [m] is destroyed and rebuilt in
    place as a strict alias of [newMem]. *)
Definition MakeAlias (newMem : Ptr) (numRows numCols : Z) : Mat :=
  mkMat newMem numRows numCols true.

(** [m.cols(first, last)]: the columns of a column-major matrix are
    contiguous.  Armadillo checks the bounds. *)
Definition cols (m : Mat) (first last : Z) : outcome Mat :=
  if (last <? first) || (n_cols m <=? last)
  then Throw (logic_error "Mat::cols(): indices out of bounds or incorrectly used")
  else Return (mkMat (ptr_add (memptr m) (SizeT.mul first (n_rows m)))
                     (n_rows m) (SizeT.add (SizeT.sub last first) 1) true).

Definition front {A : Type} (l : list A) : outcome A :=
  match l with
  | a :: _ => Return a
  | [] => Undefined
  end.

Definition back {A : Type} (l : list A) : outcome A :=
  match last l with
  | Some a => Return a
  | None => Undefined
  end.

Section Engine.

(** The concrete layer kinds, the store holding the contents of every buffer
    and the numeric state of the layers, the output (loss) layer and the
    weight-initialization rule are external to the engine. *)
Context {Kind Mem OutputLayerType InitializationRuleType : Type}.

(** The heap: the next fresh allocation and the store. *)
Record World : Type := mkWorld { next_block : N; store : Mem }.

(** [OutputType(rows, cols)]: a fresh owning matrix. *)
Definition alloc (rows cols : Z) (w : World) : Mat * World :=
  (mkMat (mkPtr (next_block w) 0) rows cols false,
   mkWorld (next_block w + 1)%N (store w)).

(** A layer: the members of the [Layer] base class that the engine reaches
    through reference accessors ([InputDimensions()], [Deterministic()]) and
    through [SetWeights()], and the concrete layer behind them. *)
Record Layer : Type := mkLayer {
  kind : Kind;
  layer_inputDimensions : list Z;
  layer_deterministic : bool;
  layer_weights : Ptr
}.

(** The layer capability contract.  A layer call acts on the store, which
    holds the elements of every buffer and the numeric state of the layers:
    it reads its inputs there and writes the matrix it is handed as output.
    The members of the engine, the matrix headers among them, are as the
    engine sets them: the properties of the passes are about the calls the
    engine makes and the operands it hands over, not about what a layer does
    with them (a layer's call always comes back, and the shape a layer may
    give its output is not followed). *)
Class Capabilities : Type := {
  kind_WeightSize : Kind → list Z → Z;
  kind_OutputDimensions : Kind → list Z → list Z;
  kind_OutputSize : Kind → list Z → Z;
  layer_Loss : Layer → Mem → float;
  layer_Forward : Layer → Mat → Mat → Mem → Mem;
  layer_Backward : Layer → Mat → Mat → Mat → Mem → Mem;
  layer_Gradient : Layer → Mat → Mat → Mat → Mem → Mem;
  outputLayer_Forward : OutputLayerType → Mat → Mat → Mem → float;
  outputLayer_Backward : OutputLayerType → Mat → Mat → Mat → World → Mat * World;
  rule_Initialize : InitializationRuleType → Mat → Mem → Mem
}.

Context `{!Capabilities}.

Definition WeightSize (l : Layer) : Z :=
  kind_WeightSize (kind l) (layer_inputDimensions l).
Definition OutputDimensions (l : Layer) : list Z :=
  kind_OutputDimensions (kind l) (layer_inputDimensions l).
Definition OutputSize (l : Layer) : Z :=
  kind_OutputSize (kind l) (layer_inputDimensions l).

Definition SetWeights (weightsPtr : Ptr) (l : Layer) : Layer :=
  mkLayer (kind l) (layer_inputDimensions l) (layer_deterministic l) weightsPtr.
Definition set_Deterministic (b : bool) (l : Layer) : Layer :=
  mkLayer (kind l) (layer_inputDimensions l) b (layer_weights l).
Definition set_InputDimensions (d : list Z) (l : Layer) : Layer :=
  mkLayer (kind l) d (layer_deterministic l) (layer_weights l).

(** *** The class [FFN] *)

Record FFN : Type := mkFFN {
  outputLayer : OutputLayerType;
  initializeRule : InitializationRuleType;
  reset : bool;
  network : list Layer;
  parameters : Mat;
  inputDimensions : list Z;
  predictors : Mat;
  responses : Mat;
  numFunctions : Z;
  error : Mat;
  deterministic : bool;
  layerOutputMatrix : Mat;
  layerOutputs : list Mat;
  deltaMatrix : Mat;
  layerDeltas : list Mat;
  gradientMatrix : Mat;
  layerGradients : list Mat;
  totalInputSize : Z;
  totalOutputSize : Z;
  layerMemoryIsSet : bool;
  inputDimensionsAreSet : bool
}.

(** Assignment to one member. *)
Definition set_network (v : list Layer) (self : FFN) : FFN :=
  mkFFN (self.(outputLayer)) (self.(initializeRule)) (self.(reset)) v
    (self.(parameters)) (self.(inputDimensions)) (self.(predictors))
    (self.(responses)) (self.(numFunctions)) (self.(error))
    (self.(deterministic)) (self.(layerOutputMatrix)) (self.(layerOutputs))
    (self.(deltaMatrix)) (self.(layerDeltas)) (self.(gradientMatrix))
    (self.(layerGradients)) (self.(totalInputSize)) (self.(totalOutputSize))
    (self.(layerMemoryIsSet)) (self.(inputDimensionsAreSet)).
Definition set_layerMemoryIsSet (v : bool) (self : FFN) : FFN :=
  mkFFN (self.(outputLayer)) (self.(initializeRule)) (self.(reset))
    (self.(network)) (self.(parameters)) (self.(inputDimensions))
    (self.(predictors)) (self.(responses)) (self.(numFunctions))
    (self.(error)) (self.(deterministic)) (self.(layerOutputMatrix))
    (self.(layerOutputs)) (self.(deltaMatrix)) (self.(layerDeltas))
    (self.(gradientMatrix)) (self.(layerGradients)) (self.(totalInputSize))
    (self.(totalOutputSize)) v (self.(inputDimensionsAreSet)).
Definition set_totalInputSize (v : Z) (self : FFN) : FFN :=
  mkFFN (self.(outputLayer)) (self.(initializeRule)) (self.(reset))
    (self.(network)) (self.(parameters)) (self.(inputDimensions))
    (self.(predictors)) (self.(responses)) (self.(numFunctions))
    (self.(error)) (self.(deterministic)) (self.(layerOutputMatrix))
    (self.(layerOutputs)) (self.(deltaMatrix)) (self.(layerDeltas))
    (self.(gradientMatrix)) (self.(layerGradients)) v (self.(totalOutputSize))
    (self.(layerMemoryIsSet)) (self.(inputDimensionsAreSet)).
Definition set_totalOutputSize (v : Z) (self : FFN) : FFN :=
  mkFFN (self.(outputLayer)) (self.(initializeRule)) (self.(reset))
    (self.(network)) (self.(parameters)) (self.(inputDimensions))
    (self.(predictors)) (self.(responses)) (self.(numFunctions))
    (self.(error)) (self.(deterministic)) (self.(layerOutputMatrix))
    (self.(layerOutputs)) (self.(deltaMatrix)) (self.(layerDeltas))
    (self.(gradientMatrix)) (self.(layerGradients)) (self.(totalInputSize)) v
    (self.(layerMemoryIsSet)) (self.(inputDimensionsAreSet)).
Definition set_layerOutputMatrix (v : Mat) (self : FFN) : FFN :=
  mkFFN (self.(outputLayer)) (self.(initializeRule)) (self.(reset))
    (self.(network)) (self.(parameters)) (self.(inputDimensions))
    (self.(predictors)) (self.(responses)) (self.(numFunctions))
    (self.(error)) (self.(deterministic)) v (self.(layerOutputs))
    (self.(deltaMatrix)) (self.(layerDeltas)) (self.(gradientMatrix))
    (self.(layerGradients)) (self.(totalInputSize)) (self.(totalOutputSize))
    (self.(layerMemoryIsSet)) (self.(inputDimensionsAreSet)).
Definition set_layerOutputs (v : list Mat) (self : FFN) : FFN :=
  mkFFN (self.(outputLayer)) (self.(initializeRule)) (self.(reset))
    (self.(network)) (self.(parameters)) (self.(inputDimensions))
    (self.(predictors)) (self.(responses)) (self.(numFunctions))
    (self.(error)) (self.(deterministic)) (self.(layerOutputMatrix)) v
    (self.(deltaMatrix)) (self.(layerDeltas)) (self.(gradientMatrix))
    (self.(layerGradients)) (self.(totalInputSize)) (self.(totalOutputSize))
    (self.(layerMemoryIsSet)) (self.(inputDimensionsAreSet)).
Definition set_deltaMatrix (v : Mat) (self : FFN) : FFN :=
  mkFFN (self.(outputLayer)) (self.(initializeRule)) (self.(reset))
    (self.(network)) (self.(parameters)) (self.(inputDimensions))
    (self.(predictors)) (self.(responses)) (self.(numFunctions))
    (self.(error)) (self.(deterministic)) (self.(layerOutputMatrix))
    (self.(layerOutputs)) v (self.(layerDeltas)) (self.(gradientMatrix))
    (self.(layerGradients)) (self.(totalInputSize)) (self.(totalOutputSize))
    (self.(layerMemoryIsSet)) (self.(inputDimensionsAreSet)).
Definition set_layerDeltas (v : list Mat) (self : FFN) : FFN :=
  mkFFN (self.(outputLayer)) (self.(initializeRule)) (self.(reset))
    (self.(network)) (self.(parameters)) (self.(inputDimensions))
    (self.(predictors)) (self.(responses)) (self.(numFunctions))
    (self.(error)) (self.(deterministic)) (self.(layerOutputMatrix))
    (self.(layerOutputs)) (self.(deltaMatrix)) v (self.(gradientMatrix))
    (self.(layerGradients)) (self.(totalInputSize)) (self.(totalOutputSize))
    (self.(layerMemoryIsSet)) (self.(inputDimensionsAreSet)).
Definition set_layerGradients (v : list Mat) (self : FFN) : FFN :=
  mkFFN (self.(outputLayer)) (self.(initializeRule)) (self.(reset))
    (self.(network)) (self.(parameters)) (self.(inputDimensions))
    (self.(predictors)) (self.(responses)) (self.(numFunctions))
    (self.(error)) (self.(deterministic)) (self.(layerOutputMatrix))
    (self.(layerOutputs)) (self.(deltaMatrix)) (self.(layerDeltas))
    (self.(gradientMatrix)) v (self.(totalInputSize)) (self.(totalOutputSize))
    (self.(layerMemoryIsSet)) (self.(inputDimensionsAreSet)).
Definition set_inputDimensions (v : list Z) (self : FFN) : FFN :=
  mkFFN (self.(outputLayer)) (self.(initializeRule)) (self.(reset))
    (self.(network)) (self.(parameters)) v (self.(predictors))
    (self.(responses)) (self.(numFunctions)) (self.(error))
    (self.(deterministic)) (self.(layerOutputMatrix)) (self.(layerOutputs))
    (self.(deltaMatrix)) (self.(layerDeltas)) (self.(gradientMatrix))
    (self.(layerGradients)) (self.(totalInputSize)) (self.(totalOutputSize))
    (self.(layerMemoryIsSet)) (self.(inputDimensionsAreSet)).
Definition set_inputDimensionsAreSet (v : bool) (self : FFN) : FFN :=
  mkFFN (self.(outputLayer)) (self.(initializeRule)) (self.(reset))
    (self.(network)) (self.(parameters)) (self.(inputDimensions))
    (self.(predictors)) (self.(responses)) (self.(numFunctions))
    (self.(error)) (self.(deterministic)) (self.(layerOutputMatrix))
    (self.(layerOutputs)) (self.(deltaMatrix)) (self.(layerDeltas))
    (self.(gradientMatrix)) (self.(layerGradients)) (self.(totalInputSize))
    (self.(totalOutputSize)) (self.(layerMemoryIsSet)) v.
Definition set_numFunctions (v : Z) (self : FFN) : FFN :=
  mkFFN (self.(outputLayer)) (self.(initializeRule)) (self.(reset))
    (self.(network)) (self.(parameters)) (self.(inputDimensions))
    (self.(predictors)) (self.(responses)) v (self.(error))
    (self.(deterministic)) (self.(layerOutputMatrix)) (self.(layerOutputs))
    (self.(deltaMatrix)) (self.(layerDeltas)) (self.(gradientMatrix))
    (self.(layerGradients)) (self.(totalInputSize)) (self.(totalOutputSize))
    (self.(layerMemoryIsSet)) (self.(inputDimensionsAreSet)).
Definition set_predictors (v : Mat) (self : FFN) : FFN :=
  mkFFN (self.(outputLayer)) (self.(initializeRule)) (self.(reset))
    (self.(network)) (self.(parameters)) (self.(inputDimensions)) v
    (self.(responses)) (self.(numFunctions)) (self.(error))
    (self.(deterministic)) (self.(layerOutputMatrix)) (self.(layerOutputs))
    (self.(deltaMatrix)) (self.(layerDeltas)) (self.(gradientMatrix))
    (self.(layerGradients)) (self.(totalInputSize)) (self.(totalOutputSize))
    (self.(layerMemoryIsSet)) (self.(inputDimensionsAreSet)).
Definition set_responses (v : Mat) (self : FFN) : FFN :=
  mkFFN (self.(outputLayer)) (self.(initializeRule)) (self.(reset))
    (self.(network)) (self.(parameters)) (self.(inputDimensions))
    (self.(predictors)) v (self.(numFunctions)) (self.(error))
    (self.(deterministic)) (self.(layerOutputMatrix)) (self.(layerOutputs))
    (self.(deltaMatrix)) (self.(layerDeltas)) (self.(gradientMatrix))
    (self.(layerGradients)) (self.(totalInputSize)) (self.(totalOutputSize))
    (self.(layerMemoryIsSet)) (self.(inputDimensionsAreSet)).
Definition set_deterministic (v : bool) (self : FFN) : FFN :=
  mkFFN (self.(outputLayer)) (self.(initializeRule)) (self.(reset))
    (self.(network)) (self.(parameters)) (self.(inputDimensions))
    (self.(predictors)) (self.(responses)) (self.(numFunctions))
    (self.(error)) v (self.(layerOutputMatrix)) (self.(layerOutputs))
    (self.(deltaMatrix)) (self.(layerDeltas)) (self.(gradientMatrix))
    (self.(layerGradients)) (self.(totalInputSize)) (self.(totalOutputSize))
    (self.(layerMemoryIsSet)) (self.(inputDimensionsAreSet)).
Definition set_parameters (v : Mat) (self : FFN) : FFN :=
  mkFFN (self.(outputLayer)) (self.(initializeRule)) (self.(reset))
    (self.(network)) v (self.(inputDimensions)) (self.(predictors))
    (self.(responses)) (self.(numFunctions)) (self.(error))
    (self.(deterministic)) (self.(layerOutputMatrix)) (self.(layerOutputs))
    (self.(deltaMatrix)) (self.(layerDeltas)) (self.(gradientMatrix))
    (self.(layerGradients)) (self.(totalInputSize)) (self.(totalOutputSize))
    (self.(layerMemoryIsSet)) (self.(inputDimensionsAreSet)).
Definition set_error (v : Mat) (self : FFN) : FFN :=
  mkFFN (self.(outputLayer)) (self.(initializeRule)) (self.(reset))
    (self.(network)) (self.(parameters)) (self.(inputDimensions))
    (self.(predictors)) (self.(responses)) (self.(numFunctions)) v
    (self.(deterministic)) (self.(layerOutputMatrix)) (self.(layerOutputs))
    (self.(deltaMatrix)) (self.(layerDeltas)) (self.(gradientMatrix))
    (self.(layerGradients)) (self.(totalInputSize)) (self.(totalOutputSize))
    (self.(layerMemoryIsSet)) (self.(inputDimensionsAreSet)).

Definition State : Type := FFN * World.

(** *** [SetLayerMemory] (lines 643-665) *)

Definition msg_past_end : string :=
  "FNN::SetLayerMemory(): parameter size does not match total layer weight size!".
Definition msg_total : string :=
  "FNN::SetLayerMemory(): total layer weight size does not match parameter size!".

(** The loop over the layers, from the running [totalWeightSize]: the layers
    with their weights set, and the final [totalWeightSize]. *)
Fixpoint SetLayerMemory_loop (parameters : Mat) (totalWeightSize : Z)
    (layers : list Layer) : outcome (list Layer * Z) :=
  match layers with
  | [] => Return ([], totalWeightSize)
  | l :: rest =>
      let weightSize := WeightSize l in
      _ ← Log_Assert (SizeT.add totalWeightSize weightSize <=? n_elem parameters)
            msg_past_end;
      let l' := SetWeights (ptr_add (memptr parameters) totalWeightSize) l in
      r ← SetLayerMemory_loop parameters (SizeT.add totalWeightSize weightSize) rest;
      Return (l' :: r.1, r.2)
  end.

Definition SetLayerMemory (self : FFN) : outcome FFN :=
  r ← SetLayerMemory_loop (parameters self) 0 (network self);
  _ ← Log_Assert (r.2 =? n_elem (parameters self)) msg_total;
  Return (set_layerMemoryIsSet true (set_network r.1 self)).

(** *** [InitializeForwardPassMemory] (lines 851-891) *)

Definition msg_alias : string := "Creating alias outside bounds!".

(** The first loop: [totalInputSize] and [totalOutputSize] after it.  The
    test [i < network.size()] inside the loop is the loop condition again. *)
Definition accumulate_sizes (layers : list Layer) (totalInputSize : Z) : Z * Z :=
  fold_left (λ (acc : Z * Z) l,
               let layerOutputSize := OutputSize l in
               (SizeT.add acc.1 layerOutputSize, SizeT.add acc.2 layerOutputSize))
            layers (totalInputSize, 0).

(** The second loop, over [layerOutputs], from the running [start]. *)
Fixpoint alias_outputs (base : Ptr) (batchSize totalOutputSize start : Z)
    (layers : list Layer) (views : list Mat) {struct views} : outcome (list Mat) :=
  match views with
  | [] => Return []
  | _ :: views' =>
      match layers with
      | [] => Undefined
      | l :: layers' =>
          let layerOutputSize := OutputSize l in
          _ ← Log_Assert
                (SizeT.add start (SizeT.mul layerOutputSize batchSize)
                   <=? SizeT.mul batchSize totalOutputSize) msg_alias;
          let view := MakeAlias (ptr_add base start) layerOutputSize batchSize in
          rest ← alias_outputs base batchSize totalOutputSize
                   (SizeT.add start (SizeT.mul batchSize layerOutputSize))
                   layers' views';
          Return (view :: rest)
      end
  end.

(** The hysteresis test on an arena of [capacity] elements, the shrink being
    judged against [reference] elements. *)
Definition must_reallocate (requested capacity reference : Z) : bool :=
  (capacity <? requested) || Double.below_tenth requested reference.

Definition InitializeForwardPassMemory (batchSize : Z) (s : State) : outcome State :=
  let '(self, w) := s in
  let sizes := accumulate_sizes (network self)
                 (SizeT.of_int (SizeT.accumulate_int (inputDimensions self))) in
  let self := set_totalOutputSize sizes.2 (set_totalInputSize sizes.1 self) in
  let requested := SizeT.mul batchSize (totalOutputSize self) in
  let '(self, w) :=
    if must_reallocate requested (n_elem (layerOutputMatrix self))
         (n_elem (layerOutputMatrix self))
    then let '(m, w') := alloc 1 requested w in (set_layerOutputMatrix m self, w')
    else (self, w) in
  views ← alias_outputs (memptr (layerOutputMatrix self)) batchSize
            (totalOutputSize self) 0 (network self) (layerOutputs self);
  Return (set_layerOutputs views self, w).

(** *** [InitializeBackwardPassMemory] (lines 905-936) *)

Fixpoint alias_deltas (layers : list Layer) (base : Ptr)
    (batchSize totalInputSize inputSize start : Z) (i : nat)
    (views : list Mat) : outcome (list Mat) :=
  match views with
  | [] => Return []
  | _ :: views' =>
      layerInputSize ←
        match i with
        | O => Return inputSize
        | S j => l ← index layers (Z.of_nat j); Return (OutputSize l)
        end;
      _ ← Log_Assert
            (SizeT.add start (SizeT.mul layerInputSize batchSize)
               <=? SizeT.mul batchSize totalInputSize) msg_alias;
      let view := MakeAlias (ptr_add base start) layerInputSize batchSize in
      rest ← alias_deltas layers base batchSize totalInputSize inputSize
               (SizeT.add start (SizeT.mul batchSize layerInputSize)) (S i) views';
      Return (view :: rest)
  end.

Definition InitializeBackwardPassMemory (batchSize : Z) (s : State) : outcome State :=
  let '(self, w) := s in
  let inputSize := SizeT.of_int (SizeT.accumulate_int (inputDimensions self)) in
  let requested := SizeT.mul batchSize (totalInputSize self) in
  let '(self, w) :=
    if must_reallocate requested (n_elem (deltaMatrix self))
         (n_elem (layerOutputMatrix self))
    then let '(m, w') := alloc 1 requested w in (set_deltaMatrix m self, w')
    else (self, w) in
  views ← alias_deltas (network self) (memptr (deltaMatrix self)) batchSize
            (totalInputSize self) inputSize 0 0 (layerDeltas self);
  Return (set_layerDeltas views self, w).

(** *** [InitializeGradientPassMemory] (lines 947-957) *)

Fixpoint alias_gradients (base : Ptr) (start : Z) (layers : list Layer)
    (views : list Mat) {struct views} : outcome (list Mat) :=
  match views with
  | [] => Return []
  | _ :: views' =>
      match layers with
      | [] => Undefined
      | l :: layers' =>
          let layerParamSize := WeightSize l in
          rest ← alias_gradients base (SizeT.add start layerParamSize) layers' views';
          Return (MakeAlias (ptr_add base start) layerParamSize 1 :: rest)
      end
  end.

Definition InitializeGradientPassMemory (gradient : Mat) (self : FFN) : outcome FFN :=
  views ← alias_gradients (memptr gradient) 0 (network self) (layerGradients self);
  Return (set_layerGradients views self).

(** *** Mode broadcast and weight initialization *)

(** [ResetDeterministic] (lines 676-681). *)
Definition ResetDeterministic (self : FFN) : FFN :=
  set_network (map (set_Deterministic true) (network self)) self.

Definition TotalWeightSize (layers : list Layer) : Z :=
  fold_left (λ weights l, SizeT.add weights (WeightSize l)) layers 0.

(** Modelled from the spec: [NetworkInitialization::Initialize]
    (init_rules/network_init.hpp is not among the sources).  "If the buffer is
    empty, allocate [TotalWeightSize()] elements and invoke the configured
    weight-initialization rule to fill it." *)
Definition NetworkInitialization_Initialize (rule : InitializationRuleType)
    (layers : list Layer) (parameters : Mat) (w : World) : Mat * World :=
  if is_empty parameters then
    let '(m, w') := alloc (TotalWeightSize layers) 1 w in
    (m, mkWorld (next_block w') (rule_Initialize rule m (store w')))
  else (parameters, w).

(** [InitializeWeights] (lines 625-632). *)
Definition InitializeWeights (s : State) : State :=
  let '(self, w) := s in
  let self := ResetDeterministic self in
  let '(m, w) := NetworkInitialization_Initialize (initializeRule self)
                   (network self) (parameters self) w in
  (set_parameters m self, w).

(** [ResetData] (lines 151-161). *)
Definition ResetData (predictors responses : Mat) (s : State) : State :=
  let '(self, w) := s in
  let self := set_numFunctions (n_cols responses) self in
  let self := set_predictors predictors self in
  let self := set_responses responses self in
  let self := set_deterministic false self in
  let self := ResetDeterministic self in
  if negb (reset self) then InitializeWeights (self, w) else (self, w).

(** [Train] (lines 220-237).  The optimizer is external: [Optimize] stands
    for the call of [optimizer.Optimize] on this network and its parameters.
    The warning about the iteration budget only logs. *)
Definition Train {OptimizerType : Type}
    (Optimize : OptimizerType → State → outcome (float * State))
    (predictors responses : Mat) (optimizer : OptimizerType) (s : State)
  : outcome (float * State) :=
  let s := ResetData predictors responses s in
  Optimize optimizer s.

(** *** [Forward] (lines 275-368) *)

(** A [for (size_t i = lo; i < hi; ++i)] loop. *)
Fixpoint for_loop {S : Type} (count : nat) (i : Z) (body : Z → S → outcome S)
    (s : S) : outcome S :=
  match count with
  | O => Return s
  | S count' => s' ← body i s; for_loop count' (i + 1) body s'
  end.

Definition for_range {S : Type} (lo hi : Z) (body : Z → S → outcome S) (s : S)
  : outcome S :=
  for_loop (Z.to_nat (hi - lo)) lo body s.

(** What the reference parameter [results] designates: a matrix of the
    caller, or the member [layerOutputs.back()] (as [Evaluate] passes it). *)
Inductive MatRef : Type :=
| caller_matrix (m : Mat)
| layerOutputs_back.

Definition read_ref (r : MatRef) (self : FFN) : outcome Mat :=
  match r with
  | caller_matrix m => Return m
  | layerOutputs_back => back (layerOutputs self)
  end.

Definition write_ref (r : MatRef) (m : Mat) (self : FFN) : MatRef * FFN :=
  match r with
  | caller_matrix _ => (caller_matrix m, self)
  | layerOutputs_back =>
      (layerOutputs_back,
       set_layerOutputs
         (<[pred (length (layerOutputs self)) := m]> (layerOutputs self)) self)
  end.

(** Armadillo's [Mat::set_size(n)]: an [n] by 1 matrix; the memory is kept
    when the element count does not change, and a strict alias cannot change
    its element count. *)
Definition Mat_set_size (new_n_elem : Z) (m : Mat) (w : World)
  : outcome (Mat * World) :=
  if n_elem m =? SizeT.mul new_n_elem 1
  then Return (mkMat (memptr m) new_n_elem 1 (strict_alias m), w)
  else if strict_alias m
  then Throw (logic_error
         "Mat::init(): mismatch between size of auxiliary memory and requested size")
  else Return (alloc new_n_elem 1 w).

Definition msg_shape : string :=
  "FFN::Forward(): input size does not match expected size set with InputDimensions()!".

(** The loop of lines 330-341, from layer [i] on: [previous] is layer [i-1]
    as already updated, and [rest] is empty exactly at the last layer. *)
Fixpoint propagate_dimensions (previous : Layer) (layers : list Layer)
    (totalInputSize totalOutputSize : Z) : list Layer * (Z * Z) :=
  match layers with
  | [] => ([], (totalInputSize, totalOutputSize))
  | l :: rest =>
      let l' := set_InputDimensions (OutputDimensions previous) l in
      let layerOutputSize := OutputSize l' in
      let totalInputSize' :=
        match rest with
        | [] => totalInputSize
        | _ :: _ => SizeT.add totalInputSize layerOutputSize
        end in
      let r := propagate_dimensions l' rest totalInputSize'
                 (SizeT.add totalOutputSize layerOutputSize) in
      (l' :: r.1, r.2)
  end.

(** The body of the [if] of lines 313-344. *)
Definition resolve_dimensions (inputs : Mat) (self : FFN) : outcome FFN :=
  let self :=
    if (length (inputDimensions self) =? 0)%nat
    then set_inputDimensions [n_rows inputs] self
    else self in
  let self := set_totalInputSize
                (SizeT.of_int (SizeT.accumulate_int (inputDimensions self))) self in
  _ ← Log_Assert (totalInputSize self =? n_rows inputs) msg_shape;
  let self := set_totalOutputSize 0 self in
  match network self with
  | [] => Undefined
  | first :: rest =>
      let first' := set_InputDimensions (inputDimensions self) first in
      let r := propagate_dimensions first' rest (totalInputSize self)
                 (totalOutputSize self) in
      Return (set_inputDimensionsAreSet true
                (set_totalOutputSize r.2.2
                   (set_totalInputSize r.2.1
                      (set_network (first' :: r.1) self))))
  end.

(** Lines 304-310: weights and layer memory. *)
Definition ensure_weights (s : State) : outcome State :=
  let s := if is_empty (parameters s.1) then InitializeWeights s else s in
  if negb (layerMemoryIsSet s.1)
  then self ← SetLayerMemory s.1; Return (self, s.2)
  else Return s.

(** Lines 313-344: the input dimensions, when they have to be passed through
    the network. *)
Definition ensure_dimensions (inputs : Mat) (self : FFN) : outcome FFN :=
  first ← front (network self);
  if bool_decide (layer_inputDimensions first ≠ inputDimensions self)
     || negb (inputDimensionsAreSet self)
  then resolve_dimensions inputs self
  else Return self.

(** Lines 352-367: the layers run in order. *)
Definition run_layers (inputs : Mat) (results : Mat) (begin end_ : Z)
    (self : FFN) (m : Mem) : outcome Mem :=
  if begin <? end_ then
    first ← index (network self) begin;
    out ← index (layerOutputs self) begin;
    let m := layer_Forward first inputs out m in
    m ← for_range 1 (SizeT.sub end_ begin)
          (λ i m,
             l ← index (network self) (SizeT.add begin i);
             a ← index (layerOutputs self) (SizeT.sub (SizeT.add begin i) 1);
             b ← index (layerOutputs self) (SizeT.add begin i);
             Return (layer_Forward l a b m)) m;
    l ← index (network self) end_;
    a ← index (layerOutputs self) (SizeT.sub end_ 1);
    Return (layer_Forward l a results m)
  else
    l ← index (network self) end_;
    Return (layer_Forward l inputs results m).

Definition Forward_range (inputs : Mat) (results : MatRef) (begin end_ : Z)
    (s : State) : outcome (MatRef * State) :=
  if end_ <? begin then Return (results, s) else
  s ← ensure_weights s;
  self ← ensure_dimensions inputs s.1;
  s ← InitializeForwardPassMemory (n_cols inputs) (self, s.2);
  l ← index (network s.1) end_;
  r ← read_ref results s.1;
  r' ← Mat_set_size (SizeT.mul (n_cols inputs) (OutputSize l)) r s.2;
  let '(results, self) := write_ref results r'.1 s.1 in
  m ← run_layers inputs r'.1 begin end_ self (store r'.2);
  Return (results, (self, mkWorld (next_block r'.2) m)).

(** [Forward(inputs, results)] (lines 275-278). *)
Definition Forward (inputs : Mat) (results : MatRef) (s : State)
  : outcome (MatRef * State) :=
  Forward_range inputs results 0
    (SizeT.sub (Z.of_nat (length (network s.1))) 1) s.

(** *** [Backward()] (lines 708-726) and [Gradient] (lines 737-752) *)

Definition Backward_pass (s : State) : outcome State :=
  out ← back (layerOutputs s.1);
  s ← InitializeBackwardPassMemory (n_cols out) s;
  let self := s.1 in
  let size := Z.of_nat (length (network self)) in
  l ← back (network self);
  out ← back (layerOutputs self);
  d ← back (layerDeltas self);
  let m := layer_Backward l out (error self) d (store s.2) in
  m ← for_range 2 (size + 1)
        (λ i m,
           l ← index (network self) (SizeT.sub size i);
           o ← index (layerOutputs self) (SizeT.sub size i);
           din ← index (layerDeltas self) (SizeT.add (SizeT.sub size i) 1);
           dout ← index (layerDeltas self) (SizeT.sub size i);
           Return (layer_Backward l o din dout m)) m;
  Return (self, mkWorld (next_block s.2) m).

(** The body of the loop of [Gradient] (lines 744-748), for the layers
    strictly between the first and the last. *)
Definition gradient_body (self : FFN) (i : Z) (m : Mem) : outcome Mem :=
  l ← index (network self) i;
  o ← index (layerOutputs self) (SizeT.sub i 1);
  d ← index (layerDeltas self) (SizeT.add i 1);
  g ← index (layerGradients self) i;
  Return (layer_Gradient l o d g m).

Definition Gradient (input gradient : Mat) (s : State) : outcome State :=
  self ← InitializeGradientPassMemory gradient s.1;
  let size := Z.of_nat (length (network self)) in
  l ← front (network self);
  d ← index (layerDeltas self) 1;
  g ← front (layerGradients self);
  let m := layer_Gradient l input d g (store s.2) in
  m ← for_range 1 (SizeT.sub size 1) (gradient_body self) m;
  l ← back (network self);
  o ← index (layerOutputs self) (SizeT.sub size 2);
  g ← back (layerGradients self);
  Return (self, mkWorld (next_block s.2) (layer_Gradient l o (error self) g m)).

(** *** The objective functions *)

(** [res += network[i]->Loss()] over the layers. *)
Definition add_losses (layers : list Layer) (m : Mem) (res : float) : float :=
  fold_left (λ res l, (res + layer_Loss l m)%float) layers res.

(** [Evaluate(parameters, begin, batchSize, deterministic)] (lines 490-518). *)
Definition Evaluate (begin batchSize : Z) (deterministic' : bool) (s : State)
  : outcome (float * State) :=
  let s := if is_empty (parameters s.1) then InitializeWeights s else s in
  let s :=
    if bool_decide (deterministic' ≠ deterministic s.1)
    then (ResetDeterministic (set_deterministic deterministic' s.1), s.2)
    else s in
  inputs ← cols (predictors s.1) begin (SizeT.sub (SizeT.add begin batchSize) 1);
  r ← Forward inputs layerOutputs_back s;
  let s := r.2 in
  out ← back (layerOutputs s.1);
  targets ← cols (responses s.1) begin (SizeT.sub (SizeT.add begin batchSize) 1);
  let res := outputLayer_Forward (outputLayer s.1) out targets (store s.2) in
  Return (add_losses (network s.1) (store s.2) res, s).

(** [EvaluateWithGradient(parameters, begin, gradient, batchSize)]
    (lines 558-583). *)
Definition EvaluateWithGradient (begin : Z) (gradient : Mat) (batchSize : Z)
    (s : State) : outcome (float * State) :=
  r ← Evaluate begin batchSize false s;
  let s := r.2 in
  let res := add_losses (network s.1) (store s.2) r.1 in
  out ← back (layerOutputs s.1);
  targets ← cols (responses s.1) begin (SizeT.sub (SizeT.add begin batchSize) 1);
  let '(error', w) := outputLayer_Backward (outputLayer s.1) out targets
                        (error s.1) s.2 in
  s ← Backward_pass (set_error error' s.1, w);
  inputs ← cols (predictors s.1) begin (SizeT.sub (SizeT.add begin batchSize) 1);
  s ← Gradient inputs gradient s;
  Return (res, s).

(** *** [serialize] (lines 758-806) *)

(** What an archive holds, in order. *)
Record Archived : Type := mkArchived {
  ar_outputLayer : OutputLayerType;
  ar_initializeRule : InitializationRuleType;
  ar_network : list Layer;
  ar_parameters : Mat;
  ar_inputDimensions : list Z;
  ar_reset : bool
}.

Inductive Archive : Type :=
| saving
| loading (content : Archived).

(** [layerOutputs.clear(); layerOutputs.resize(network.size(), OutputType())] *)
Definition cleared_views (layers : list Layer) : list Mat :=
  resize (length layers) empty_Mat [].

Definition serialize (ar : Archive) (self : FFN) : Archived * FFN :=
  match ar with
  | saving =>
      (mkArchived (outputLayer self) (initializeRule self) (network self)
         (parameters self) (inputDimensions self) (reset self), self)
  | loading a =>
      (a,
       mkFFN (ar_outputLayer a) (ar_initializeRule a) (ar_reset a)
         (ar_network a) (ar_parameters a) (ar_inputDimensions a)
         empty_Mat empty_Mat 0 (error self) true
         empty_Mat (cleared_views (ar_network a))
         empty_Mat (cleared_views (ar_network a))
         empty_Mat (cleared_views (ar_network a))
         (totalInputSize self) (totalOutputSize self)
         (layerMemoryIsSet self) (inputDimensionsAreSet self))
  end.

(** *** Vocabulary of the specification *)

(** The sum of a list of sizes, as a number (no wrap-around), and the sum of
    the first [i] of them: the offset of view [i]. *)
Definition sum_sizes (sizes : list Z) : Z := foldr Z.add 0 sizes.
Definition offset_of (sizes : list Z) (i : nat) : Z := sum_sizes (take i sizes).

(** The elements of the parameter buffer that a layer's weight view spans:
    from [view_start] up to, not including, [view_end]. *)
Definition view_start (l : Layer) : Z := offset (layer_weights l).
Definition view_end (l : Layer) : Z := view_start l + WeightSize l.

(** The views the specification describes: layer by layer, each starting
    where the previous one ends. *)
Fixpoint assign_views (base : Ptr) (start : Z) (layers : list Layer) : list Layer :=
  match layers with
  | [] => []
  | l :: rest =>
      SetWeights (ptr_add base start) l
        :: assign_views base (start + WeightSize l) rest
  end.

(** The arena views the specification describes: one view of [size] rows
    and [batchSize] columns per size, packed from [start] on. *)
Fixpoint slice_views (base : Ptr) (batchSize start : Z) (sizes : list Z) : list Mat :=
  match sizes with
  | [] => []
  | size :: rest =>
      MakeAlias (ptr_add base start) size batchSize
        :: slice_views base batchSize (start + batchSize * size) rest
  end.

(** The reallocation policy of the specification, for an arena that holds
    [capacity] elements: grow when more is requested, shrink when less than
    [floor(0.1 * capacity)] is, the tenth being the exact one, so that the
    floor is the integer quotient by ten. *)
Definition hysteresis (requested capacity : Z) : Prop :=
  capacity < requested ∨ requested < capacity / 10.

(** [totalOutputSize] as the first loop of [InitializeForwardPassMemory]
    leaves it. *)
Definition total_output_size (layers : list Layer) : Z :=
  fold_left (λ total l, SizeT.add total (OutputSize l)) layers 0.

(** The number of elements of a shape: the product of its per-axis sizes. *)
Definition product_sizes (shape : list Z) : Z := foldr Z.mul 1 shape.

(** One call of a layer's [Gradient]: the layer, the input and the delta it
    reads, and the gradient view it writes. *)
Record GradientOperands : Type := mkOperands {
  op_layer : Layer;
  op_input : Mat;
  op_delta : Mat;
  op_gradient : Mat
}.

Definition run_gradient_call (m : Mem) (c : GradientOperands) : Mem :=
  layer_Gradient (op_layer c) (op_input c) (op_delta c) (op_gradient c) m.

(** The operands the specification names for layer [i]: the raw input for
    layer 0 and the forward output of layer [i-1] otherwise; the error
    signal for the last layer and the delta of layer [i+1] otherwise. *)
Definition operands_at (input : Mat) (self : FFN) (i : nat)
  : option GradientOperands :=
  l ← network self !! i;
  a ← match i with
      | O => Some input
      | S j => layerOutputs self !! j
      end;
  d ← (if decide (S i = length (network self))
       then Some (error self)
       else layerDeltas self !! S i);
  g ← layerGradients self !! i;
  Some (mkOperands l a d g).

(** The sizes a layer reports are [size_t] values. *)
Definition sizes_valid (layers : list Layer) : Prop :=
  Forall (λ l, SizeT.valid (WeightSize l)) layers.

Definition output_sizes_valid (layers : list Layer) : Prop :=
  Forall (λ l, SizeT.valid (OutputSize l)) layers.

(** A computation that does not end on the input-shape assertion. *)
Definition no_shape_error {A : Type} (m : outcome A) : Prop :=
  m ≠ Throw (runtime_error msg_shape).

(** The elements of an arena that a view spans: from [mat_start] up to, not
    including, [mat_end]. *)
Definition mat_start (v : Mat) : Z := offset (memptr v).
Definition mat_end (v : Mat) : Z := offset (memptr v) + n_rows v * n_cols v.

(** The sizes of the delta views: a delta has the shape of its layer's
    input, the network's input for layer 0 and the output of layer [i-1] for
    layer [i]. *)
Definition delta_sizes (inputSize : Z) (layers : list Layer) : list Z :=
  take (length layers) (inputSize :: map OutputSize layers).

(** *** Further members *)

(** [Swap(network)] (lines 817-837): the members it exchanges, in the order
    of the source.  [totalInputSize], [layerMemoryIsSet] and
    [inputDimensionsAreSet] are not among them. *)
Definition Swap (self other : FFN) : FFN * FFN :=
  (mkFFN (outputLayer other) (initializeRule other) (reset other) (network other)
     (parameters other) (inputDimensions other) (predictors other)
     (responses other) (numFunctions other) (error other) (deterministic other)
     (layerOutputMatrix other) (layerOutputs other) (deltaMatrix other)
     (layerDeltas other) (gradientMatrix other) (layerGradients other)
     (totalInputSize self) (totalOutputSize other)
     (layerMemoryIsSet self) (inputDimensionsAreSet self),
   mkFFN (outputLayer self) (initializeRule self) (reset self) (network self)
     (parameters self) (inputDimensions self) (predictors self)
     (responses self) (numFunctions self) (error self) (deterministic self)
     (layerOutputMatrix self) (layerOutputs self) (deltaMatrix self)
     (layerDeltas self) (gradientMatrix self) (layerGradients self)
     (totalInputSize other) (totalOutputSize self)
     (layerMemoryIsSet other) (inputDimensionsAreSet other)).

(** [operator=(FFN network)] (lines 121-125): [network] is the by-value
    copy of the right-hand side, which is destroyed on return. *)
Definition assign (self network : FFN) : FFN := (Swap self network).1.

(** Armadillo's [Mat::set_size(rows, cols)]: as [set_size(n)], for a given
    shape. *)
Definition Mat_set_size_2 (rows cols : Z) (m : Mat) (w : World)
  : outcome (Mat * World) :=
  if n_elem m =? SizeT.mul rows cols
  then Return (mkMat (memptr m) rows cols (strict_alias m), w)
  else if strict_alias m
  then Throw (logic_error
         "Mat::init(): mismatch between size of auxiliary memory and requested size")
  else Return (alloc rows cols w).

(** [Mat(m.colptr(i), m.n_rows, 1, false, true)]: a strict alias of column
    [i]; [colptr] checks no bounds. *)
Definition column_alias (m : Mat) (i : Z) : Mat :=
  mkMat (ptr_add (memptr m) (SizeT.mul i (n_rows m))) (n_rows m) 1 true.

(** [Predict(predictors, results, batchSize)] (lines 410-434): one forward
    pass per column of the predictors, into the same column of the
    results. *)
Definition Predict (predictors results : Mat) (s : State) : outcome (Mat * State) :=
  let s := if is_empty (parameters s.1) then InitializeWeights s else s in
  let s :=
    if negb (deterministic s.1)
    then (ResetDeterministic (set_deterministic true s.1), s.2)
    else s in
  l ← back (network s.1);
  r ← Mat_set_size_2 (OutputSize l) (n_cols predictors) results s.2;
  let results := r.1 in
  s ← for_range 0 (n_cols predictors)
        (λ i s,
           r ← Forward (column_alias predictors i)
                 (caller_matrix (column_alias results i)) s;
           Return r.2)
        (s.1, r.2);
  Return (results, s).

(** *** Vocabulary of the passes *)

(** One call of a layer's [Forward]: the layer, the matrix it reads and the
    matrix it writes. *)
Record ForwardOperands : Type := mkForwardOperands {
  fw_layer : Layer;
  fw_input : Mat;
  fw_output : Mat
}.

Definition run_forward_call (m : Mem) (c : ForwardOperands) : Mem :=
  layer_Forward (fw_layer c) (fw_input c) (fw_output c) m.

(** The operands of layer [i] in a forward pass over the layers
    [begin .. end_]: the first layer reads [inputs] and a later one the
    output view of the layer before it; the last layer writes [results] and
    an earlier one its own output view. *)
Definition forward_operands_at (inputs results : Mat) (begin end_ : nat)
    (self : FFN) (i : nat) : option ForwardOperands :=
  l ← network self !! i;
  a ← (if decide (i = begin) then Some inputs else layerOutputs self !! pred i);
  b ← (if decide (i = end_) then Some results else layerOutputs self !! i);
  Some (mkForwardOperands l a b).

(** One call of a layer's [Backward]: the layer, its forward output, the
    error it receives and the delta view it writes. *)
Record BackwardOperands : Type := mkBackwardOperands {
  bw_layer : Layer;
  bw_output : Mat;
  bw_incoming : Mat;
  bw_delta : Mat
}.

Definition run_backward_call (m : Mem) (c : BackwardOperands) : Mem :=
  layer_Backward (bw_layer c) (bw_output c) (bw_incoming c) (bw_delta c) m.

(** The operands of layer [i] in the backward pass: the last layer receives
    the error of the output layer and an earlier one the delta of the layer
    after it. *)
Definition backward_operands_at (self : FFN) (i : nat) : option BackwardOperands :=
  l ← network self !! i;
  o ← layerOutputs self !! i;
  g ← (if decide (S i = length (network self))
       then Some (error self)
       else layerDeltas self !! S i);
  d ← layerDeltas self !! i;
  Some (mkBackwardOperands l o g d).

(** The members that no statement of a forward pass assigns, with the kinds
    of the layers. *)
Definition kept_by_Forward (self : FFN) :=
  (outputLayer self, initializeRule self, reset self, map kind (network self),
   predictors self, responses self, numFunctions self, error self,
   deterministic self, deltaMatrix self, layerDeltas self,
   gradientMatrix self, layerGradients self).

(** The mode flag of every layer. *)
Definition layer_modes (self : FFN) : list bool :=
  map layer_deterministic (network self).


(** Two layers that differ at most in their input dimensions. *)
Definition same_layer_but_dimensions (l l' : Layer) : Prop :=
  kind l' = kind l ∧ layer_deterministic l' = layer_deterministic l
  ∧ layer_weights l' = layer_weights l.

End Engine.

End Ann.

(** ** Concrete instances, for the examples *)

Module Examples.

Import DatasetMapper Ann.

(** *** Doubles as mapped values

    [double] keys are primitive floats; [std::isnan] is [is_nan].  (Keys are
    compared by identity of the value, which tells the two zeros apart where
    [operator==] does not; no example below maps a zero.) *)

#[export] Instance spec_float_eq_dec : EqDecision spec_float.
Proof. solve_decision. Defined.

#[export] Instance spec_float_countable : Countable spec_float.
Proof.
  refine (inj_countable'
    (λ f, match f with
          | S754_zero s => inl (inl s)
          | S754_infinity s => inl (inr s)
          | S754_nan => inr (inl ())
          | S754_finite s m e => inr (inr (s, m, e))
          end)
    (λ x, match x with
          | inl (inl s) => S754_zero s
          | inl (inr s) => S754_infinity s
          | inr (inl _) => S754_nan
          | inr (inr (s, m, e)) => S754_finite s m e
          end) _).
  by intros [].
Defined.

#[export] Instance float_eq_dec : EqDecision float.
Proof.
  refine (λ x y, cast_if (decide (Prim2SF x = Prim2SF y))).
  - abstract (by rewrite <- (SF2Prim_Prim2SF x), <- (SF2Prim_Prim2SF y), e).
  - abstract (by intros ->).
Defined.

#[export] Instance float_countable : Countable float :=
  inj_countable' Prim2SF SF2Prim SF2Prim_Prim2SF.

(** [std::numeric_limits<double>::max()] and its neighbour towards zero. *)
Definition DBL_MAX : float := 0x1.fffffffffffffp+1023%float.
Definition double_nan_key : float := next_down DBL_MAX.

Definition nan : float := PrimFloat.nan.

(** A mapper with one categorical dimension: ["a"] and ["b"] map to 0.5 and
    1, and two strings stand for the missing value, mapped to NaN and filed
    under the substitute key. *)
Definition one_dimension : DatasetMapper.t float unit :=
  DatasetMapper.mk [categorical]
    {[ 0 := ({[ "a" := 0.5%float; "b" := 1%float ]},
             {[ 0.5%float := ["a"]; 1%float := ["b"];
                double_nan_key := ["?"; "NA"] ]}) ]} ().

(** A mapper of one numeric dimension, with no mapping at all. *)
Definition unmapped : DatasetMapper.t float unit := DatasetMapper.new () 1.

(** *** A network of simple layers

    A layer kind is given by its sizes and its loss; the store is the log of
    the calls made on the layers, latest first. *)

Record SimpleKind : Type := mkKind {
  weight_size : Z;
  output_size : Z;
  loss : float
}.

Inductive Call : Type :=
| ForwardCall (l : Layer (Kind := SimpleKind)) (input output : Mat)
| BackwardCall (l : Layer (Kind := SimpleKind)) (output incoming outgoing : Mat)
| GradientCall (l : Layer (Kind := SimpleKind)) (input delta gradient : Mat)
| InitializeCall (parameters : Mat).

#[export] Instance simple_capabilities :
  Capabilities (Kind := SimpleKind) (Mem := list Call)
    (OutputLayerType := unit) (InitializationRuleType := unit) := {
  kind_WeightSize k _ := weight_size k;
  kind_OutputDimensions k _ := [output_size k];
  kind_OutputSize k _ := output_size k;
  layer_Loss l _ := loss (kind l);
  layer_Forward l input output m := ForwardCall l input output :: m;
  layer_Backward l output incoming outgoing m :=
    BackwardCall l output incoming outgoing :: m;
  layer_Gradient l input delta gradient m :=
    GradientCall l input delta gradient :: m;
  outputLayer_Forward _ _ _ _ := 0%float;
  outputLayer_Backward _ output _ _ w := alloc (n_rows output) (n_cols output) w;
  rule_Initialize _ parameters m := InitializeCall parameters :: m
}.

Definition simple_layer (weights outputs : Z) (loss : float) : Layer :=
  mkLayer (mkKind weights outputs loss) [] false nullptr.

(** A network as [Add()] leaves it: one empty view per layer and pass. *)
Definition fresh_network (layers : list (Layer (Kind := SimpleKind)))
    (inputDimensions : list Z) : FFN :=
  mkFFN () () false layers empty_Mat inputDimensions
    empty_Mat empty_Mat 0 empty_Mat false
    empty_Mat (replicate (length layers) empty_Mat)
    empty_Mat (replicate (length layers) empty_Mat)
    empty_Mat (replicate (length layers) empty_Mat)
    0 0 false false.

(** The heap before the network allocates anything; the blocks below 100
    belong to the caller. *)
Definition fresh_world : World (Mem := list Call) := mkWorld 100 [].

(** An owning matrix of the caller, in block [b]. *)
Definition matrix (b : N) (rows cols : Z) : Mat := mkMat (mkPtr b 0) rows cols false.

(** Three layers with 6, 0 and 3 weights (the middle one has none, as an
    activation layer), input of 3 elements, and 9 parameters in block 1. *)
Definition three_layers : FFN :=
  set_parameters (matrix 1 9 1)
    (fresh_network
       [simple_layer 6 2 0; simple_layer 0 2 0.5; simple_layer 3 1 0] [3]).

(** The three layers (outputs of 2, 2 and 1 elements per sample) after a
    forward pass with batch size 4: the output arena holds 20 elements. *)
Definition after_batch_of_4 : State := Eval vm_compute in
  match Forward (matrix 20 3 4) (caller_matrix empty_Mat) (three_layers, fresh_world) with
  | Return r => r.2
  | _ => (three_layers, fresh_world)
  end.

(** The three layers after a forward and a backward pass with batch size 20
    (the delta arena holds 20 * 8 = 160 elements) followed by a forward pass
    with batch size 1 (the output arena holds 5 elements). *)
Definition after_large_then_small_batch : State := Eval vm_compute in
  match
    r ← Forward (matrix 20 3 20) (caller_matrix empty_Mat) (three_layers, fresh_world);
    s ← Backward_pass r.2;
    r ← Forward (matrix 21 3 1) (caller_matrix empty_Mat) s;
    Return r.2
  with
  | Return s => s
  | _ => (three_layers, fresh_world)
  end.

(** One layer of one output, after [InitializeForwardPassMemory] with a batch
    size of 6755399441055749: the output arena holds that many elements. *)
Definition one_output : FFN := fresh_network [simple_layer 1 1 0] [1].

Definition after_huge_batch : State := Eval vm_compute in
  match InitializeForwardPassMemory 6755399441055749 (one_output, fresh_world) with
  | Return s => s
  | _ => (one_output, fresh_world)
  end.

(** The three layers once every layer has been handed its weights. *)
Definition three_layers_with_memory : State := Eval vm_compute in
  (match SetLayerMemory three_layers with
   | Return self => self
   | _ => three_layers
   end, fresh_world).

(** The three layers once a first forward pass, on one sample of 3 rows, has
    passed the input dimensions through the network. *)
Definition after_first_forward : State := Eval vm_compute in
  match Forward (matrix 20 3 1) (caller_matrix empty_Mat) (three_layers, fresh_world) with
  | Return r => r.2
  | _ => (three_layers, fresh_world)
  end.

(** Three layers declared with the input shape 2 by 3. *)
Definition declared_2_by_3 : FFN :=
  fresh_network [simple_layer 6 2 0; simple_layer 0 2 0.5; simple_layer 3 1 0] [2; 3].

(** The three layers bound to a dataset of 4 samples (3 rows of predictors,
    1 row of responses), and a gradient buffer of 9 elements. *)
Definition with_dataset : State :=
  (set_responses (matrix 21 1 4) (set_predictors (matrix 20 3 4) three_layers),
   fresh_world).

Definition gradient_buffer : Mat := matrix 30 9 1.

(** A layer kind whose weight count depends on its input dimensions, as a
    fully connected layer's does: [units] outputs, each with one weight per
    input element and a bias.  The layers keep no state. *)
Record LinearKind : Type := mkLinear { units : Z }.

#[export] Instance linear_capabilities :
  Capabilities (Kind := LinearKind) (Mem := unit)
    (OutputLayerType := unit) (InitializationRuleType := unit) := {
  kind_WeightSize k d := product_sizes d * units k + units k;
  kind_OutputDimensions k _ := [units k];
  kind_OutputSize k _ := units k;
  layer_Loss _ _ := 0%float;
  layer_Forward _ _ _ m := m;
  layer_Backward _ _ _ _ m := m;
  layer_Gradient _ _ _ _ m := m;
  outputLayer_Forward _ _ _ _ := 0%float;
  outputLayer_Backward _ output _ _ w := alloc (n_rows output) (n_cols output) w;
  rule_Initialize _ _ m := m
}.

(** Two fully connected layers of 2 and 1 units as [Add()] leaves them, for
    an input of 3 elements, with 6 parameters in block 1: before the input
    dimensions have been passed through the network the layers report
    1 * 2 + 2 = 4 and 1 * 1 + 1 = 2 weights, afterwards 3 * 2 + 2 = 8 and
    2 * 1 + 1 = 3. *)
Definition two_linear_layers : FFN (Kind := LinearKind) :=
  mkFFN () () false
    [mkLayer (mkLinear 2) [] false nullptr; mkLayer (mkLinear 1) [] false nullptr]
    (matrix 1 6 1) [3]
    empty_Mat empty_Mat 0 empty_Mat false
    empty_Mat [empty_Mat; empty_Mat]
    empty_Mat [empty_Mat; empty_Mat]
    empty_Mat [empty_Mat; empty_Mat]
    0 0 false false.

Definition stateless_world : World (Mem := unit) := mkWorld 100 ().

End Examples.

(** * Properties *)

(** ** Arithmetic facts *)

Module SizeTFacts.

Import SizeT.

Lemma wrap_small z : valid z → wrap z = z.
Proof. unfold valid, wrap. intros. by apply Z.mod_small. Qed.

Lemma wrap_valid z : valid (wrap z).
Proof. unfold valid, wrap, modulus. apply Z.mod_pos_bound. lia. Qed.

Lemma add_exact a b : valid (a + b) → add a b = a + b.
Proof. apply wrap_small. Qed.

Lemma mul_exact a b : valid (a * b) → mul a b = a * b.
Proof. apply wrap_small. Qed.

Lemma sub_exact a b : valid (a - b) → sub a b = a - b.
Proof. apply wrap_small. Qed.

Lemma mul_comm a b : mul a b = mul b a.
Proof. unfold mul. by rewrite Z.mul_comm. Qed.

Lemma add_comm a b : add a b = add b a.
Proof. unfold add. by rewrite Z.add_comm. Qed.

Lemma modulus_eq : modulus = 18446744073709551616.
Proof. reflexivity. Qed.

End SizeTFacts.

(** ** [double] facts *)

Module DoubleFacts.

Import Double.

(** The constant is the primitive float that the literal [0.1] denotes. *)
Lemma tenth_literal : Prim2SF 0x1.999999999999ap-4 = tenth.
Proof. by vm_compute. Qed.

(** The product as the primitive floats compute it, at the first element
    count for which it rounds up to the next integer. *)
Lemma product_of_primitive_floats :
  Prim2SF (0x1.999999999999ap-4 * 6755399441055749)%float
  = mul tenth (of_size_t 6755399441055749) ∧
  floor (mul tenth (of_size_t 6755399441055749)) = of_size_t 675539944105575.
Proof. split; by vm_compute. Qed.

(** *** Digits and shifts *)

Lemma digits2_pos_bounds (p : positive) :
  2 ^ (Zpos (digits2_pos p) - 1) ≤ Zpos p < 2 ^ Zpos (digits2_pos p).
Proof.
  induction p as [p IH|p IH|]; cbn [digits2_pos].
  - rewrite Pos2Z.inj_succ, (Pos2Z.inj_xI p).
    replace (Z.succ (Zpos (digits2_pos p)) - 1) with (Z.succ (Zpos (digits2_pos p) - 1))
      by lia.
    rewrite !Z.pow_succ_r by lia.
    revert IH. generalize (2 ^ (Zpos (digits2_pos p) - 1)) (2 ^ Zpos (digits2_pos p)).
    lia.
  - rewrite Pos2Z.inj_succ, (Pos2Z.inj_xO p).
    replace (Z.succ (Zpos (digits2_pos p)) - 1) with (Z.succ (Zpos (digits2_pos p) - 1))
      by lia.
    rewrite !Z.pow_succ_r by lia.
    revert IH. generalize (2 ^ (Zpos (digits2_pos p) - 1)) (2 ^ Zpos (digits2_pos p)).
    lia.
  - cbn. lia.
Qed.

(** The number of binary digits is determined by the enclosing powers. *)
Lemma digits2_pos_unique (p : positive) (d : Z) :
  2 ^ (d - 1) ≤ Zpos p < 2 ^ d → Zpos (digits2_pos p) = d.
Proof.
  intros [Hlo Hhi]. pose proof (digits2_pos_bounds p) as [Hlo' Hhi'].
  assert (Hd : 0 < d).
  { destruct (Z.lt_ge_cases 0 d) as [|Hneg]; [done|].
    rewrite Z.pow_neg_r in Hlo by lia.
    destruct (Z.eq_dec d 0) as [->|]; [cbn in Hhi; lia|].
    rewrite Z.pow_neg_r in Hhi by lia. lia. }
  destruct (Z.lt_trichotomy (Zpos (digits2_pos p)) d) as [Hlt|[Heq|Hgt]]; [|done|].
  - assert (2 ^ Zpos (digits2_pos p) ≤ 2 ^ (d - 1))
      by (apply Z.pow_le_mono_r; lia). lia.
  - assert (2 ^ d ≤ 2 ^ (Zpos (digits2_pos p) - 1))
      by (apply Z.pow_le_mono_r; lia). lia.
Qed.

Lemma digits2_pos_le (p : positive) (d : Z) :
  Zpos p < 2 ^ d → Zpos (digits2_pos p) ≤ d.
Proof.
  intros Hhi. pose proof (digits2_pos_bounds p) as [Hlo' _].
  destruct (Z.le_gt_cases (Zpos (digits2_pos p)) d) as [|Hgt]; [done|].
  assert (2 ^ d ≤ 2 ^ (Zpos (digits2_pos p) - 1))
    by (apply Z.pow_le_mono_r; lia). lia.
Qed.

Lemma iter_pos_nat {A : Type} (f : A → A) (p : positive) (x : A) :
  SpecFloat.iter_pos f p x = Nat.iter (Pos.to_nat p) f x.
Proof.
  revert x. induction p as [p IH|p IH|]; intros x; cbn [SpecFloat.iter_pos].
  - rewrite !IH, Pos2Nat.inj_xI, <- Nat.iter_add, <- Nat.iter_succ_r.
    f_equal. lia.
  - rewrite !IH, Pos2Nat.inj_xO, <- Nat.iter_add. f_equal. lia.
  - done.
Qed.

Lemma shr_1_spec (mrs : shr_record) :
  0 ≤ shr_m mrs →
  shr_m (shr_1 mrs) = shr_m mrs / 2 ∧ shr_r (shr_1 mrs) = Z.odd (shr_m mrs).
Proof.
  destruct mrs as [m r s]. cbn [shr_m]. intros Hm.
  destruct m as [|[p|p|]|p]; cbn [shr_1 shr_m shr_r]; [done| | |done|lia].
  - split; [|done]. rewrite (Pos2Z.inj_xI p).
    apply (Z.div_unique _ _ _ 1); lia.
  - split; [|done]. rewrite (Pos2Z.inj_xO p).
    apply (Z.div_unique _ _ _ 0); lia.
Qed.

Lemma shr_iter_spec (k : nat) (mrs : shr_record) :
  0 ≤ shr_m mrs →
  shr_m (Nat.iter k shr_1 mrs) = shr_m mrs / 2 ^ Z.of_nat k ∧
  (∀ j, k = S j →
     shr_r (Nat.iter k shr_1 mrs) = Z.odd (shr_m mrs / 2 ^ Z.of_nat j)).
Proof.
  intros Hm. induction k as [|k [IHm IHr]].
  - cbn. split; [by rewrite Z.div_1_r|done].
  - change (Nat.iter (S k) shr_1 mrs) with (shr_1 (Nat.iter k shr_1 mrs)).
    assert (Hk : 0 ≤ shr_m (Nat.iter k shr_1 mrs)).
    { rewrite IHm. apply Z.div_pos; [done|]. apply Z.pow_pos_nonneg; lia. }
    destruct (shr_1_spec _ Hk) as [Hm1 Hr1]. split.
    + rewrite Hm1, IHm, Nat2Z.inj_succ, Z.pow_succ_r by lia.
      rewrite Z.div_div by (try apply Z.pow_pos_nonneg; lia).
      f_equal. lia.
    + intros j [= <-]. by rewrite Hr1, IHm.
Qed.


(** *** Rounding

    Shifting [k] bits out of a mantissa and rounding to nearest, ties to
    even: the result is the truncated mantissa or its successor, and exceeds
    the exact value by half a unit at most. *)
Lemma shift_round (M : Z) (k : positive) :
  0 ≤ M →
  let mrs := SpecFloat.iter_pos shr_1 k (Build_shr_record M false false) in
  let m' := round_nearest_even (shr_m mrs) (loc_of_shr_record mrs) in
  M / 2 ^ Zpos k ≤ m' ≤ M / 2 ^ Zpos k + 1 ∧
  m' * 2 ^ Zpos k ≤ M + 2 ^ (Zpos k - 1).
Proof.
  intros HM mrs m'. subst m'. subst mrs. rewrite iter_pos_nat.
  destruct (shr_iter_spec (Pos.to_nat k) (Build_shr_record M false false) HM)
    as [Hm Hr].
  destruct (Pos2Nat.is_succ k) as [j Hj].
  specialize (Hr j Hj). cbn [shr_m] in Hm, Hr.
  rewrite positive_nat_Z in Hm.
  assert (Hk : Zpos k = Z.succ (Z.of_nat j)) by lia.
  destruct (Nat.iter (Pos.to_nat k) shr_1 _) as [m1 r s].
  cbn [shr_m shr_r] in *. subst m1.
  set (h := 2 ^ Z.of_nat j) in *.
  assert (Hh : 0 < h) by (apply Z.pow_pos_nonneg; lia).
  assert (H2k : 2 ^ Zpos k = 2 * h) by (rewrite Hk, Z.pow_succ_r by lia; done).
  replace (Zpos k - 1) with (Z.of_nat j) by lia. fold h. rewrite H2k.
  pose proof (Z.mul_div_le M (2 * h) ltac:(lia)) as Hfloor.
  set (m1 := M / (2 * h)) in *.
  destruct r.
  - assert (Hodd : M / h = 2 * m1 + 1).
    { symmetry in Hr. apply Z.odd_spec in Hr as [t Ht].
      assert (m1 = t); [|lia]. unfold m1.
      rewrite Z.mul_comm, <- Z.div_div, Ht by lia.
      symmetry. apply (Z.div_unique _ _ _ 1); lia. }
    pose proof (Z.mul_div_le M h Hh) as Hfloor'. rewrite Hodd in Hfloor'.
    destruct s; cbn [loc_of_shr_record round_nearest_even];
      [|destruct (Z.even m1)]; split; nia.
  - destruct s; cbn [loc_of_shr_record round_nearest_even]; split; nia.
Qed.

Definition emin : Z := SpecFloat.emin prec emax.

Lemma shr_fexp_exact (m : positive) (E : Z) :
  Zpos (digits2_pos m) = 53 → emin ≤ E →
  shr_fexp prec emax (Zpos m) E loc_Exact = (Build_shr_record (Zpos m) false false, E).
Proof.
  intros Hd HE. unfold shr_fexp, fexp. cbn [Zdigits2 shr_record_of_loc].
  rewrite Hd. fold emin. unfold prec.
  replace (Z.max (53 + E - 53) emin - E) with 0 by lia. done.
Qed.

Lemma shr_fexp_shift (m : positive) (E : Z) :
  53 < Zpos (digits2_pos m) → emin ≤ Zpos (digits2_pos m) + E - 53 →
  shr_fexp prec emax (Zpos m) E loc_Exact
  = (SpecFloat.iter_pos shr_1 (Z.to_pos (Zpos (digits2_pos m) - 53))
       (Build_shr_record (Zpos m) false false),
     E + (Zpos (digits2_pos m) - 53)).
Proof.
  intros Hd HE. unfold shr_fexp, fexp. cbn [Zdigits2 shr_record_of_loc].
  fold emin. unfold prec.
  replace (Z.max (Zpos (digits2_pos m) + E - 53) emin - E)
    with (Zpos (Z.to_pos (Zpos (digits2_pos m) - 53))) by (rewrite Z2Pos.id; lia).
  cbn [shr]. by rewrite Z2Pos.id by lia.
Qed.

(** A mantissa of 53 bits is already rounded. *)
Lemma binary_round_aux_exact (M : positive) (E : Z) :
  Zpos (digits2_pos M) = 53 → emin ≤ E ≤ emax - prec →
  binary_round_aux prec emax false (Zpos M) E loc_Exact = S754_finite false M E.
Proof.
  intros Hd [HE1 HE2]. unfold binary_round_aux.
  rewrite (shr_fexp_exact M E Hd HE1).
  cbn [shr_m loc_of_shr_record round_nearest_even].
  rewrite (shr_fexp_exact M E Hd HE1). cbn [shr_m].
  by rewrite (proj2 (Z.leb_le _ _) HE2).
Qed.

(** Rounding a mantissa of [d > 53] bits: the result has 53 bits, its
    exponent is raised by [d - 53] or one more, and its value lies between
    the truncation and the exact value plus half a unit. *)
Lemma binary_round_aux_shift (M : positive) (E : Z) :
  let d := Zpos (digits2_pos M) in
  53 < d → emin ≤ E + d - 53 → E + d - 52 ≤ emax - prec →
  ∃ m e,
    binary_round_aux prec emax false (Zpos M) E loc_Exact = S754_finite false m e ∧
    2 ^ 52 ≤ Zpos m < 2 ^ 53 ∧
    E + d - 53 ≤ e ≤ E + d - 52 ∧
    Zpos M / 2 ^ (d - 53) * 2 ^ (d - 53) ≤ Zpos m * 2 ^ (e - E)
      ≤ Zpos M + 2 ^ (d - 54).
Proof.
  intros d Hd Hmin Hmax. unfold binary_round_aux.
  rewrite (shr_fexp_shift M E Hd ltac:(fold d; lia)). fold d.
  set (k := Z.to_pos (d - 53)).
  assert (Hk : Zpos k = d - 53) by (unfold k; rewrite Z2Pos.id; lia).
  pose proof (shift_round (Zpos M) k ltac:(lia)) as Hround. cbv zeta in Hround.
  set (mrs := SpecFloat.iter_pos shr_1 k _) in *.
  set (m' := round_nearest_even (shr_m mrs) (loc_of_shr_record mrs)) in *.
  destruct Hround as [[Hlo Hhi] Hup].
  pose proof (digits2_pos_bounds M) as [HM1 HM2]. fold d in HM1, HM2.
  rewrite Hk in Hlo, Hhi, Hup.
  replace (d - 53 - 1) with (d - 54) in Hup by lia.
  assert (Hpow1 : 2 ^ (d - 1) = 2 ^ 52 * 2 ^ (d - 53))
    by (rewrite <- Z.pow_add_r by lia; f_equal; lia).
  assert (Hpow2 : 2 ^ d = 2 ^ 53 * 2 ^ (d - 53))
    by (rewrite <- Z.pow_add_r by lia; f_equal; lia).
  assert (Hp : 0 < 2 ^ (d - 53)) by (apply Z.pow_pos_nonneg; lia).
  assert (Hm1 : 2 ^ 52 ≤ Zpos M / 2 ^ (d - 53) < 2 ^ 53).
  { split.
    - apply Z.div_le_lower_bound; [done|]. lia.
    - apply Z.div_lt_upper_bound; [done|]. lia. }
  set (m1 := Zpos M / 2 ^ (d - 53)) in *.
  cbv beta iota.
  destruct (Z.eq_dec m' (2 ^ 53)) as [Htop|Hbelow].
  - rewrite Htop. change (2 ^ 53) with (Zpos 9007199254740992).
    rewrite (shr_fexp_shift 9007199254740992 (E + (d - 53)));
      [|by vm_compute|change (Zpos (digits2_pos 9007199254740992)) with 54; lia].
    change (Zpos (digits2_pos 9007199254740992)) with 54.
    change (Z.to_pos (54 - 53)) with 1%positive.
    cbn [SpecFloat.iter_pos shr_1 shr_m].
    rewrite (proj2 (Z.leb_le _ _)) by lia.
    exists 4503599627370496%positive, (E + (d - 53) + (54 - 53)).
    split; [done|]. split; [by vm_compute|]. split; [lia|].
    replace (E + (d - 53) + (54 - 53) - E) with (Z.succ (d - 53)) by lia.
    rewrite Z.pow_succ_r by lia. rewrite Htop in Hup, Hhi.
    change (2 ^ 53) with 9007199254740992 in *.
    change (2 ^ 52) with 4503599627370496 in *. nia.
  - assert (Hm' : 2 ^ 52 ≤ m' < 2 ^ 53) by lia.
    destruct m' as [|pm|pm] eqn:Em'; [change (2 ^ 52) with 4503599627370496 in Hm'; lia| |lia].
    assert (Hdm : Zpos (digits2_pos pm) = 53) by (by apply digits2_pos_unique).
    rewrite (shr_fexp_exact pm (E + (d - 53)) Hdm ltac:(lia)). cbn [shr_m].
    rewrite (proj2 (Z.leb_le _ _)) by lia.
    exists pm, (E + (d - 53)). split; [done|]. split; [done|]. split; [lia|].
    replace (E + (d - 53) - E) with (d - 53) by lia. nia.
Qed.

Lemma Pos_iter_xO (m d : positive) :
  Zpos (Pos.iter xO m d) = Zpos m * 2 ^ Zpos d.
Proof.
  induction d as [|d IH] using Pos.peano_ind.
  - cbn [Pos.iter]. rewrite (Pos2Z.inj_xO m). change (2 ^ 1) with 2. lia.
  - rewrite Pos.iter_succ, (Pos2Z.inj_xO (Pos.iter xO m d)), IH, Pos2Z.inj_succ,
      Z.pow_succ_r by lia. lia.
Qed.

(** A size below 2^53 converts exactly, to a mantissa of 53 bits. *)
Lemma of_size_t_small (n : Z) :
  0 < n < 2 ^ 53 →
  ∃ m e,
    of_size_t n = S754_finite false m e ∧ 2 ^ 52 ≤ Zpos m < 2 ^ 53 ∧
    e = Zdigits2 n - 53 ∧ -52 ≤ e ≤ 0 ∧ Zpos m = n * 2 ^ (- e).
Proof.
  intros [Hn0 Hn]. destruct n as [|p|p]; [lia| |lia].
  unfold of_size_t, binary_normalize, binary_round. cbn [Zdigits2].
  pose proof (digits2_pos_bounds p) as [Hlo Hhi].
  pose proof (digits2_pos_le p 53 Hn) as Hd.
  set (d := Zpos (digits2_pos p)) in *.
  assert (Hd1 : 1 ≤ d) by (unfold d; lia).
  unfold fexp. fold emin. unfold prec at 1.
  replace (Z.max (d + 0 - 53) emin) with (d - 53) by (unfold emin, SpecFloat.emin, prec, emax; lia).
  unfold shl_align.
  destruct (Z.eq_dec d 53) as [H53|H53].
  - rewrite H53. change (53 - 53 - 0) with 0. cbv beta iota.
    rewrite binary_round_aux_exact; [|done|by vm_compute].
    exists p, 0. split; [done|]. rewrite H53 in Hlo.
    split; [change (53 - 1) with 52 in Hlo; lia|]. split; [lia|]. split; [lia|].
    change (2 ^ (- 0)) with 1. lia.
  - replace (d - 53 - 0) with (Zneg (Z.to_pos (53 - d)))
      by (rewrite <- Pos2Z.opp_pos, Z2Pos.id; lia).
    cbv beta iota.
    assert (Hmz : Zpos (Pos.iter xO p (Z.to_pos (53 - d))) = Zpos p * 2 ^ (53 - d))
      by (rewrite Pos_iter_xO, Z2Pos.id; [done|lia]).
    assert (Hp : 0 < 2 ^ (53 - d)) by (apply Z.pow_pos_nonneg; lia).
    assert (Hpow1 : 2 ^ 52 = 2 ^ (d - 1) * 2 ^ (53 - d))
      by (rewrite <- Z.pow_add_r by lia; f_equal; lia).
    assert (Hpow2 : 2 ^ 53 = 2 ^ d * 2 ^ (53 - d))
      by (rewrite <- Z.pow_add_r by lia; f_equal; lia).
    assert (Hrange : 2 ^ 52 ≤ Zpos (Pos.iter xO p (Z.to_pos (53 - d))) < 2 ^ 53).
    { rewrite Hmz, Hpow1, Hpow2. split.
      - apply Z.mul_le_mono_nonneg_r; lia.
      - apply Z.mul_lt_mono_pos_r; lia. }
    rewrite binary_round_aux_exact;
      [|by apply digits2_pos_unique|unfold emin, SpecFloat.emin, prec, emax; lia].
    eexists _, _. split; [done|]. split; [exact Hrange|].
    split; [done|]. split; [lia|].
    rewrite Hmz. f_equal. f_equal. lia.
Qed.

(** A size from 2^53 on converts to a mantissa of 53 bits with a positive
    exponent. *)
Lemma of_size_t_large (n : Z) :
  2 ^ 53 ≤ n → Zdigits2 n ≤ 1000 →
  ∃ m e,
    of_size_t n = S754_finite false m e ∧ 2 ^ 52 ≤ Zpos m < 2 ^ 53 ∧
    Zdigits2 n - 53 ≤ e ≤ Zdigits2 n - 52 ∧ 1 ≤ e.
Proof.
  intros Hn Hbig. destruct n as [|p|p]; [done| |done].
  unfold of_size_t, binary_normalize, binary_round. cbn [Zdigits2] in *.
  pose proof (digits2_pos_bounds p) as [Hlo Hhi].
  set (d := Zpos (digits2_pos p)) in *.
  assert (Hd : 53 < d).
  { destruct (Z.lt_ge_cases 53 d) as [|Hle]; [done|].
    assert (2 ^ d ≤ 2 ^ 53) by (apply Z.pow_le_mono_r; lia). lia. }
  unfold fexp. fold emin. unfold prec at 1.
  replace (Z.max (d + 0 - 53) emin) with (Zpos (Z.to_pos (d - 53)))
    by (rewrite Z2Pos.id by lia; unfold emin, SpecFloat.emin, prec, emax; lia).
  unfold shl_align. change (Zpos (Z.to_pos (d - 53)) - 0) with (Zpos (Z.to_pos (d - 53))).
  cbv beta iota.
  destruct (binary_round_aux_shift p 0) as (m & e & Hround & Hm & He & _).
  - done.
  - fold d. unfold emin, SpecFloat.emin, prec, emax. lia.
  - fold d. unfold prec, emax. lia.
  - fold d in He. exists m, e. split; [exact Hround|]. split; [exact Hm|]. lia.
Qed.


Lemma ltb_finite (m1 m2 : positive) (e1 e2 : Z) :
  ltb (S754_finite false m1 e1) (S754_finite false m2 e2)
  = (e1 <? e2) || ((e1 =? e2) && (Zpos m1 <? Zpos m2)).
Proof.
  unfold ltb, SFltb, SFcompare.
  change (Pos.compare_cont Eq m1 m2) with (Pos.compare m1 m2).
  destruct (Z.compare_spec e1 e2) as [->|Hlt|Hgt].
  - rewrite Z.ltb_irrefl, Z.eqb_refl. cbn [orb andb].
    change (Zpos m1 <? Zpos m2) with (Pos.ltb m1 m2). unfold Pos.ltb.
    by destruct (Pos.compare m1 m2).
  - by rewrite (proj2 (Z.ltb_lt _ _) Hlt).
  - rewrite (proj2 (Z.ltb_ge _ _)) by lia.
    rewrite (proj2 (Z.eqb_neq _ _)) by lia. done.
Qed.

Lemma of_size_t_0 : of_size_t 0 = S754_zero false.
Proof. done. Qed.

(** Comparing the conversions of two sizes, the second below 2^53, is
    comparing the sizes. *)
Lemma of_size_t_ltb (a b : Z) :
  0 ≤ a → Zdigits2 a ≤ 1000 → 0 ≤ b < 2 ^ 53 →
  ltb (of_size_t a) (of_size_t b) = (a <? b).
Proof.
  intros Ha Hda [Hb0 Hb].
  destruct (Z.eq_dec b 0) as [->|Hbpos].
  - rewrite (proj2 (Z.ltb_ge a 0)) by lia. rewrite of_size_t_0.
    destruct a as [|p|p]; [done| |lia].
    destruct (Z.lt_ge_cases (Zpos p) (2 ^ 53)) as [Hsmall|Hlarge].
    + destruct (of_size_t_small (Zpos p)) as (m & e & -> & _); [lia|done].
    + destruct (of_size_t_large (Zpos p)) as (m & e & -> & _); [lia|done|done].
  - destruct (of_size_t_small b) as (mb & eb & -> & Hmb & _ & Heb & Hvb); [lia|].
    destruct (Z.eq_dec a 0) as [->|Hapos].
    { rewrite of_size_t_0. by rewrite (proj2 (Z.ltb_lt 0 b)) by lia. }
    assert (Hpb : 0 < 2 ^ (- eb)) by (apply Z.pow_pos_nonneg; lia).
    destruct (Z.lt_ge_cases a (2 ^ 53)) as [Hsmall|Hlarge].
    + destruct (of_size_t_small a) as (ma & ea & -> & Hma & _ & Hea & Hva); [lia|].
      assert (Hpa : 0 < 2 ^ (- ea)) by (apply Z.pow_pos_nonneg; lia).
      rewrite ltb_finite, Hva, Hvb.
      rewrite Hva in Hma. rewrite Hvb in Hmb.
      destruct (Z.lt_trichotomy ea eb) as [Hlt|[->|Hgt]].
      * rewrite (proj2 (Z.ltb_lt ea eb)) by lia. cbn [orb]. symmetry.
        apply Z.ltb_lt.
        assert (Hsplit : 2 ^ (- ea) = 2 ^ (- eb) * 2 ^ (eb - ea))
          by (rewrite <- Z.pow_add_r by lia; f_equal; lia).
        assert (Htwo : 2 ^ 1 ≤ 2 ^ (eb - ea)) by (apply Z.pow_le_mono_r; lia).
        change (2 ^ 1) with 2 in Htwo. rewrite Hsplit in Hma.
        change (2 ^ 53) with (2 * 2 ^ 52) in Hma. nia.
      * rewrite Z.ltb_irrefl, Z.eqb_refl. cbn [orb andb].
        destruct (Z.ltb_spec a b) as [Hab|Hab].
        -- apply Z.ltb_lt. nia.
        -- apply Z.ltb_ge. nia.
      * rewrite (proj2 (Z.ltb_ge ea eb)) by lia.
        rewrite (proj2 (Z.eqb_neq ea eb)) by lia. cbn [orb andb]. symmetry.
        apply Z.ltb_ge.
        assert (Hsplit : 2 ^ (- eb) = 2 ^ (- ea) * 2 ^ (ea - eb))
          by (rewrite <- Z.pow_add_r by lia; f_equal; lia).
        assert (Htwo : 2 ^ 1 ≤ 2 ^ (ea - eb)) by (apply Z.pow_le_mono_r; lia).
        change (2 ^ 1) with 2 in Htwo. rewrite Hsplit in Hmb.
        change (2 ^ 53) with (2 * 2 ^ 52) in Hmb. nia.
    + destruct (of_size_t_large a) as (ma & ea & -> & Hma & _ & Hea); [lia|done|].
      rewrite ltb_finite.
      rewrite (proj2 (Z.ltb_ge ea eb)) by lia.
      rewrite (proj2 (Z.eqb_neq ea eb)) by lia. cbn [orb andb]. symmetry.
      apply Z.ltb_ge. lia.
Qed.

(** The product of the constant [0.1] and a positive [double] of 53 mantissa
    bits. *)
Lemma mul_tenth (mn : positive) (en : Z) :
  2 ^ 52 ≤ Zpos mn < 2 ^ 53 → -100 ≤ en ≤ 100 →
  ∃ my ey,
    mul tenth (S754_finite false mn en) = S754_finite false my ey ∧
    2 ^ 52 ≤ Zpos my < 2 ^ 53 ∧ en - 4 ≤ ey ≤ en - 2 ∧
    (∀ Q, Q * 2 ^ (ey + 56 - en) ≤ 7205759403792794 * Zpos mn → Q ≤ Zpos my) ∧
    Zpos my * 2 ^ (ey + 56 - en) ≤ 7205759403792794 * Zpos mn + 2 ^ 52.
Proof.
  intros Hmn Hen. unfold mul, tenth, SFmul. change (xorb false false) with false.
  set (M := (7205759403792794 * mn)%positive).
  assert (HM : Zpos M = 7205759403792794 * Zpos mn) by (unfold M; lia).
  pose proof (digits2_pos_bounds M) as [Hlo Hhi].
  set (d := Zpos (digits2_pos M)) in *.
  assert (Hd : 105 ≤ d ≤ 106).
  { split.
    - destruct (Z.le_gt_cases 105 d) as [|Hlt]; [done|].
      assert (2 ^ d ≤ 2 ^ 104) by (apply Z.pow_le_mono_r; lia).
      change (2 ^ 52) with 4503599627370496 in Hmn.
      change (2 ^ 104) with 20282409603651670423947251286016 in *. lia.
    - destruct (Z.le_gt_cases d 106) as [|Hgt]; [done|].
      assert (2 ^ 106 ≤ 2 ^ (d - 1)) by (apply Z.pow_le_mono_r; lia).
      change (2 ^ 53) with 9007199254740992 in Hmn.
      change (2 ^ 106) with 81129638414606681695789005144064 in *. lia. }
  destruct (binary_round_aux_shift M (-56 + en)) as (my & ey & Hround & Hmy & Hey & Hval).
  - fold d. lia.
  - fold d. unfold emin, SpecFloat.emin, prec, emax. lia.
  - fold d. unfold prec, emax. lia.
  - fold d in Hey, Hval. exists my, ey. split; [exact Hround|].
    split; [exact Hmy|]. split; [lia|].
    rewrite <- HM.
    set (k := d - 53) in *. set (j := ey + 56 - en).
    replace (ey - (-56 + en)) with j in Hval by (unfold j; lia).
    assert (Hj : j = k ∨ j = Z.succ k) by (unfold j, k; lia).
    assert (Hpk : 0 < 2 ^ k) by (apply Z.pow_pos_nonneg; unfold k; lia).
    assert (Hhalf : 2 ^ (d - 54) ≤ 2 ^ 52) by (apply Z.pow_le_mono_r; lia).
    split; [|lia].
    intros Q HQ. destruct Hval as [Hval _].
    pose proof (Z.mul_div_le (Zpos M) (2 ^ k) Hpk) as Hfloor.
    destruct Hj as [Hj|Hj]; rewrite Hj in *.
    + assert (Q ≤ Zpos M / 2 ^ k) by (apply Z.div_le_lower_bound; lia). nia.
    + rewrite Z.pow_succ_r in * by (unfold k; lia).
      assert (2 * Q ≤ Zpos M / 2 ^ k) by (apply Z.div_le_lower_bound; lia). nia.
Qed.

(** [floor] of a positive [double] is the conversion of an integer. *)
Lemma floor_finite (m : positive) (e : Z) :
  floor (S754_finite false m e)
  = of_size_t (if e <? 0 then Zpos m / 2 ^ (- e) else Zpos m * 2 ^ e).
Proof.
  unfold floor, of_size_t. cbn [cond_Zopp]. f_equal.
  destruct (Z.ltb_spec e 0).
  - apply Z.shiftl_div_pow2. lia.
  - by apply Z.shiftl_mul_pow2.
Qed.

(** *** The threshold [floor(0.1 * n_elem)]

    Below 6755399441055749 elements the threshold computed in [double] is
    the integer quotient by ten: the constant exceeds a tenth by 2^-54
    relative, and up to there the excess and the rounding of the product stay
    under the distance of [n_elem / 10] to the next integer. *)
Lemma below_tenth_exact (requested n_elem : Z) :
  0 ≤ requested < 2 ^ 64 → 0 ≤ n_elem < 6755399441055749 →
  below_tenth requested n_elem = (requested <? n_elem / 10).
Proof.
  intros Hreq [Hn0 Hn]. unfold below_tenth.
  assert (Hdreq : Zdigits2 requested ≤ 1000).
  { destruct requested as [|p|p]; [done| |lia].
    pose proof (digits2_pos_le p 64 ltac:(lia)). cbn [Zdigits2]. lia. }
  destruct (Z.eq_dec n_elem 0) as [->|Hnpos].
  { change (floor (mul tenth (of_size_t 0))) with (of_size_t 0).
    apply of_size_t_ltb; [lia|done|done]. }
  destruct (of_size_t_small n_elem) as (mn & en & -> & Hmn & _ & Hen & Hvn).
  { change (2 ^ 53) with 9007199254740992. lia. }
  destruct (mul_tenth mn en Hmn ltac:(lia))
    as (my & ey & -> & Hmy & Hey & Hlow & Hup).
  rewrite floor_finite. rewrite (proj2 (Z.ltb_lt ey 0)) by lia.
  set (q := n_elem / 10).
  assert (Hq : 10 * q ≤ n_elem < 10 * q + 10).
  { pose proof (Z.mul_div_le n_elem 10 ltac:(lia)).
    pose proof (Z.mul_succ_div_gt n_elem 10 ltac:(lia)). fold q in H, H0. lia. }
  set (A := 2 ^ (- en)) in *. set (B := 2 ^ (- ey)). set (J := 2 ^ (ey + 56 - en)) in *.
  assert (HA : 1 ≤ A).
  { unfold A. change 1 with (2 ^ 0). apply Z.pow_le_mono_r; lia. }
  assert (HB : 0 < B) by (apply Z.pow_pos_nonneg; lia).
  assert (HJ : 0 < J) by (apply Z.pow_pos_nonneg; lia).
  assert (HBJ : B * J = 72057594037927936 * A).
  { unfold A, B, J. change 72057594037927936 with (2 ^ 56).
    rewrite <- !Z.pow_add_r by lia. f_equal. lia. }
  assert (HA2 : A = 1 ∨ 2 ≤ A).
  { destruct (Z.eq_dec en 0) as [->|]; [by left|right].
    unfold A. change 2 with (2 ^ 1). apply Z.pow_le_mono_r; lia. }
  change (2 ^ 53) with 9007199254740992 in *.
  change (2 ^ 52) with 4503599627370496 in *.
  assert (Hfloor : Zpos my / B = q).
  { symmetry. apply (Z.div_unique_pos _ _ _ (Zpos my - B * q)); [|lia].
    assert (Hge : q * B ≤ Zpos my).
    { apply Hlow. rewrite Hvn. nia. }
    assert (Hlt : Zpos my * J < (q + 1) * B * J).
    { rewrite <- Z.mul_assoc, HBJ. rewrite Hvn in Hup, Hmn.
      destruct HA2 as [HA1|HA2].
      - rewrite HA1 in *. lia.
      - nia. }
    nia. }
  rewrite Hfloor. apply of_size_t_ltb; [lia|done|lia].
Qed.

(** A request is never below the tenth of itself. *)
Lemma below_tenth_self (requested : Z) :
  0 ≤ requested < 2 ^ 64 → below_tenth requested requested = false.
Proof.
  intros [Hr0 Hr]. unfold below_tenth.
  destruct (Z.eq_dec requested 0) as [->|Hpos]; [done|].
  assert (Hx : ∃ mx ex, of_size_t requested = S754_finite false mx ex
                        ∧ 2 ^ 52 ≤ Zpos mx < 2 ^ 53 ∧ -52 ≤ ex ≤ 12).
  { destruct (Z.lt_ge_cases requested (2 ^ 53)) as [Hsmall|Hlarge].
    - destruct (of_size_t_small requested) as (m & e & Hm & ? & _ & ? & _); [lia|].
      exists m, e. split; [done|]. split; [done|lia].
    - destruct requested as [|p|p]; [done| |done].
      pose proof (digits2_pos_le p 64 Hr) as Hd.
      destruct (of_size_t_large (Zpos p)) as (m & e & Hm & ? & He & ?);
        [done|cbn [Zdigits2]; lia|].
      cbn [Zdigits2] in He. exists m, e. split; [done|]. split; [done|lia]. }
  destruct Hx as (mx & ex & -> & Hmx & Hex).
  destruct (mul_tenth mx ex Hmx ltac:(lia)) as (my & ey & -> & Hmy & Hey & _).
  rewrite floor_finite.
  set (F := if ey <? 0 then Zpos my / 2 ^ (- ey) else Zpos my * 2 ^ ey).
  assert (HF : F = 0 ∨ 0 < F < 2 ^ (53 + ey)).
  { unfold F. destruct (Z.ltb_spec ey 0) as [Hneg|Hnn].
    - assert (0 < 2 ^ (- ey)) by (apply Z.pow_pos_nonneg; lia).
      assert (0 ≤ Zpos my / 2 ^ (- ey)) by (apply Z.div_pos; lia).
      destruct (Z.eq_dec (Zpos my / 2 ^ (- ey)) 0) as [|Hne]; [by left|right].
      split; [lia|].
      destruct (Z.lt_ge_cases (53 + ey) 0) as [Hfar|Hnear].
      + destruct Hne. apply Z.div_small. split; [lia|].
        assert (2 ^ 53 ≤ 2 ^ (- ey)) by (apply Z.pow_le_mono_r; lia). lia.
      + apply Z.div_lt_upper_bound; [done|].
        rewrite <- Z.pow_add_r by lia.
        replace (- ey + (53 + ey)) with 53 by lia. lia.
    - right. rewrite Z.pow_add_r by lia.
      assert (0 < 2 ^ ey) by (apply Z.pow_pos_nonneg; lia). nia. }
  destruct HF as [->|[HF0 HF]]; [done|].
  destruct F as [|pf|pf]; [lia| |lia].
  pose proof (digits2_pos_le pf _ HF) as Hdf.
  assert (Hf : ∃ mf ef, of_size_t (Zpos pf) = S754_finite false mf ef ∧ ef < ex).
  { destruct (Z.lt_ge_cases (Zpos pf) (2 ^ 53)) as [Hsmall|Hlarge].
    - destruct (of_size_t_small (Zpos pf)) as (m & e & Hm & _ & He & _); [lia|].
      cbn [Zdigits2] in He. exists m, e. split; [done|lia].
    - destruct (of_size_t_large (Zpos pf)) as (m & e & Hm & _ & He & _);
        [done|cbn [Zdigits2]; lia|].
      cbn [Zdigits2] in He. exists m, e. split; [done|lia]. }
  destruct Hf as (mf & ef & -> & Hef).
  rewrite ltb_finite.
  rewrite (proj2 (Z.ltb_ge ex ef)) by lia.
  by rewrite (proj2 (Z.eqb_neq ex ef)) by lia.
Qed.

End DoubleFacts.

(** ** Sequencing of outcomes *)

Module CxxFacts.

Lemma bind_Return {A B : Type} (a : A) (k : A → outcome B) : Return a ≫= k = k a.
Proof. done. Qed.

Lemma bind_Throw {A B : Type} (e : exception) (k : A → outcome B) :
  Throw e ≫= k = Throw e.
Proof. done. Qed.

Lemma bind_Undefined {A B : Type} (k : A → outcome B) : Undefined ≫= k = Undefined.
Proof. done. Qed.

Lemma index_lookup {A : Type} (l : list A) (i : Z) (a : A) :
  0 ≤ i → l !! Z.to_nat i = Some a → index l i = Return a.
Proof.
  intros Hi Hl. unfold index.
  destruct (Z.ltb_spec i 0); [lia|]. by rewrite Hl.
Qed.

Lemma index_in_range {A : Type} (l : list A) (i : Z) :
  0 ≤ i < Z.of_nat (length l) →
  ∃ a, l !! Z.to_nat i = Some a ∧ index l i = Return a.
Proof.
  intros Hi. destruct (lookup_lt_is_Some_2 l (Z.to_nat i)) as [a Ha]; [lia|].
  exists a. split; [done|]. apply index_lookup; [lia|done].
Qed.

Lemma index_in_range_not_throw {A : Type} (l : list A) (i : Z) (e : exception) :
  index l i ≠ Throw e.
Proof. unfold index. destruct (i <? 0); [done|]. by destruct (l !! Z.to_nat i). Qed.

End CxxFacts.

(** ** [DatasetMapper] *)

Module DatasetMapperSpec.

Import DatasetMapper Examples CxxFacts.

Section Accessors.

Context {T : Type} `{Countable T} {PolicyType : Type}.

Implicit Types (self : DatasetMapper.t T PolicyType) (d k : Z).

Lemma Type_const_throws self d :
  Type_const self d = Throw invalid_argument ↔ Dimensionality self ≤ d.
Proof.
  unfold Type_const, Dimensionality. case_bool_decide as Hd; [done|].
  split; [|lia]. unfold index.
  destruct (d <? 0); [done|]. by destruct (types self !! Z.to_nat d).
Qed.

Lemma Type_const_returns self d :
  0 ≤ d < Dimensionality self →
  ∃ ty, types self !! Z.to_nat d = Some ty ∧ Type_const self d = Return ty.
Proof.
  unfold Type_const, Dimensionality. intros Hd.
  rewrite bool_decide_eq_false_2 by lia. by apply index_in_range.
Qed.



End Accessors.




Section Unmapping.

Context {T : Type} `{Countable T} {PolicyType : Type}.
Variable isnan : T → bool.
Variable nan_key : T.

Implicit Types (self : DatasetMapper.t T PolicyType) (d k : Z).

Lemma UnmapString_cases self (v : T) d k :
  UnmapString isnan nan_key self v d k =
  match maps self !! d with
  | None => Throw out_of_range
  | Some dd =>
      match dd.2 !! used_key isnan nan_key v with
      | None => Throw invalid_argument
      | Some strings =>
          if bool_decide (Z.of_nat (length strings) ≤ k)
          then Throw invalid_argument
          else index strings k
      end
  end.
Proof.
  unfold UnmapString, used_key, at_.
  destruct (maps self !! d) as [dd|]; [|done]. cbn.
  match goal with
  | |- context [bool_decide (?x = None)] => destruct x as [strings|] eqn:E
  end.
  - rewrite bool_decide_eq_false_2 by done. cbn.
    by case_bool_decide.
  - by rewrite bool_decide_eq_true_2.
Qed.

Lemma NumUnmappings_cases self (v : T) d :
  NumUnmappings isnan nan_key self v d =
  (dd ← at_ (maps self) d;
   strings ← at_ dd.2 (used_key isnan nan_key v);
   Return (Z.of_nat (length strings))).
Proof. unfold NumUnmappings, used_key. by destruct (isnan v). Qed.

End Unmapping.

(** C10, as the code has it.  [UnmapString(v, d, k)] looks up the key that
    [v] denotes (the substitute key for a NaN).  A dimension with no entry in
    [maps] makes [maps.at(d)] throw [std::out_of_range]; for a dimension that
    has one, [std::invalid_argument] is thrown exactly when the key has no
    mapping there or [k] is at least the number of its unmappings; otherwise
    the [k]-th unmapping is returned.  [NumUnmappings(v, d)] counts the
    unmappings of the same key. *)
Theorem UnmapString_outcomes {T : Type} `{Countable T} {PolicyType : Type}
    (isnan : T → bool) (nan_key : T) (self : DatasetMapper.t T PolicyType)
    (v : T) (d k : Z) :
  0 ≤ k →
  let key := used_key isnan nan_key v in
  (isnan v = true → key = nan_key) ∧
  (UnmapString isnan nan_key self v d k = Throw out_of_range
     ↔ maps self !! d = None) ∧
  (UnmapString isnan nan_key self v d k = Throw invalid_argument
     ↔ is_Some (maps self !! d)
       ∧ (¬ has_mapping self key d ∨ index_past_unmappings self key d k)) ∧
  (∀ dd strings,
     maps self !! d = Some dd → dd.2 !! key = Some strings →
     k < Z.of_nat (length strings) →
     ∃ s, strings !! Z.to_nat k = Some s
          ∧ UnmapString isnan nan_key self v d k = Return s) ∧
  NumUnmappings isnan nan_key self v d =
    (dd ← at_ (maps self) d; strings ← at_ dd.2 key;
     Return (Z.of_nat (length strings))).
Proof.
  intros Hk key. split; [unfold key, used_key; by intros ->|].
  rewrite (UnmapString_cases isnan nan_key self v d k). fold key.
  unfold has_mapping, index_past_unmappings.
  split; [|split; [|split]].
  - destruct (maps self !! d) as [dd|]; [|done].
    split; [|done]. destruct (dd.2 !! key) as [strings|]; [|done].
    case_bool_decide; [done|]. intros E.
    destruct (index_in_range strings k) as (s & _ & Hs); [lia|]. congruence.
  - destruct (maps self !! d) as [dd|] eqn:Ed.
    + destruct (dd.2 !! key) as [strings|] eqn:Ek.
      * case_bool_decide as Hlen.
        -- split; [|done]. intros _. split; [by eexists|].
           right. by exists dd, strings.
        -- split.
           ++ intros E. destruct (index_in_range strings k) as (s & _ & Hs); [lia|].
              congruence.
           ++ intros [_ [Hno|(dd' & strings' & ? & ? & ?)]].
              ** destruct Hno. by exists dd, strings.
              ** simplify_eq. lia.
      * split; [|done]. intros _. split; [by eexists|].
        left. intros (dd' & strings' & ? & ?). simplify_eq.
    + split; [done|]. by intros [[? ?] _].
  - intros dd strings -> -> Hlt.
    rewrite bool_decide_eq_false_2 by lia.
    apply index_in_range. lia.
  - apply NumUnmappings_cases.
Qed.

(** The second string filed under NaN, in the mapper of one dimension. *)
Lemma UnmapString_outcomes_witness :
  0 ≤ 1 ∧
  (UnmapString is_nan double_nan_key one_dimension nan 0 1 = Throw out_of_range
     ↔ maps one_dimension !! 0 = None).
Proof.
  assert (Hk : 0 ≤ 1) by lia.
  split; [exact Hk|].
  exact (proj1 (proj2
    (UnmapString_outcomes is_nan double_nan_key one_dimension nan 0 1 Hk))).
Defined.

(** C10 as stated fails: in a mapper whose dimension 0 has no entry in
    [maps], the key has no mapping, yet the exception is [std::out_of_range]
    and not [std::invalid_argument]. *)
Lemma UnmapString_unmapped_dimension :
  UnmapString is_nan double_nan_key unmapped 1%float 0 0 = Throw out_of_range ∧
  ¬ (UnmapString is_nan double_nan_key unmapped 1%float 0 0 = Throw invalid_argument
       ↔ (¬ has_mapping unmapped (used_key is_nan double_nan_key 1%float) 0
          ∨ index_past_unmappings unmapped
              (used_key is_nan double_nan_key 1%float) 0 0)).
Proof.
  assert (Hthrow : UnmapString is_nan double_nan_key unmapped 1%float 0 0
                   = Throw out_of_range) by (vm_compute; reflexivity).
  split; [exact Hthrow|].
  intros [_ Hback]. rewrite Hthrow in Hback.
  enough (Throw out_of_range = Throw (A := string) invalid_argument) by discriminate.
  apply Hback. left. intros (dd & strings & Hd & _).
  unfold unmapped, new in Hd. cbn [maps] in Hd. by rewrite lookup_empty in Hd.
Qed.

End DatasetMapperSpec.

(** ** The network engine *)

Module AnnSpec.

Import Ann Examples CxxFacts.

(** The example states are the ones the passes reach. *)
Lemma three_layers_with_memory_reached :
  ensure_weights (three_layers, fresh_world) = Return three_layers_with_memory.
Proof. vm_compute. reflexivity. Qed.

Lemma after_first_forward_reached :
  (r ← Forward (matrix 20 3 1) (caller_matrix empty_Mat) (three_layers, fresh_world);
   Return r.2)
  = Return after_first_forward.
Proof. vm_compute. reflexivity. Qed.

Lemma after_batch_of_4_reached :
  (r ← Forward (matrix 20 3 4) (caller_matrix empty_Mat) (three_layers, fresh_world);
   Return r.2)
  = Return after_batch_of_4.
Proof. vm_compute. reflexivity. Qed.

Lemma after_large_then_small_batch_reached :
  (r ← Forward (matrix 20 3 20) (caller_matrix empty_Mat) (three_layers, fresh_world);
   s ← Backward_pass r.2;
   r ← Forward (matrix 21 3 1) (caller_matrix empty_Mat) s;
   Return r.2)
  = Return after_large_then_small_batch.
Proof. vm_compute. reflexivity. Qed.

Section Layout.

Context {Kind Mem OutputLayerType InitializationRuleType : Type}.
Context {caps : Capabilities (Kind := Kind) (Mem := Mem)
                  (OutputLayerType := OutputLayerType)
                  (InitializationRuleType := InitializationRuleType)}.

Abbreviation Layer := (Layer (Kind := Kind)).
Abbreviation FFN := (FFN (Kind := Kind) (OutputLayerType := OutputLayerType)
                     (InitializationRuleType := InitializationRuleType)).

Implicit Types (l : Layer) (layers : list Layer) (self : FFN) (sizes : list Z).

Lemma n_elem_valid (m : Mat) : SizeT.valid (n_elem m).
Proof. apply SizeTFacts.wrap_valid. Qed.

Lemma sum_sizes_cons z sizes : sum_sizes (z :: sizes) = z + sum_sizes sizes.
Proof. done. Qed.

Lemma sum_sizes_snoc sizes z : sum_sizes (sizes ++ [z]) = sum_sizes sizes + z.
Proof.
  induction sizes as [|a sizes IH]; [cbn; lia|].
  cbn [app]. rewrite !sum_sizes_cons, IH. lia.
Qed.

Lemma sum_sizes_nonneg sizes : Forall (λ z, 0 ≤ z) sizes → 0 ≤ sum_sizes sizes.
Proof. induction 1; [done|]. rewrite sum_sizes_cons. lia. Qed.

Lemma weight_sizes_nonneg layers :
  sizes_valid layers → Forall (λ z, 0 ≤ z) (map WeightSize layers).
Proof.
  intros Hv. apply Forall_fmap. eapply Forall_impl; [exact Hv|].
  intros l [? ?]. done.
Qed.

Lemma offset_of_0 sizes : offset_of sizes 0 = 0.
Proof. done. Qed.

Lemma offset_of_S sizes i z :
  sizes !! i = Some z → offset_of sizes (S i) = offset_of sizes i + z.
Proof.
  unfold offset_of. intros Hz. rewrite (take_S_r _ _ _ Hz).
  apply sum_sizes_snoc.
Qed.

Lemma offset_of_all sizes : offset_of sizes (length sizes) = sum_sizes sizes.
Proof. unfold offset_of. by rewrite firstn_all. Qed.

Lemma offset_of_mono sizes i j :
  Forall (λ z, 0 ≤ z) sizes → (i ≤ j)%nat → offset_of sizes i ≤ offset_of sizes j.
Proof.
  intros Hs. induction 1 as [|j Hij IH]; [lia|].
  destruct (sizes !! j) as [z|] eqn:Hz.
  - rewrite (offset_of_S _ _ _ Hz).
    pose proof (Forall_lookup_1 _ _ _ _ Hs Hz). cbn in *. lia.
  - apply lookup_ge_None in Hz. unfold offset_of in *.
    rewrite (take_ge sizes (S j)) by lia. rewrite (take_ge sizes j) in IH by lia. done.
Qed.

Lemma assign_views_length base start layers :
  length (assign_views base start layers) = length layers.
Proof. revert start. induction layers; intros; cbn; [done|]. by rewrite IHlayers. Qed.

Lemma assign_views_lookup base start layers i l :
  layers !! i = Some l →
  assign_views base start layers !! i
  = Some (SetWeights (ptr_add base (start + offset_of (map WeightSize layers) i)) l).
Proof.
  revert start i. induction layers as [|a layers IH]; intros start i Hl; [done|].
  destruct i as [|i].
  - apply (inj Some) in Hl as ->. rewrite offset_of_0, Z.add_0_r. done.
  - change (assign_views base (start + WeightSize a) layers !! i
            = Some (SetWeights
                      (ptr_add base
                         (start + offset_of (WeightSize a :: map WeightSize layers) (S i)))
                      l)).
    rewrite (IH _ _ Hl). unfold offset_of.
    cbn [take]. rewrite sum_sizes_cons.
    do 3 f_equal. lia.
Qed.

(** The loop succeeds when the sizes fit. *)
Lemma SetLayerMemory_loop_fits parameters layers total :
  0 ≤ total → sizes_valid layers →
  total + sum_sizes (map WeightSize layers) ≤ n_elem parameters →
  SetLayerMemory_loop parameters total layers
  = Return (assign_views (memptr parameters) total layers,
            total + sum_sizes (map WeightSize layers)).
Proof.
  revert total. induction layers as [|l layers IH]; intros total Ht Hv Hfit.
  - cbn. by rewrite Z.add_0_r.
  - apply Forall_cons in Hv as [[Hl0 Hl1] Hv].
    cbn [map] in *. rewrite sum_sizes_cons in *.
    pose proof (sum_sizes_nonneg _ (weight_sizes_nonneg _ Hv)).
    pose proof (n_elem_valid parameters) as [_ Hmax].
    cbn [SetLayerMemory_loop].
    rewrite SizeTFacts.add_exact by (unfold SizeT.valid; lia).
    unfold Log_Assert. destruct (Z.leb_spec (total + WeightSize l) (n_elem parameters)); [|lia].
    cbn. rewrite IH by (done || lia). cbn. do 2 f_equal. lia.
Qed.

(** The loop stops at the first layer whose view would pass the end. *)
Lemma SetLayerMemory_loop_past_end parameters layers total :
  0 ≤ total ≤ n_elem parameters → sizes_valid layers →
  n_elem parameters < total + sum_sizes (map WeightSize layers) < SizeT.modulus →
  SetLayerMemory_loop parameters total layers = Throw (runtime_error msg_past_end).
Proof.
  revert total. induction layers as [|l layers IH]; intros total Ht Hv Hpast.
  - cbn in Hpast. lia.
  - apply Forall_cons in Hv as [[Hl0 Hl1] Hv].
    cbn [map] in *. rewrite sum_sizes_cons in *.
    pose proof (sum_sizes_nonneg _ (weight_sizes_nonneg _ Hv)).
    cbn [SetLayerMemory_loop].
    rewrite SizeTFacts.add_exact by (unfold SizeT.valid; lia).
    unfold Log_Assert. destruct (Z.leb_spec (total + WeightSize l) (n_elem parameters)); [|done].
    cbn. rewrite IH; [done|lia|done|lia].
Qed.

Lemma assign_views_inv base layers i (a : Layer) :
  assign_views base 0 layers !! i = Some a →
  ∃ l, layers !! i = Some l
       ∧ a = SetWeights (ptr_add base (offset_of (map WeightSize layers) i)) l.
Proof.
  intros Ha. pose proof (lookup_lt_Some _ _ _ Ha) as Hi.
  rewrite assign_views_length in Hi.
  destruct (lookup_lt_is_Some_2 layers i Hi) as [l Hl].
  exists l. split; [done|].
  rewrite (assign_views_lookup _ _ _ _ _ Hl), Z.add_0_l in Ha. by simplify_eq.
Qed.

Lemma view_start_SetWeights base off l :
  view_start (SetWeights (ptr_add base off) l) = offset base + off.
Proof. done. Qed.

Lemma view_end_SetWeights base off l :
  view_end (SetWeights (ptr_add base off) l) = offset base + off + WeightSize l.
Proof. done. Qed.

Lemma SetLayerMemory_exact self :
  sizes_valid (network self) →
  sum_sizes (map WeightSize (network self)) = n_elem (parameters self) →
  SetLayerMemory self
  = Return (set_layerMemoryIsSet true
              (set_network (assign_views (memptr (parameters self)) 0 (network self))
                 self)).
Proof.
  intros Hv Hsum. unfold SetLayerMemory.
  rewrite SetLayerMemory_loop_fits by (done || lia). cbn.
  rewrite Z.add_0_l, Hsum, Z.eqb_refl. done.
Qed.

Lemma SetLayerMemory_short self :
  sizes_valid (network self) →
  sum_sizes (map WeightSize (network self)) < n_elem (parameters self) →
  SetLayerMemory self = Throw (runtime_error msg_total).
Proof.
  intros Hv Hsum. unfold SetLayerMemory.
  rewrite SetLayerMemory_loop_fits by (done || lia). cbn.
  rewrite Z.add_0_l.
  destruct (Z.eqb_spec (sum_sizes (map WeightSize (network self)))
              (n_elem (parameters self))); [lia|done].
Qed.

Lemma SetLayerMemory_long self :
  sizes_valid (network self) →
  n_elem (parameters self) < sum_sizes (map WeightSize (network self)) < SizeT.modulus →
  SetLayerMemory self = Throw (runtime_error msg_past_end).
Proof.
  intros Hv Hsum. unfold SetLayerMemory.
  rewrite SetLayerMemory_loop_past_end; [done| |done|lia].
  pose proof (n_elem_valid (parameters self)) as [? ?]. lia.
Qed.

End Layout.

(** C1, as the code has it.  For a layer sequence whose weight sizes sum
    below 2^64, [SetLayerMemory] passes its assertions exactly when the sum
    of the weight sizes is the element count of the parameter buffer (a
    larger sum fails the check inside the loop, a smaller one the final
    check).  When it passes, layer [i] has received the view that starts at
    the sum of the weight sizes of layers [0..i-1] and spans its own
    [WeightSize()]; each view starts where the previous one ends, the first
    at the start of the buffer and the last ending at its end, so the views
    do not overlap and cover the buffer.  The offsets never decrease, and
    increase strictly past every layer that has weights. *)
Theorem SetLayerMemory_partitions
    {Kind Mem OutputLayerType InitializationRuleType : Type}
    {caps : Capabilities (Kind := Kind) (Mem := Mem)
              (OutputLayerType := OutputLayerType)
              (InitializationRuleType := InitializationRuleType)}
    (self : FFN (Kind := Kind) (OutputLayerType := OutputLayerType)
                (InitializationRuleType := InitializationRuleType)) :
  sizes_valid (network self) →
  sum_sizes (map WeightSize (network self)) < SizeT.modulus →
  let sizes := map WeightSize (network self) in
  let base := memptr (parameters self) in
  (is_Return (SetLayerMemory self) = true
     ↔ sum_sizes sizes = n_elem (parameters self)) ∧
  (sum_sizes sizes < n_elem (parameters self) →
     SetLayerMemory self = Throw (runtime_error msg_total)) ∧
  (n_elem (parameters self) < sum_sizes sizes →
     SetLayerMemory self = Throw (runtime_error msg_past_end)) ∧
  (∀ self', SetLayerMemory self = Return self' →
     layerMemoryIsSet self' = true ∧
     length (network self') = length (network self) ∧
     (∀ i l, network self !! i = Some l →
        network self' !! i
        = Some (SetWeights (ptr_add base (offset_of sizes i)) l)) ∧
     (∀ i a b, network self' !! i = Some a → network self' !! S i = Some b →
        view_start b = view_end a) ∧
     (∀ a, head (network self') = Some a → view_start a = offset base) ∧
     (∀ a, last (network self') = Some a →
        view_end a = offset base + n_elem (parameters self)) ∧
     (∀ i j a b, (i < j)%nat →
        network self' !! i = Some a → network self' !! j = Some b →
        view_end a ≤ view_start b ∧
        view_start a ≤ view_start b ∧
        (0 < WeightSize a → view_start a < view_start b))).
Proof.
  intros Hv Hmax sizes base. subst sizes base.
  pose proof (weight_sizes_nonneg _ Hv) as Hnn.
  set (sizes := map WeightSize (network self)) in *.
  assert (Hsize : ∀ i l, network self !! i = Some l → sizes !! i = Some (WeightSize l)).
  { intros i l Hl. unfold sizes. by rewrite list_lookup_fmap, Hl. }
  destruct (Z.lt_trichotomy (sum_sizes sizes) (n_elem (parameters self)))
    as [Hlt|[Heq|Hgt]].
  - pose proof (SetLayerMemory_short self Hv Hlt) as E. rewrite E.
    split; [cbn; split; [done|lia]|]. split; [done|]. split; [lia|]. done.
  - pose proof (SetLayerMemory_exact self Hv Heq) as E. rewrite E.
    split; [done|]. split; [lia|]. split; [lia|].
    intros self' [= <-]. cbn [layerMemoryIsSet network set_layerMemoryIsSet set_network].
    split; [done|]. split; [apply assign_views_length|].
    split; [intros i l Hl; rewrite (assign_views_lookup _ _ _ _ _ Hl); by rewrite Z.add_0_l|].
    split; [|split; [|split]].
    + intros i a b Ha Hb.
      apply assign_views_inv in Ha as (la & Hla & ->).
      apply assign_views_inv in Hb as (lb & Hlb & ->).
      rewrite view_start_SetWeights, view_end_SetWeights.
      fold sizes. rewrite (offset_of_S _ i _ (Hsize _ _ Hla)). lia.
    + intros a Ha. rewrite head_lookup in Ha.
      apply assign_views_inv in Ha as (la & Hla & ->).
      rewrite view_start_SetWeights, offset_of_0. lia.
    + intros a Ha. rewrite last_lookup, assign_views_length in Ha.
      apply assign_views_inv in Ha as (la & Hla & ->).
      rewrite view_end_SetWeights. fold sizes.
      rewrite <- Heq, <- (offset_of_all sizes).
      pose proof (lookup_lt_Some _ _ _ Hla) as Hlen.
      replace (length sizes) with (S (pred (length (network self))))
        by (unfold sizes; rewrite length_map; lia).
      rewrite (offset_of_S sizes _ _ (Hsize _ _ Hla)). lia.
    + intros i j a b Hij Ha Hb.
      apply assign_views_inv in Ha as (la & Hla & ->).
      apply assign_views_inv in Hb as (lb & Hlb & ->).
      rewrite !view_start_SetWeights, view_end_SetWeights. fold sizes.
      change (WeightSize (SetWeights _ la)) with (WeightSize la).
      pose proof (offset_of_S _ _ _ (Hsize _ _ Hla)) as Hstep.
      pose proof (offset_of_mono sizes (S i) j Hnn ltac:(lia)).
      pose proof (Forall_lookup_1 _ _ _ _ Hv Hla) as [? ?].
      lia.
  - pose proof (SetLayerMemory_long self Hv (conj Hgt Hmax)) as E. rewrite E.
    split; [cbn; split; [done|lia]|]. split; [lia|]. split; [done|]. done.
Qed.

(** Three layers of 6, 0 and 3 weights over a buffer of 9 parameters. *)
Lemma SetLayerMemory_partitions_witness :
  sizes_valid (network three_layers) ∧
  sum_sizes (map WeightSize (network three_layers)) < SizeT.modulus ∧
  (is_Return (SetLayerMemory three_layers) = true
     ↔ sum_sizes (map WeightSize (network three_layers))
       = n_elem (parameters three_layers)).
Proof.
  assert (Hv : sizes_valid (network three_layers)).
  { unfold sizes_valid. repeat constructor; by vm_compute. }
  assert (Hmax : sum_sizes (map WeightSize (network three_layers)) < SizeT.modulus)
    by (by vm_compute).
  split; [exact Hv|]. split; [exact Hmax|].
  exact (proj1 (SetLayerMemory_partitions three_layers Hv Hmax)).
Defined.

(** C1 as stated fails on the strict increase of the offsets: the views of
    the second and third of the three layers both start at offset 6.  And
    with only 8 parameters for the 9 weights, the pass stops on the check
    inside the loop, before the final one. *)
Lemma SetLayerMemory_offsets_not_strict :
  (∃ self' a b,
     SetLayerMemory three_layers = Return self' ∧
     network self' !! 1%nat = Some a ∧ network self' !! 2%nat = Some b ∧
     view_start a = 6 ∧ view_start b = 6 ∧ ¬ (view_start a < view_start b)) ∧
  SetLayerMemory (set_parameters (matrix 1 8 1) three_layers)
  = Throw (runtime_error msg_past_end).
Proof.
  split; [|vm_compute; reflexivity].
  eexists _, _, _. split; [vm_compute; reflexivity|].
  cbn [network set_layerMemoryIsSet set_network].
  split; [reflexivity|]. split; [reflexivity|].
  split; [reflexivity|]. split; [reflexivity|]. vm_compute. discriminate.
Qed.

Section Arenas.

Context {Kind Mem OutputLayerType InitializationRuleType : Type}.
Context {caps : Capabilities (Kind := Kind) (Mem := Mem)
                  (OutputLayerType := OutputLayerType)
                  (InitializationRuleType := InitializationRuleType)}.

Abbreviation Layer := (Layer (Kind := Kind)).
Abbreviation FFN := (FFN (Kind := Kind) (OutputLayerType := OutputLayerType)
                     (InitializationRuleType := InitializationRuleType)).
Abbreviation World := (World (Mem := Mem)).

Implicit Types (l : Layer) (layers : list Layer) (self : FFN) (w : World).
Implicit Types (views vs : list Mat).

(** For an arena of fewer than 6755399441055749 elements the test of the code
    is the policy of the specification. *)
Lemma must_reallocate_spec requested capacity :
  SizeT.valid requested → 0 ≤ capacity < 6755399441055749 →
  must_reallocate requested capacity capacity = true ↔ hysteresis requested capacity.
Proof.
  intros Hreq Hcap. unfold must_reallocate, hysteresis.
  rewrite (DoubleFacts.below_tenth_exact requested capacity Hreq Hcap).
  rewrite orb_true_iff, !Z.ltb_lt. done.
Qed.

Lemma accumulate_sizes_total layers totalInputSize :
  (accumulate_sizes layers totalInputSize).2 = total_output_size layers.
Proof.
  unfold accumulate_sizes, total_output_size.
  generalize 0. revert totalInputSize.
  induction layers as [|l layers IH]; intros tin tout; [done|]. cbn. apply IH.
Qed.

Lemma total_output_size_exact_from layers acc :
  output_sizes_valid layers → 0 ≤ acc →
  acc + sum_sizes (map OutputSize layers) < SizeT.modulus →
  fold_left (λ total l, SizeT.add total (OutputSize l)) layers acc
  = acc + sum_sizes (map OutputSize layers).
Proof.
  revert acc. induction layers as [|l layers IH]; intros acc Hv Hacc Hmax.
  - cbn. lia.
  - apply Forall_cons in Hv as [[Hl0 Hl1] Hv].
    cbn [map fold_left] in *. rewrite sum_sizes_cons in *.
    assert (0 ≤ sum_sizes (map OutputSize layers)).
    { apply sum_sizes_nonneg, Forall_fmap. eapply Forall_impl; [exact Hv|].
      by intros ? [? ?]. }
    rewrite SizeTFacts.add_exact by (unfold SizeT.valid; lia).
    rewrite IH by (done || lia). lia.
Qed.

Lemma total_output_size_exact layers :
  output_sizes_valid layers →
  sum_sizes (map OutputSize layers) < SizeT.modulus →
  total_output_size layers = sum_sizes (map OutputSize layers).
Proof.
  intros Hv Hmax. unfold total_output_size.
  rewrite total_output_size_exact_from by (done || lia). lia.
Qed.

(** What the second loop produces, whenever it completes. *)
Lemma alias_outputs_inv base batchSize total start layers views vs :
  alias_outputs base batchSize total start layers views = Return vs →
  length vs = length views ∧
  ∀ i v, vs !! i = Some v →
    ∃ l, layers !! i = Some l ∧ block (memptr v) = block base ∧
         n_rows v = OutputSize l ∧ n_cols v = batchSize ∧ strict_alias v = true.
Proof.
  revert start layers vs.
  induction views as [|v0 views IH]; intros start layers vs Hrun.
  - cbn in Hrun. simplify_eq. split; [done|]. intros i v Hv. done.
  - destruct layers as [|l layers]; [done|]. cbn [alias_outputs] in Hrun.
    unfold Log_Assert in Hrun.
    destruct (_ <=? _); [|done]. cbn in Hrun.
    destruct (alias_outputs _ _ _ _ layers views) as [rest| |] eqn:Hrest; [|done..].
    cbn in Hrun. simplify_eq.
    destruct (IH _ _ _ Hrest) as [Hlen Hviews].
    split; [cbn; by rewrite Hlen|].
    intros [|i] v Hv.
    + apply (inj Some) in Hv as <-. by exists l.
    + apply (Hviews i v Hv).
Qed.

(** The second loop completes when there is a layer for every view and the
    sizes do not overflow. *)
Lemma alias_outputs_fits base batchSize total start layers views :
  length views = length layers → output_sizes_valid layers →
  0 ≤ batchSize → 0 ≤ start →
  start + batchSize * sum_sizes (map OutputSize layers) ≤ SizeT.mul batchSize total →
  alias_outputs base batchSize total start layers views
  = Return (slice_views base batchSize start (map OutputSize layers)).
Proof.
  revert start layers.
  induction views as [|v0 views IH]; intros start layers Hlen Hv Hb Hstart Hfit.
  - by destruct layers.
  - destruct layers as [|l layers]; [done|].
    apply Forall_cons in Hv as [[Hl0 Hl1] Hv].
    cbn [map alias_outputs slice_views] in *. rewrite sum_sizes_cons in *.
    assert (0 ≤ sum_sizes (map OutputSize layers)).
    { apply sum_sizes_nonneg, Forall_fmap. eapply Forall_impl; [exact Hv|].
      by intros ? [? ?]. }
    pose proof (SizeTFacts.wrap_valid (batchSize * total)) as [_ Hmax].
    fold (SizeT.mul batchSize total) in Hmax.
    assert (Hprod : batchSize * OutputSize l ≤ SizeT.mul batchSize total - start) by nia.
    assert (0 ≤ batchSize * OutputSize l) by nia.
    rewrite (SizeTFacts.mul_comm (OutputSize l) batchSize).
    rewrite !(SizeTFacts.mul_exact batchSize (OutputSize l)) by (unfold SizeT.valid; lia).
    rewrite SizeTFacts.add_exact by (unfold SizeT.valid; lia).
    unfold Log_Assert.
    destruct (Z.leb_spec (start + batchSize * OutputSize l) (SizeT.mul batchSize total));
      [|lia].
    cbn. rewrite IH; [done|by simplify_eq/=|done|done|lia|nia].
Qed.

(** [InitializeForwardPassMemory], with its two outcomes apart. *)
Lemma InitializeForwardPassMemory_cases batchSize self w :
  InitializeForwardPassMemory batchSize (self, w) =
  let total := total_output_size (network self) in
  let requested := SizeT.mul batchSize total in
  let self1 :=
    set_totalOutputSize total
      (set_totalInputSize
         (accumulate_sizes (network self)
            (SizeT.of_int (SizeT.accumulate_int (inputDimensions self)))).1 self) in
  if must_reallocate requested (n_elem (layerOutputMatrix self))
       (n_elem (layerOutputMatrix self))
  then
    views ← alias_outputs (mkPtr (next_block w) 0) batchSize total 0
              (network self) (layerOutputs self);
    Return (set_layerOutputs views
              (set_layerOutputMatrix (alloc 1 requested w).1 self1),
            (alloc 1 requested w).2)
  else
    views ← alias_outputs (memptr (layerOutputMatrix self)) batchSize total 0
              (network self) (layerOutputs self);
    Return (set_layerOutputs views self1, w).
Proof.
  unfold InitializeForwardPassMemory.
  cbn [totalOutputSize set_totalOutputSize set_totalInputSize layerOutputMatrix
       network layerOutputs].
  rewrite accumulate_sizes_total.
  by destruct (must_reallocate _ _ _).
Qed.

(** [InitializeBackwardPassMemory] decides on the capacity of the delta
    arena for growing, and on the element count of the output arena for
    shrinking. *)
Lemma InitializeBackwardPassMemory_decision batchSize self w self' w' :
  InitializeBackwardPassMemory batchSize (self, w) = Return (self', w') →
  let requested := SizeT.mul batchSize (totalInputSize self) in
  if must_reallocate requested (n_elem (deltaMatrix self))
       (n_elem (layerOutputMatrix self))
  then deltaMatrix self' = mkMat (mkPtr (next_block w) 0) 1 requested false
       ∧ next_block w' = (next_block w + 1)%N
  else deltaMatrix self' = deltaMatrix self ∧ w' = w.
Proof.
  unfold InitializeBackwardPassMemory. cbv zeta.
  destruct (must_reallocate _ _ _).
  - cbn [alloc fst snd].
    destruct (alias_deltas _ _ _ _ _ _ _ _) as [views| |]; [|done..].
    cbn. by intros [= <- <-].
  - destruct (alias_deltas _ _ _ _ _ _ _ _) as [views| |]; [|done..].
    cbn. by intros [= <- <-].
Qed.

End Arenas.

(** C2, as the code has it.  [InitializeForwardPassMemory(b)] either replaces
    the output arena by a fresh one of exactly [b * totalOutputSize]
    elements, or keeps the arena it has and allocates nothing.  For an arena
    of fewer than 6755399441055749 elements it replaces it if and only if
    that request exceeds the arena's element count or is strictly below a
    tenth of the element count, rounded down; so a request between the
    rounded tenth and the element count keeps the arena.  In both cases
    every layer gets a view of its output size by [b] into the arena; the
    pass completes whenever there is one view slot per layer and the sizes do
    not overflow, and the views are then packed in layer order. *)
Theorem InitializeForwardPassMemory_hysteresis
    {Kind Mem OutputLayerType InitializationRuleType : Type}
    {caps : Capabilities (Kind := Kind) (Mem := Mem)
              (OutputLayerType := OutputLayerType)
              (InitializationRuleType := InitializationRuleType)}
    (batchSize : Z)
    (self : FFN (Kind := Kind) (OutputLayerType := OutputLayerType)
                (InitializationRuleType := InitializationRuleType))
    (w : World (Mem := Mem)) :
  let total := total_output_size (network self) in
  let requested := SizeT.mul batchSize total in
  let capacity := n_elem (layerOutputMatrix self) in
  (∀ self' w',
     InitializeForwardPassMemory batchSize (self, w) = Return (self', w') →
     totalOutputSize self' = total ∧
     (layerOutputMatrix self' = mkMat (mkPtr (next_block w) 0) 1 requested false ∧
      n_elem (layerOutputMatrix self') = requested ∧
      next_block w' = (next_block w + 1)%N
      ∨ layerOutputMatrix self' = layerOutputMatrix self ∧ w' = w) ∧
     (capacity < 6755399441055749 →
        (next_block w' ≠ next_block w ↔ hysteresis requested capacity) ∧
        (hysteresis requested capacity →
           layerOutputMatrix self'
           = mkMat (mkPtr (next_block w) 0) 1 requested false ∧
           n_elem (layerOutputMatrix self') = requested ∧
           next_block w' = (next_block w + 1)%N) ∧
        (capacity / 10 ≤ requested ≤ capacity →
           layerOutputMatrix self' = layerOutputMatrix self ∧ w' = w)) ∧
     length (layerOutputs self') = length (layerOutputs self) ∧
     (∀ i v, layerOutputs self' !! i = Some v →
        ∃ l, network self !! i = Some l ∧
             block (memptr v) = block (memptr (layerOutputMatrix self')) ∧
             n_rows v = OutputSize l ∧ n_cols v = batchSize ∧
             strict_alias v = true)) ∧
  (length (layerOutputs self) = length (network self) →
   output_sizes_valid (network self) → 0 ≤ batchSize →
   sum_sizes (map OutputSize (network self)) < SizeT.modulus →
   batchSize * sum_sizes (map OutputSize (network self)) < SizeT.modulus →
   ∃ self' w',
     InitializeForwardPassMemory batchSize (self, w) = Return (self', w') ∧
     requested = batchSize * sum_sizes (map OutputSize (network self)) ∧
     layerOutputs self'
     = slice_views (memptr (layerOutputMatrix self')) batchSize 0
         (map OutputSize (network self))).
Proof.
  intros total requested capacity. split.
  - intros self' w'. rewrite InitializeForwardPassMemory_cases.
    assert (Hvalid : SizeT.valid requested) by apply SizeTFacts.wrap_valid.
    assert (Hcap : 0 ≤ capacity) by apply SizeTFacts.wrap_valid.
    pose proof (must_reallocate_spec requested capacity Hvalid) as Hspec.
    subst total requested capacity. cbv zeta.
    destruct (must_reallocate _ _ _) eqn:Hre.
    + destruct (alias_outputs _ _ _ _ _ _) as [views| |] eqn:Hviews; [|done..].
      cbn. intros [= <- <-].
      apply alias_outputs_inv in Hviews as [Hlen Hviews].
      cbn [totalOutputSize layerOutputMatrix layerOutputs set_layerOutputs
           set_layerOutputMatrix set_totalOutputSize set_totalInputSize
           next_block memptr block].
      assert (Hfresh : n_elem (mkMat (mkPtr (next_block w) 0) 1
                                 (SizeT.mul batchSize (total_output_size (network self)))
                                 false)
                       = SizeT.mul batchSize (total_output_size (network self))).
      { unfold n_elem. cbn [n_rows n_cols].
        unfold SizeT.mul at 1. rewrite Z.mul_1_l.
        apply SizeTFacts.wrap_small, SizeTFacts.wrap_valid. }
      split; [done|]. split; [left; split; [done|]; split; [exact Hfresh|done]|].
      split; [|split; [done|exact Hviews]].
      intros Hbound. destruct (Hspec ltac:(lia)) as [Hpolicy _].
      specialize (Hpolicy eq_refl).
      split; [split; [done|intros _; lia]|].
      split; [intros _; split; [done|]; split; [exact Hfresh|done]|].
      unfold hysteresis in Hpolicy. lia.
    + destruct (alias_outputs _ _ _ _ _ _) as [views| |] eqn:Hviews; [|done..].
      cbn. intros [= <- <-].
      apply alias_outputs_inv in Hviews as [Hlen Hviews].
      cbn [totalOutputSize layerOutputMatrix layerOutputs set_layerOutputs
           set_layerOutputMatrix set_totalOutputSize set_totalInputSize].
      split; [done|]. split; [by right|].
      split; [|split; [done|exact Hviews]].
      intros Hbound.
      assert (Hh : ¬ hysteresis
                     (SizeT.mul batchSize (total_output_size (network self)))
                     (n_elem (layerOutputMatrix self))).
      { intros Hh. destruct (Hspec ltac:(lia)) as [_ Hcode].
        specialize (Hcode Hh). discriminate. }
      split; [split; [done|done]|]. split; [done|done].
  - intros Hlen Hv Hb Hsum Hprod.
    assert (Htotal : total = sum_sizes (map OutputSize (network self)))
      by by apply total_output_size_exact.
    assert (0 ≤ sum_sizes (map OutputSize (network self))).
    { apply sum_sizes_nonneg, Forall_fmap. eapply Forall_impl; [exact Hv|].
      by intros ? [? ?]. }
    assert (Hreq : requested = batchSize * sum_sizes (map OutputSize (network self))).
    { unfold requested. rewrite Htotal. apply SizeTFacts.mul_exact.
      unfold SizeT.valid. nia. }
    rewrite InitializeForwardPassMemory_cases. cbv zeta.
    assert (Hfit : 0 + batchSize * sum_sizes (map OutputSize (network self))
                   ≤ SizeT.mul batchSize (total_output_size (network self))).
    { fold total requested. lia. }
    destruct (must_reallocate _ _ _).
    + rewrite alias_outputs_fits by done.
      eexists _, _. split; [reflexivity|]. split; [done|]. done.
    + rewrite alias_outputs_fits by done.
      eexists _, _. split; [reflexivity|]. split; [done|]. done.
Qed.

(** After a pass with batch size 4 the arena holds 20 elements; a batch of 2
    asks for 10, between 2 and 20: the arena stays. *)
Lemma InitializeForwardPassMemory_hysteresis_witness :
  n_elem (layerOutputMatrix after_batch_of_4.1) = 20 ∧
  ∃ self',
    InitializeForwardPassMemory 2 after_batch_of_4 = Return (self', after_batch_of_4.2) ∧
    layerOutputMatrix self' = layerOutputMatrix after_batch_of_4.1.
Proof.
  split; [vm_compute; reflexivity|].
  destruct (InitializeForwardPassMemory_hysteresis 2 after_batch_of_4.1
              after_batch_of_4.2) as [Hany Hruns].
  destruct Hruns as (self' & w' & Hrun & _).
  - reflexivity.
  - unfold output_sizes_valid. repeat constructor; by vm_compute.
  - lia.
  - by vm_compute.
  - by vm_compute.
  - destruct (Hany self' w' Hrun) as (_ & _ & Hpolicy & _).
    destruct Hpolicy as (_ & _ & Hkeep); [by vm_compute|].
    destruct Hkeep as [Hsame ->].
    { vm_compute. split; discriminate. }
    exists self'. split; [exact Hrun|exact Hsame].
Defined.

(** C2 as stated fails on a very large arena, because the code computes the
    threshold in [double].  One layer of one output, after a pass with batch
    size 6755399441055749: the arena holds that many elements, and its exact
    tenth, rounded down, is 675539944105574.  A pass with batch size
    675539944105574 asks for that many elements, which is not below the
    tenth; yet [0.1 * 6755399441055749] rounds to 675539944105575 in
    [double], the request is below it, and the arena is replaced. *)
Lemma InitializeForwardPassMemory_threshold_in_double :
  (n_elem (layerOutputMatrix after_huge_batch.1) = 6755399441055749 ∧
   SizeT.mul 675539944105574 (total_output_size (network after_huge_batch.1))
   = 675539944105574 ∧
   ¬ hysteresis 675539944105574 6755399441055749 ∧
   6755399441055749 / 10 ≤ 675539944105574 ≤ 6755399441055749) ∧
  Double.floor (Double.mul Double.tenth (Double.of_size_t 6755399441055749))
  = Double.of_size_t 675539944105575 ∧
  ∃ self' w',
    InitializeForwardPassMemory 675539944105574 after_huge_batch = Return (self', w') ∧
    layerOutputMatrix self'
    = mkMat (mkPtr (next_block after_huge_batch.2) 0) 1 675539944105574 false ∧
    layerOutputMatrix self' ≠ layerOutputMatrix after_huge_batch.1 ∧
    next_block w' = (next_block after_huge_batch.2 + 1)%N.
Proof.
  split; [|split].
  - split; [by vm_compute|]. split; [by vm_compute|].
    split; [|by vm_compute]. unfold hysteresis.
    change (6755399441055749 / 10) with 675539944105574. lia.
  - by vm_compute.
  - eexists _, _. split; [vm_compute; reflexivity|].
    split; [reflexivity|]. split; [|reflexivity]. discriminate.
Qed.

(** C3.  The delta arena is not judged against its own capacity when it
    comes to shrinking: the test reads the element count of the output
    arena.  After passes with batch size 20 and a forward pass with batch
    size 1, the delta arena holds 160 elements, the output arena 5, and
    [totalInputSize] is 8; a backward pass with batch size 1 asks for 8
    elements, strictly below [floor(0.1 * 160) = 16], and the delta arena is
    kept. *)
Theorem InitializeBackwardPassMemory_keeps_large_arena :
  let self := after_large_then_small_batch.1 in
  let requested := SizeT.mul 1 (totalInputSize self) in
  (n_elem (deltaMatrix self) = 160 ∧ n_elem (layerOutputMatrix self) = 5 ∧
   requested = 8) ∧
  hysteresis requested (n_elem (deltaMatrix self)) ∧
  ∃ self',
    InitializeBackwardPassMemory 1 after_large_then_small_batch
    = Return (self', after_large_then_small_batch.2) ∧
    deltaMatrix self' = deltaMatrix self.
Proof.
  split; [by vm_compute|]. split; [right; by vm_compute|].
  eexists. split; [vm_compute; reflexivity|]. vm_compute. reflexivity.
Qed.

Section ForwardPass.

Context {Kind Mem OutputLayerType InitializationRuleType : Type}.
Context {caps : Capabilities (Kind := Kind) (Mem := Mem)
                  (OutputLayerType := OutputLayerType)
                  (InitializationRuleType := InitializationRuleType)}.

Abbreviation Layer := (Layer (Kind := Kind)).
Abbreviation FFN := (FFN (Kind := Kind) (OutputLayerType := OutputLayerType)
                     (InitializationRuleType := InitializationRuleType)).
Abbreviation World := (World (Mem := Mem)).
Abbreviation State := (State (Kind := Kind) (Mem := Mem)
                         (OutputLayerType := OutputLayerType)
                         (InitializationRuleType := InitializationRuleType)).

Implicit Types (l : Layer) (layers : list Layer) (self : FFN) (w : World) (s : State).

Lemma no_shape_error_bind {A B : Type} (m : outcome A) (k : A → outcome B) :
  no_shape_error m → (∀ a, no_shape_error (k a)) → no_shape_error (m ≫= k).
Proof.
  unfold no_shape_error. intros Hm Hk. destruct m as [a|e|]; cbn; [apply Hk| |done].
  intros [= ->]. done.
Qed.

Lemma no_shape_error_Return {A : Type} (a : A) : no_shape_error (Return a).
Proof. done. Qed.

Lemma no_shape_error_index {A : Type} (l : list A) (i : Z) : no_shape_error (index l i).
Proof. unfold index. destruct (i <? 0); [done|]. by destruct (l !! Z.to_nat i). Qed.

Lemma no_shape_error_back {A : Type} (l : list A) : no_shape_error (back l).
Proof. unfold back. by destruct (last l). Qed.

Lemma no_shape_error_alias_assert (c : bool) : no_shape_error (Log_Assert c msg_alias).
Proof. by destruct c. Qed.

Lemma no_shape_error_alias_outputs base batchSize total start layers views :
  no_shape_error (alias_outputs base batchSize total start layers views).
Proof.
  revert start layers. induction views as [|v views IH]; intros start layers; [done|].
  destruct layers as [|l layers]; [done|]. cbn [alias_outputs].
  apply no_shape_error_bind; [apply no_shape_error_alias_assert|]. intros _.
  apply no_shape_error_bind; [apply IH|]. done.
Qed.

Lemma no_shape_error_InitializeForwardPassMemory batchSize s :
  no_shape_error (InitializeForwardPassMemory batchSize s).
Proof.
  destruct s as [self w]. rewrite InitializeForwardPassMemory_cases. cbv zeta.
  destruct (must_reallocate _ _ _);
    (apply no_shape_error_bind; [apply no_shape_error_alias_outputs|done]).
Qed.

Lemma no_shape_error_for_loop {S : Type} count i (body : Z → S → outcome S) (st : S) :
  (∀ k st', no_shape_error (body k st')) → no_shape_error (for_loop count i body st).
Proof.
  intros Hbody. revert i st. induction count as [|count IH]; intros i st; [done|].
  cbn [for_loop]. apply no_shape_error_bind; [apply Hbody|]. intros st'. apply IH.
Qed.

Lemma no_shape_error_run_layers inputs results begin end_ self (m : Mem) :
  no_shape_error (run_layers inputs results begin end_ self m).
Proof.
  unfold run_layers. destruct (begin <? end_).
  - apply no_shape_error_bind; [apply no_shape_error_index|]. intros first.
    apply no_shape_error_bind; [apply no_shape_error_index|]. intros out.
    apply no_shape_error_bind.
    + apply no_shape_error_for_loop. intros k m'.
      repeat (apply no_shape_error_bind; [apply no_shape_error_index|]; intros ?).
      done.
    + intros m'.
      repeat (apply no_shape_error_bind; [apply no_shape_error_index|]; intros ?).
      done.
  - apply no_shape_error_bind; [apply no_shape_error_index|]. done.
Qed.

Lemma no_shape_error_Mat_set_size n (m : Mat) w : no_shape_error (Mat_set_size n m w).
Proof.
  unfold Mat_set_size. destruct (_ =? _); [done|]. by destruct (strict_alias m).
Qed.

(** With the weights in place, [Forward] ends on the input-shape assertion
    exactly when the dimension step does. *)
Lemma Forward_range_shape_error inputs results begin end_ s s1 :
  begin ≤ end_ → ensure_weights s = Return s1 →
  Forward_range inputs results begin end_ s = Throw (runtime_error msg_shape)
  ↔ ensure_dimensions inputs s1.1 = Throw (runtime_error msg_shape).
Proof.
  intros Hrange Hweights. unfold Forward_range.
  destruct (Z.ltb_spec end_ begin); [lia|].
  rewrite Hweights, CxxFacts.bind_Return.
  destruct (ensure_dimensions inputs s1.1) as [self2|e|];
    [rewrite CxxFacts.bind_Return
    |rewrite CxxFacts.bind_Throw; split; intros [= ->]; done
    |rewrite CxxFacts.bind_Undefined; split; done].
  split; [|done]. intros Hthrow. exfalso. revert Hthrow.
  apply no_shape_error_bind; [apply no_shape_error_InitializeForwardPassMemory|].
  intros s2.
  apply no_shape_error_bind; [apply no_shape_error_index|]. intros l.
  apply no_shape_error_bind.
  { destruct results; [done|apply no_shape_error_back]. }
  intros r.
  apply no_shape_error_bind; [apply no_shape_error_Mat_set_size|]. intros r'.
  destruct (write_ref results r'.1 s2.1) as [results' self'].
  apply no_shape_error_bind; [apply no_shape_error_run_layers|]. done.
Qed.

(** One declared axis, or none, below 2^31: the [int] accumulation is exact. *)
Lemma accumulate_int_single d :
  0 ≤ d < 2 ^ 31 → SizeT.of_int (SizeT.accumulate_int [d]) = d.
Proof.
  intros Hd. unfold SizeT.accumulate_int, SizeT.of_int, SizeT.to_int, SizeT.add,
    SizeT.wrap, SizeT.modulus. cbn [fold_left].
  change (2 ^ 31) with 2147483648 in *. change (2 ^ 32) with 4294967296.
  change (2 ^ 64) with 18446744073709551616.
  rewrite (Z.mod_small d) by lia.
  rewrite (Z.mod_small (d + 2147483648)) by lia.
  replace (d + 2147483648 - 2147483648) with d by lia.
  apply Z.mod_small. lia.
Qed.

(** Axes that are not negative and whose sum is below 2^31: the [int]
    accumulation is their sum. *)
Lemma accumulate_int_exact (shape : list Z) :
  Forall (λ d, 0 ≤ d) shape → sum_sizes shape < 2 ^ 31 →
  SizeT.of_int (SizeT.accumulate_int shape) = sum_sizes shape.
Proof.
  unfold SizeT.accumulate_int.
  enough (Hgen : ∀ acc, 0 ≤ acc → Forall (λ d, 0 ≤ d) shape →
                   acc + sum_sizes shape < 2 ^ 31 →
                   SizeT.of_int
                     (fold_left (λ acc x, SizeT.to_int (SizeT.add (SizeT.of_int acc) x))
                        shape acc)
                   = acc + sum_sizes shape).
  { intros Hnn Hsum. by rewrite (Hgen 0). }
  induction shape as [|d shape IH]; intros acc Hacc Hnn Hsum.
  - cbn [fold_left sum_sizes foldr] in *. unfold SizeT.of_int, SizeT.wrap, SizeT.modulus.
    change (2 ^ 31) with 2147483648 in *. change (2 ^ 64) with 18446744073709551616.
    rewrite Z.add_0_r. apply Z.mod_small. lia.
  - apply Forall_cons in Hnn as [Hd Hnn]. rewrite sum_sizes_cons in Hsum.
    pose proof (sum_sizes_nonneg _ Hnn) as Hrest.
    cbn [fold_left].
    assert (Hstep : SizeT.to_int (SizeT.add (SizeT.of_int acc) d) = acc + d).
    { unfold SizeT.to_int, SizeT.add, SizeT.of_int, SizeT.wrap, SizeT.modulus.
      change (2 ^ 31) with 2147483648 in *. change (2 ^ 32) with 4294967296.
      change (2 ^ 64) with 18446744073709551616.
      rewrite (Z.mod_small acc) by lia.
      rewrite (Z.mod_small (acc + d)) by lia.
      rewrite (Z.mod_small (acc + d + 2147483648)) by lia. lia. }
    rewrite Hstep, IH; [|lia|done|lia]. rewrite sum_sizes_cons. lia.
Qed.

(** The dimension step ends on the assertion exactly when the accumulated
    size of the shape in force is not the row count. *)
Lemma resolve_dimensions_shape_error inputs self :
  resolve_dimensions inputs self = Throw (runtime_error msg_shape)
  ↔ SizeT.of_int (SizeT.accumulate_int
       (if (length (inputDimensions self) =? 0)%nat
        then [n_rows inputs] else inputDimensions self))
    ≠ n_rows inputs.
Proof.
  unfold resolve_dimensions.
  set (shape := if (length (inputDimensions self) =? 0)%nat
                then [n_rows inputs] else inputDimensions self).
  assert (Hshape : inputDimensions
                     (if (length (inputDimensions self) =? 0)%nat
                      then set_inputDimensions [n_rows inputs] self else self)
                   = shape).
  { unfold shape. by destruct (_ =? _)%nat. }
  cbn [totalInputSize set_totalInputSize]. rewrite Hshape.
  unfold Log_Assert.
  destruct (Z.eqb_spec (SizeT.of_int (SizeT.accumulate_int shape)) (n_rows inputs))
    as [Heq|Hne].
  - cbn. split; [|done]. by destruct (network _).
  - cbn. done.
Qed.

End ForwardPass.

(** C4, as the code has it.  Once the weights are in place, a [Forward] call
    checks the input shape only when it passes the input dimensions through
    the network, that is when they are not yet marked as set or the first
    layer's recorded dimensions differ from the network's; a call that does
    not is never failed by the check.  In a call that does: an unset shape
    becomes the single flat dimension equal to the row count, and the check
    passes when there are fewer than 2^31 rows; with one declared axis of
    fewer than 2^31 elements the check fails exactly when the row count
    differs from the declared number of elements, the product of the shape.
    What the check compares the row count with is the sum of the declared
    axes: for every declared shape of axes that sum to less than 2^31 it
    fails exactly when the row count differs from that sum. *)
Theorem Forward_shape_check
    {Kind Mem OutputLayerType InitializationRuleType : Type}
    {caps : Capabilities (Kind := Kind) (Mem := Mem)
              (OutputLayerType := OutputLayerType)
              (InitializationRuleType := InitializationRuleType)}
    (inputs : Mat) (results : MatRef) (begin end_ : Z)
    (s s1 : State (Kind := Kind) (Mem := Mem) (OutputLayerType := OutputLayerType)
                  (InitializationRuleType := InitializationRuleType))
    (first : Layer (Kind := Kind)) (rest : list (Layer (Kind := Kind))) :
  begin ≤ end_ →
  ensure_weights s = Return s1 →
  network s1.1 = first :: rest →
  let declared := inputDimensions s1.1 in
  let resolves :=
    layer_inputDimensions first ≠ declared ∨ inputDimensionsAreSet s1.1 = false in
  let fails :=
    Forward_range inputs results begin end_ s = Throw (runtime_error msg_shape) in
  (¬ resolves → ¬ fails) ∧
  (resolves → declared = [] → 0 ≤ n_rows inputs < 2 ^ 31 →
     ¬ fails ∧
     ∃ self2, ensure_dimensions inputs s1.1 = Return self2
              ∧ inputDimensions self2 = [n_rows inputs]) ∧
  (resolves → ∀ d, declared = [d] → 0 ≤ d < 2 ^ 31 →
     (fails ↔ n_rows inputs ≠ product_sizes declared)) ∧
  (resolves → declared ≠ [] → Forall (λ d, 0 ≤ d) declared →
     sum_sizes declared < 2 ^ 31 →
     (fails ↔ n_rows inputs ≠ sum_sizes declared)).
Proof.
  intros Hrange Hweights Hnet declared resolves fails.
  assert (Hstep : ensure_dimensions inputs s1.1 =
                  if bool_decide (layer_inputDimensions first ≠ declared)
                     || negb (inputDimensionsAreSet s1.1)
                  then resolve_dimensions inputs s1.1 else Return s1.1).
  { unfold ensure_dimensions. by rewrite Hnet. }
  assert (Hfails : fails ↔ ensure_dimensions inputs s1.1
                           = Throw (runtime_error msg_shape))
    by by apply Forward_range_shape_error.
  assert (Hcond : bool_decide (layer_inputDimensions first ≠ declared)
                  || negb (inputDimensionsAreSet s1.1) = true ↔ resolves).
  { unfold resolves. rewrite orb_true_iff, bool_decide_eq_true, negb_true_iff. done. }
  assert (Hsum : resolves → declared ≠ [] → Forall (λ d, 0 ≤ d) declared →
                 sum_sizes declared < 2 ^ 31 →
                 (fails ↔ n_rows inputs ≠ sum_sizes declared)).
  { intros Hres Hdecl Hnn Hlt. apply Hcond in Hres. rewrite Hfails, Hstep, Hres.
    rewrite resolve_dimensions_shape_error. fold declared.
    destruct declared as [|d shape] eqn:Eshape; [done|].
    simpl (length (d :: shape) =? 0)%nat. cbv iota.
    rewrite (accumulate_int_exact (d :: shape) Hnn Hlt).
    split; intros Hne Heq; by apply Hne. }
  split; [|split; [|split]].
  - intros Hno. rewrite Hfails, Hstep.
    destruct (_ || _); [|done]. destruct Hno. by apply Hcond.
  - intros Hres Hdecl Hrows. apply Hcond in Hres. rewrite Hfails, Hstep, Hres.
    assert (Hok : SizeT.of_int (SizeT.accumulate_int [n_rows inputs]) = n_rows inputs)
      by by apply accumulate_int_single.
    split.
    + rewrite resolve_dimensions_shape_error. fold declared. rewrite Hdecl.
      simpl (length [] =? 0)%nat. cbv iota. rewrite Hok. by intros Hne.
    + unfold resolve_dimensions. fold declared. rewrite Hdecl.
      simpl (length [] =? 0)%nat. cbv iota.
      cbn [inputDimensions set_inputDimensions totalInputSize set_totalInputSize
           network set_totalOutputSize].
      rewrite Hok, Z.eqb_refl. cbn [Log_Assert]. rewrite CxxFacts.bind_Return.
      rewrite Hnet. by eexists.
  - intros Hres d Hdecl Hd.
    assert (Hprod : product_sizes declared = sum_sizes declared).
    { rewrite Hdecl. unfold product_sizes, sum_sizes. cbn [foldr]. lia. }
    rewrite Hprod. apply Hsum; [done|by rewrite Hdecl| |].
    + rewrite Hdecl. apply Forall_cons. split; [lia|done].
    + rewrite Hdecl. unfold sum_sizes. cbn [foldr]. lia.
  - exact Hsum.
Qed.

(** The three layers, declared with 3 input elements, given 4 rows. *)
Lemma Forward_shape_check_witness :
  Forward_range (matrix 20 4 1) (caller_matrix empty_Mat) 0 2
    (three_layers, fresh_world)
  = Throw (runtime_error msg_shape)
  ↔ 4 ≠ product_sizes [3].
Proof.
  pose proof three_layers_with_memory_reached as Hweights.
  eassert (Hnet : network three_layers_with_memory.1 = _ :: _)
    by (vm_compute; reflexivity).
  assert (Hrange : 0 ≤ 2) by lia.
  destruct (Forward_shape_check (matrix 20 4 1) (caller_matrix empty_Mat) 0 2
              _ _ _ _ Hrange Hweights Hnet) as (_ & _ & Hone & _).
  apply (Hone (or_intror eq_refl) 3 eq_refl).
  vm_compute. split; [discriminate|done].
Defined.

(** C4 as stated fails.  Once a first pass has resolved the dimensions for
    the declared shape of 3 elements, a pass on 4 rows is not checked and
    completes.  (And with the declared shape 2 by 3, of 6 elements, a pass
    on 6 rows does fail the check, which compares the row count with 5; a
    pass on 5 rows completes.) *)
Lemma Forward_shape_check_not_product :
  (inputDimensions after_first_forward.1 = [3] ∧
   4 ≠ product_sizes (inputDimensions after_first_forward.1) ∧
   is_Return (Forward_range (matrix 21 4 1) (caller_matrix empty_Mat) 0 2
                after_first_forward) = true) ∧
  (product_sizes (inputDimensions declared_2_by_3) = 6 ∧
   Forward_range (matrix 21 6 1) (caller_matrix empty_Mat) 0 2
     (declared_2_by_3, fresh_world)
   = Throw (runtime_error msg_shape) ∧
   is_Return (Forward_range (matrix 21 5 1) (caller_matrix empty_Mat) 0 2
                (declared_2_by_3, fresh_world)) = true).
Proof.
  split.
  - split; [by vm_compute|]. split; [by vm_compute|]. by vm_compute.
  - split; [by vm_compute|]. split; [vm_compute; reflexivity|]. by vm_compute.
Qed.

Section Objective.

Context {Kind Mem OutputLayerType InitializationRuleType : Type}.
Context {caps : Capabilities (Kind := Kind) (Mem := Mem)
                  (OutputLayerType := OutputLayerType)
                  (InitializationRuleType := InitializationRuleType)}.

Abbreviation FFN := (FFN (Kind := Kind) (OutputLayerType := OutputLayerType)
                     (InitializationRuleType := InitializationRuleType)).
Abbreviation State := (State (Kind := Kind) (Mem := Mem)
                         (OutputLayerType := OutputLayerType)
                         (InitializationRuleType := InitializationRuleType)).

Implicit Types (self : FFN) (s : State).

(** Whatever [EvaluateWithGradient] returns is the value of [Evaluate] in
    training mode with the loss of every layer added once more. *)
Lemma EvaluateWithGradient_adds_losses_again begin gradient batchSize s res s' :
  EvaluateWithGradient begin gradient batchSize s = Return (res, s') →
  ∃ res0 s0,
    Evaluate begin batchSize false s = Return (res0, s0) ∧
    res = add_losses (network s0.1) (store s0.2) res0.
Proof.
  unfold EvaluateWithGradient.
  destruct (Evaluate begin batchSize false s) as [[res0 s0]| |]; [|done..].
  rewrite CxxFacts.bind_Return. cbn [fst snd].
  destruct (back _) as [out| |]; [|done..]. rewrite CxxFacts.bind_Return.
  destruct (cols (responses _) _ _) as [targets| |]; [|done..].
  rewrite CxxFacts.bind_Return.
  destruct (outputLayer_Backward _ _ _ _ _) as [error' w].
  destruct (Backward_pass _) as [s1| |]; [|done..]. rewrite CxxFacts.bind_Return.
  destruct (cols (predictors _) _ _) as [inputs| |]; [|done..].
  rewrite CxxFacts.bind_Return.
  destruct (Gradient _ _ _) as [s2| |]; [|done..]. rewrite CxxFacts.bind_Return.
  intros [= <- <-]. by exists res0, s0.
Qed.

Lemma ResetDeterministic_layers self :
  Forall (λ l, layer_deterministic l = true) (network (ResetDeterministic self)).
Proof.
  unfold ResetDeterministic. cbn [network set_network].
  apply Forall_fmap, Forall_true. done.
Qed.

Lemma InitializeWeights_layers s :
  network (InitializeWeights s).1 = map (set_Deterministic true) (network s.1) ∧
  deterministic (InitializeWeights s).1 = deterministic s.1.
Proof.
  destruct s as [self w]. unfold InitializeWeights.
  by destruct (NetworkInitialization_Initialize _ _ _ _).
Qed.

End Objective.

(** C5.  On the three layers, the second of which has a loss of 0.5, with
    batch size 1 from sample 0: [Evaluate] in training mode returns 0.5 (the
    output-layer loss 0 and each layer's loss once), and
    [EvaluateWithGradient] returns 1, the layer losses being added a second
    time to what [Evaluate] returned. *)
Theorem EvaluateWithGradient_counts_layer_losses_twice :
  (∃ s0, Evaluate 0 1 false with_dataset = Return (0.5%float, s0)) ∧
  (∃ s1, EvaluateWithGradient 0 gradient_buffer 1 with_dataset
         = Return (1%float, s1)) ∧
  0.5%float ≠ 1%float.
Proof.
  split; [eexists; vm_compute; reflexivity|].
  split; [eexists; vm_compute; reflexivity|].
  intros Heq.
  assert (E : PrimFloat.eqb 0.5 0.5 = PrimFloat.eqb 0.5 1) by (f_equal; exact Heq).
  vm_compute in E. discriminate E.
Qed.

(** C6.  [ResetData], with which [Train] binds the dataset before it hands
    the network to the optimizer, sets the network's mode to train
    ([deterministic = false]) and then runs the broadcast, which writes
    [true] into the deterministic flag of every layer, whatever the mode. *)
Theorem ResetData_broadcasts_deterministic
    {Kind Mem OutputLayerType InitializationRuleType OptimizerType : Type}
    {caps : Capabilities (Kind := Kind) (Mem := Mem)
              (OutputLayerType := OutputLayerType)
              (InitializationRuleType := InitializationRuleType)}
    (Optimize : OptimizerType →
                State (Kind := Kind) (Mem := Mem)
                  (OutputLayerType := OutputLayerType)
                  (InitializationRuleType := InitializationRuleType) →
                outcome (float * State))
    (predictors responses : Mat) (optimizer : OptimizerType)
    (s : State (Kind := Kind) (Mem := Mem) (OutputLayerType := OutputLayerType)
               (InitializationRuleType := InitializationRuleType)) :
  let s' := ResetData predictors responses s in
  Train Optimize predictors responses optimizer s = Optimize optimizer s' ∧
  deterministic s'.1 = false ∧
  length (network s'.1) = length (network s.1) ∧
  Forall (λ l, layer_deterministic l = true) (network s'.1).
Proof.
  intros s'. split; [done|]. subst s'. destruct s as [self w].
  unfold ResetData.
  set (self1 := ResetDeterministic _).
  assert (Hmode : deterministic self1 = false) by done.
  assert (Hlen : length (network self1) = length (network self))
    by (unfold self1, ResetDeterministic; cbn [network set_network];
        by rewrite length_map).
  assert (Hall : Forall (λ l, layer_deterministic l = true) (network self1))
    by apply ResetDeterministic_layers.
  destruct (negb (reset self1)); [|done].
  destruct (InitializeWeights_layers (self1, w)) as [-> ->].
  cbn [fst]. split; [done|]. split; [by rewrite length_map|].
  apply Forall_fmap, Forall_true. done.
Qed.

Section GradientPass.

Context {Kind Mem OutputLayerType InitializationRuleType : Type}.
Context {caps : Capabilities (Kind := Kind) (Mem := Mem)
                  (OutputLayerType := OutputLayerType)
                  (InitializationRuleType := InitializationRuleType)}.

Abbreviation Layer := (Layer (Kind := Kind)).
Abbreviation FFN := (FFN (Kind := Kind) (OutputLayerType := OutputLayerType)
                     (InitializationRuleType := InitializationRuleType)).
Abbreviation World := (World (Mem := Mem)).
Abbreviation Operands := (GradientOperands (Kind := Kind)).

Implicit Types (l : Layer) (layers : list Layer) (self : FFN) (w : World).
Implicit Types (views vs : list Mat) (c : Operands) (m : Mem).

Lemma alias_gradients_total base start layers views :
  (length views ≤ length layers)%nat →
  ∃ vs, alias_gradients base start layers views = Return vs
        ∧ length vs = length views.
Proof.
  revert start layers. induction views as [|v views IH]; intros start layers Hlen.
  - by exists [].
  - destruct layers as [|l layers]; [cbn in Hlen; lia|].
    cbn [alias_gradients].
    destruct (IH (SizeT.add start (WeightSize l)) layers) as (vs & -> & Hvs);
      [cbn in Hlen; lia|].
    eexists. split; [reflexivity|]. cbn. by rewrite Hvs.
Qed.

Lemma front_lookup {A : Type} (xs : list A) (a : A) :
  xs !! 0%nat = Some a → front xs = Return a.
Proof. destruct xs; [done|]. by intros [= ->]. Qed.

Lemma back_lookup {A : Type} (xs : list A) (a : A) :
  xs !! pred (length xs) = Some a → back xs = Return a.
Proof. unfold back. rewrite last_lookup. by intros ->. Qed.

Lemma gradient_body_middle input self (i : nat) :
  let n := length (network self) in
  (1 ≤ i)%nat → (S i < n)%nat → Z.of_nat n < SizeT.modulus →
  length (layerOutputs self) = n → length (layerDeltas self) = n →
  length (layerGradients self) = n →
  ∃ c, operands_at input self i = Some c ∧
       ∀ m, gradient_body self (Z.of_nat i) m = Return (run_gradient_call m c).
Proof.
  intros n Hi Hin Hn Ho Hd Hg.
  destruct (lookup_lt_is_Some_2 (network self) i) as [l Hl]; [lia|].
  destruct (lookup_lt_is_Some_2 (layerOutputs self) (pred i)) as [o Hlo]; [lia|].
  destruct (lookup_lt_is_Some_2 (layerDeltas self) (S i)) as [d Hld]; [lia|].
  destruct (lookup_lt_is_Some_2 (layerGradients self) i) as [g Hlg]; [lia|].
  exists (mkOperands l o d g). split.
  - unfold operands_at. rewrite Hl. cbn.
    destruct i as [|j]; [lia|]. cbn in Hlo. rewrite Hlo. cbn.
    destruct (decide (S (S j) = length (network self))); [lia|].
    rewrite Hld. cbn. by rewrite Hlg.
  - intros m. unfold gradient_body.
    rewrite (index_lookup (network self) _ l) by (lia || by rewrite Nat2Z.id).
    rewrite bind_Return.
    rewrite SizeTFacts.sub_exact by (unfold SizeT.valid; lia).
    rewrite (index_lookup (layerOutputs self) _ o);
      [|lia|by replace (Z.to_nat (Z.of_nat i - 1)) with (pred i) by lia].
    rewrite bind_Return.
    rewrite SizeTFacts.add_exact by (unfold SizeT.valid; lia).
    rewrite (index_lookup (layerDeltas self) _ d);
      [|lia|by replace (Z.to_nat (Z.of_nat i + 1)) with (S i) by lia].
    rewrite bind_Return.
    rewrite (index_lookup (layerGradients self) _ g) by (lia || by rewrite Nat2Z.id).
    by rewrite bind_Return.
Qed.

Lemma gradient_loop_middle input self (count i : nat) :
  let n := length (network self) in
  (1 ≤ i)%nat → (S (i + count) = n)%nat → Z.of_nat n < SizeT.modulus →
  length (layerOutputs self) = n → length (layerDeltas self) = n →
  length (layerGradients self) = n →
  ∃ mids : list Operands,
    length mids = count ∧
    (∀ k c, mids !! k = Some c → operands_at input self (i + k) = Some c) ∧
    ∀ m, for_loop count (Z.of_nat i) (gradient_body self) m
         = Return (foldl run_gradient_call m mids).
Proof.
  intros n. revert i. induction count as [|count IH]; intros i Hi Hin Hn Ho Hd Hg.
  - exists []. split; [done|]. split; [done|]. done.
  - destruct (gradient_body_middle input self i) as (c & Hc & Hbody);
      [lia|fold n; lia|done..|].
    destruct (IH (S i)) as (mids & Hlen & Hmids & Hloop); [lia|lia|done..|].
    exists (c :: mids). split; [cbn; by rewrite Hlen|]. split.
    + intros [|k] c' Hk.
      * apply (inj Some) in Hk as <-. by rewrite Nat.add_0_r.
      * replace (i + S k)%nat with (S i + k)%nat by lia. by apply Hmids.
    + intros m. cbn [for_loop foldl]. rewrite Hbody, bind_Return.
      replace (Z.of_nat i + 1) with (Z.of_nat (S i)) by lia. apply Hloop.
Qed.

Lemma operands_at_Some input self i c :
  operands_at input self i = Some c →
  network self !! i = Some (op_layer c) ∧
  match i with
  | O => op_input c = input
  | S j => layerOutputs self !! j = Some (op_input c)
  end ∧
  (if decide (S i = length (network self))
   then op_delta c = error self
   else layerDeltas self !! S i = Some (op_delta c)) ∧
  layerGradients self !! i = Some (op_gradient c).
Proof.
  unfold operands_at. intros Hc.
  apply bind_Some in Hc as (l & Hl & Hc).
  apply bind_Some in Hc as (a & Ha & Hc).
  apply bind_Some in Hc as (d & Hd & Hc).
  apply bind_Some in Hc as (g & Hg & Hc).
  apply (inj Some) in Hc as <-. cbn.
  split; [done|]. split; [destruct i; by simplify_eq|].
  split; [case_decide; by simplify_eq|done].
Qed.

End GradientPass.

(** C7.  On a network of [n >= 2] layers with one view per layer in each
    view list, [Gradient(input, gradient)] makes exactly [n] layer calls, in
    layer order: layer 0 reads the raw input and the delta of layer 1; a
    layer [i] strictly between the first and the last reads the forward
    output of layer [i-1] and the delta of layer [i+1]; the last layer reads
    the forward output of layer [n-2] and the error signal.  Each writes its
    own gradient view. *)
Theorem Gradient_operands
    {Kind Mem OutputLayerType InitializationRuleType : Type}
    {caps : Capabilities (Kind := Kind) (Mem := Mem)
              (OutputLayerType := OutputLayerType)
              (InitializationRuleType := InitializationRuleType)}
    (input gradient : Mat)
    (self : FFN (Kind := Kind) (OutputLayerType := OutputLayerType)
                (InitializationRuleType := InitializationRuleType))
    (w : World (Mem := Mem)) :
  let n := length (network self) in
  (2 ≤ n)%nat → Z.of_nat n < SizeT.modulus →
  length (layerOutputs self) = n → length (layerDeltas self) = n →
  length (layerGradients self) = n →
  ∃ self' ops,
    InitializeGradientPassMemory gradient self = Return self' ∧
    Gradient input gradient (self, w)
    = Return (self', mkWorld (next_block w) (foldl run_gradient_call (store w) ops)) ∧
    length ops = n ∧
    (∀ i c, ops !! i = Some c →
       operands_at input self' i = Some c ∧
       network self !! i = Some (op_layer c) ∧
       layerGradients self' !! i = Some (op_gradient c)) ∧
    (∀ c, ops !! 0%nat = Some c →
       op_input c = input ∧ layerDeltas self !! 1%nat = Some (op_delta c)) ∧
    (∀ i c, (0 < i < n - 1)%nat → ops !! i = Some c →
       layerOutputs self !! (i - 1)%nat = Some (op_input c) ∧
       layerDeltas self !! (i + 1)%nat = Some (op_delta c)) ∧
    (∀ c, ops !! (n - 1)%nat = Some c →
       layerOutputs self !! (n - 2)%nat = Some (op_input c) ∧
       op_delta c = error self).
Proof.
  intros n Hn2 Hmod Ho Hd Hg.
  destruct (alias_gradients_total (memptr gradient) 0 (network self)
              (layerGradients self)) as (vs & Hvs & Hlen); [lia|].
  set (self' := set_layerGradients vs self).
  assert (Hinit : InitializeGradientPassMemory gradient self = Return self').
  { unfold InitializeGradientPassMemory. by rewrite Hvs. }
  assert (Hg' : length (layerGradients self') = n) by (cbn; lia).
  destruct (lookup_lt_is_Some_2 (network self) 0) as [l0 Hl0]; [lia|].
  destruct (lookup_lt_is_Some_2 (layerDeltas self) 1) as [d1 Hd1]; [lia|].
  destruct (lookup_lt_is_Some_2 vs 0) as [g0 Hg0]; [lia|].
  destruct (lookup_lt_is_Some_2 (network self) (pred n)) as [ln Hln]; [lia|].
  destruct (lookup_lt_is_Some_2 (layerOutputs self) (n - 2)) as [on Hon]; [lia|].
  destruct (lookup_lt_is_Some_2 vs (pred (length vs))) as [gn Hgn]; [lia|].
  destruct (gradient_loop_middle input self' (n - 2) 1)
    as (mids & Hmlen & Hmids & Hloop); [lia|cbn; fold n; lia|done..|].
  set (c0 := mkOperands l0 input d1 g0).
  set (cn := mkOperands ln on (error self) gn).
  assert (Hc0 : operands_at input self' 0 = Some c0).
  { unfold operands_at. cbn [network layerDeltas layerOutputs layerGradients error
                             self' set_layerGradients].
    rewrite Hl0. cbn. destruct (decide (1%nat = length (network self))); [lia|].
    rewrite Hd1. cbn. by rewrite Hg0. }
  assert (Hcn : operands_at input self' (pred n) = Some cn).
  { unfold operands_at. cbn [network layerDeltas layerOutputs layerGradients error
                             self' set_layerGradients].
    rewrite Hln. cbn. destruct (pred n) as [|j] eqn:Hj; [lia|].
    replace j with (n - 2)%nat by lia. rewrite Hon. cbn.
    destruct (decide (S (S (n - 2)) = length (network self))); [|lia].
    cbn. replace (S (n - 2)) with (pred (length vs)) by lia. by rewrite Hgn. }
  assert (Hops : ∀ i c, (c0 :: mids ++ [cn]) !! i = Some c →
                        operands_at input self' i = Some c).
  { intros [|i] c Hc; [by apply (inj Some) in Hc as <-|].
    cbn in Hc. apply lookup_app_Some in Hc as [Hc|[Hi Hc]].
    - by apply (Hmids i c).
    - rewrite Hmlen in Hi, Hc. apply list_lookup_singleton_Some in Hc as [Hz <-].
      replace (S i) with (pred n) by lia. done. }
  exists self', (c0 :: mids ++ [cn]).
  split; [done|]. split; [|split; [|split; [|split; [|split]]]].
  - unfold Gradient. cbn [fst snd]. rewrite Hinit, bind_Return.
    cbn [network layerDeltas layerOutputs layerGradients error
         self' set_layerGradients].
    rewrite (front_lookup _ _ Hl0), bind_Return.
    rewrite (index_lookup (layerDeltas self) 1 d1) by (lia || done).
    rewrite bind_Return, (front_lookup _ _ Hg0), bind_Return.
    unfold for_range. fold n.
    rewrite SizeTFacts.sub_exact by (unfold SizeT.valid; lia).
    rewrite SizeTFacts.sub_exact by (unfold SizeT.valid; lia).
    replace (Z.to_nat (Z.of_nat n - 1 - 1)) with (n - 2)%nat by lia.
    change 1 with (Z.of_nat 1) at 1.
    rewrite Hloop, bind_Return.
    rewrite (back_lookup _ _ Hln), bind_Return.
    rewrite (index_lookup (layerOutputs self) _ on);
      [|lia|by replace (Z.to_nat (Z.of_nat n - 2)) with (n - 2)%nat by lia].
    rewrite bind_Return, (back_lookup _ _ Hgn), bind_Return.
    do 3 f_equal. cbn [foldl]. by rewrite foldl_app.
  - cbn. rewrite length_app, Hmlen. cbn. lia.
  - intros i c Hc. pose proof (Hops i c Hc) as Hat. split; [done|].
    apply operands_at_Some in Hat as (Hl & _ & _ & Hgv). done.
  - intros c [= <-]. done.
  - intros i c Hi Hc. apply Hops, operands_at_Some in Hc as (_ & Ha & Hdl & _).
    destruct i as [|j]; [lia|].
    replace (S j - 1)%nat with j by lia. replace (S j + 1)%nat with (S (S j)) by lia.
    split; [exact Ha|].
    destruct (decide (S (S j) = length (network self'))) as [Hlast|_]; [|exact Hdl].
    change (length (network self')) with n in Hlast. lia.
  - intros c Hc. apply Hops in Hc.
    replace (n - 1)%nat with (pred n) in Hc by lia. rewrite Hcn in Hc.
    by simplify_eq.
Qed.

(** The gradient pass over the three layers, with one sample of 3 rows. *)
Lemma Gradient_operands_witness :
  ∃ self' ops,
    Gradient (matrix 20 3 1) gradient_buffer (three_layers, fresh_world)
    = Return (self', mkWorld (next_block fresh_world)
                       (foldl run_gradient_call (store fresh_world) ops)) ∧
    length ops = 3%nat.
Proof.
  destruct (Gradient_operands (matrix 20 3 1) gradient_buffer three_layers fresh_world)
    as (self' & ops & _ & Hrun & Hlen & _).
  - cbn. lia.
  - by vm_compute.
  - reflexivity.
  - reflexivity.
  - reflexivity.
  - exists self', ops. split; [exact Hrun|exact Hlen].
Defined.

(** C8.  Loading replaces the persisted members by the archived values,
    empties the dataset and the three arenas (one empty view per layer is
    left in each view list), zeroes the sample count and forces the mode to
    inference; and what is loaded from an archive saved from a network is
    that network's persisted members. *)
Theorem serialize_loading
    {Kind OutputLayerType InitializationRuleType : Type}
    (a : Archived (Kind := Kind) (OutputLayerType := OutputLayerType)
           (InitializationRuleType := InitializationRuleType))
    (self saved : FFN (Kind := Kind) (OutputLayerType := OutputLayerType)
                      (InitializationRuleType := InitializationRuleType)) :
  let self' := (serialize (loading a) self).2 in
  let reloaded := (serialize (loading (serialize saving saved).1) self).2 in
  (predictors self' = empty_Mat ∧ responses self' = empty_Mat ∧
   is_empty (predictors self') = true ∧ is_empty (responses self') = true ∧
   numFunctions self' = 0) ∧
  (layerOutputMatrix self' = empty_Mat ∧ deltaMatrix self' = empty_Mat ∧
   gradientMatrix self' = empty_Mat ∧
   layerOutputs self' = replicate (length (network self')) empty_Mat ∧
   layerDeltas self' = replicate (length (network self')) empty_Mat ∧
   layerGradients self' = replicate (length (network self')) empty_Mat) ∧
  deterministic self' = true ∧
  (outputLayer self' = ar_outputLayer a ∧
   initializeRule self' = ar_initializeRule a ∧
   network self' = ar_network a ∧
   parameters self' = ar_parameters a ∧
   inputDimensions self' = ar_inputDimensions a ∧
   reset self' = ar_reset a) ∧
  (serialize saving saved).2 = saved ∧
  (outputLayer reloaded = outputLayer saved ∧
   initializeRule reloaded = initializeRule saved ∧
   network reloaded = network saved ∧
   parameters reloaded = parameters saved ∧
   inputDimensions reloaded = inputDimensions saved ∧
   reset reloaded = reset saved).
Proof.
  intros self' reloaded.
  assert (Hviews : ∀ layers : list (Layer (Kind := Kind)),
            cleared_views layers = replicate (length layers) empty_Mat).
  { intros layers. unfold cleared_views. by rewrite resize_nil. }
  split; [done|].
  split; [repeat split; apply Hviews|].
  split; [done|]. split; [done|]. split; done.
Qed.

End AnnSpec.

(** * Further properties *)

(** ** [DatasetMapper]: construction, value and type lookups *)

Module DatasetMapperExtra.

Import DatasetMapper Examples CxxFacts DatasetMapperSpec.

Section Lookups.

Context {T : Type} `{Countable T} {PolicyType : Type}.

Implicit Types (self : DatasetMapper.t T PolicyType) (d k : Z).

Lemma UnmapValue_cases self (str : string) d :
  UnmapValue self str d =
  match maps self !! d with
  | None =>
      (DatasetMapper.mk (types self) (<[d := (∅, ∅)]> (maps self)) (policy self),
       Throw invalid_argument)
  | Some dd =>
      (DatasetMapper.mk (types self) (maps self) (policy self),
       match dd.1 !! str with
       | Some v => Return v
       | None => Throw invalid_argument
       end)
  end.
Proof.
  unfold UnmapValue, subscript.
  destruct (maps self !! d) as [dd|] eqn:Hd; cbn [fst snd].
  - destruct (dd.1 !! str) as [v|] eqn:Hv.
    + rewrite bool_decide_eq_false_2 by congruence.
      rewrite Hd. cbn [fst snd]. unfold at_. by rewrite Hv.
    + by rewrite bool_decide_eq_true_2.
  - rewrite lookup_empty. by rewrite bool_decide_eq_true_2.
Qed.

Lemma self_eta self :
  DatasetMapper.mk (types self) (maps self) (policy self) = self.
Proof. by destruct self. Qed.

End Lookups.

(** X1.  A mapper constructed with dimensionality [n] has exactly [n]
    dimensions, all numeric, and no mapping: the const [Type(d)] returns
    [Datatype::numeric] below [n] and throws from [n] on, [NumMappings(d)] is
    0, [UnmapValue] throws [std::invalid_argument], and [UnmapString] and
    [NumUnmappings] throw [std::out_of_range], for every dimension. *)
Theorem new_mapper {T : Type} `{Countable T} {PolicyType : Type}
    (isnan : T → bool) (nan_key : T) (p : PolicyType) (n d k : Z)
    (str : string) (v : T) :
  0 ≤ n →
  let self := DatasetMapper.new (T := T) p n in
  Dimensionality self = n ∧ policy self = p ∧
  (0 ≤ d < n → Type_const self d = Return numeric) ∧
  (n ≤ d → Type_const self d = Throw invalid_argument) ∧
  NumMappings self d = 0 ∧
  (UnmapValue self str d).2 = Throw invalid_argument ∧
  UnmapString isnan nan_key self v d k = Throw out_of_range ∧
  NumUnmappings isnan nan_key self v d = Throw out_of_range.
Proof.
  intros Hn self.
  assert (Hdim : Dimensionality self = n).
  { unfold Dimensionality, self, new. cbn [types]. rewrite length_replicate. lia. }
  split; [done|]. split; [done|]. split; [|split; [|split; [|split; [|split]]]].
  - intros Hd. destruct (Type_const_returns self d) as (ty & Hty & ->); [lia|].
    unfold self, new in Hty. cbn [types] in Hty.
    apply lookup_replicate in Hty as [-> _]. done.
  - intros Hd. apply Type_const_throws. lia.
  - unfold NumMappings, self, new. cbn [maps]. by rewrite lookup_empty.
  - rewrite UnmapValue_cases. unfold self, new. cbn [maps]. by rewrite lookup_empty.
  - rewrite (UnmapString_cases isnan nan_key). unfold self, new. cbn [maps].
    by rewrite lookup_empty.
  - rewrite (NumUnmappings_cases isnan nan_key). unfold self, new, at_. cbn [maps].
    by rewrite lookup_empty.
Qed.

(** A new mapper of two dimensions, asked about dimension 1. *)
Lemma new_mapper_witness :
  0 ≤ 2 ∧
  Dimensionality (DatasetMapper.new (T := float) () 2) = 2 ∧
  Type_const (DatasetMapper.new (T := float) () 2) 1 = Return numeric.
Proof.
  assert (Hn : 0 ≤ 2) by lia.
  destruct (new_mapper is_nan double_nan_key () 2 1 0 "a" 1%float Hn)
    as (Hdim & _ & Hty & _).
  split; [exact Hn|]. split; [exact Hdim|]. apply Hty. lia.
Defined.

(** X2.  [UnmapValue(string, dimension)] returns the value of the string in
    the dimension's forward map when there is one, and throws
    [std::invalid_argument] in every other case (never [std::out_of_range]).
    It leaves the types, the policy and every mapping count as they were; the
    only trace it leaves is an empty entry in [maps] for a dimension that had
    none. *)
Theorem UnmapValue_outcome {T : Type} `{Countable T} {PolicyType : Type}
    (self : DatasetMapper.t T PolicyType) (str : string) (d : Z) :
  let r := UnmapValue self str d in
  (∀ v, r.2 = Return v ↔ ∃ dd, maps self !! d = Some dd ∧ dd.1 !! str = Some v) ∧
  (r.2 = Throw invalid_argument
     ↔ ¬ ∃ dd v, maps self !! d = Some dd ∧ dd.1 !! str = Some v) ∧
  r.2 ≠ Throw out_of_range ∧ r.2 ≠ Undefined ∧
  types r.1 = types self ∧ policy r.1 = policy self ∧
  (is_Some (maps self !! d) → r.1 = self) ∧
  (maps self !! d = None → maps r.1 = <[d := (∅, ∅)]> (maps self)) ∧
  (∀ d', NumMappings r.1 d' = NumMappings self d').
Proof.
  intros r. subst r. rewrite UnmapValue_cases.
  destruct (maps self !! d) as [dd|] eqn:Hd; cbn [fst snd types policy maps].
  - destruct (dd.1 !! str) as [v0|] eqn:Hv.
    + split; [|split; [|repeat split]]; try done.
      * intros v. split; [intros [= <-]; by exists dd|].
        intros (dd' & Hdd & Hv'). by simplify_eq.
      * split; [done|]. intros Hno. destruct Hno. by exists dd, v0.
      * intros _. apply self_eta.
    + split; [|split; [|repeat split]]; try done.
      * intros v. split; [done|]. intros (dd' & Hdd & Hv'). simplify_eq.
      * split; [|done]. intros _ (dd' & v & Hdd & Hv'). simplify_eq.
      * intros _. apply self_eta.
  - split; [|split; [|repeat split]]; try done.
    + intros v. split; [done|]. by intros (dd' & Hdd & _).
    + split; [|done]. by intros _ (dd' & v & Hdd & _).
    + intros d'. unfold NumMappings. cbn [maps].
      destruct (decide (d = d')) as [<-|Hne].
      * rewrite lookup_insert_eq, Hd. cbn [fst]. by rewrite map_size_empty.
      * by rewrite lookup_insert_ne.
Qed.

(** X3.  Looking a string up with [UnmapValue] changes what a later
    [UnmapString] on the same dimension throws: the dimension has an entry
    from then on, so [UnmapString] no longer throws [std::out_of_range]; on a
    dimension that had no entry it threw [std::out_of_range] before and
    throws [std::invalid_argument] after.  Other dimensions, and a dimension
    that had an entry, answer as before. *)
Theorem UnmapString_after_UnmapValue {T : Type} `{Countable T} {PolicyType : Type}
    (isnan : T → bool) (nan_key : T)
    (self : DatasetMapper.t T PolicyType) (str : string) (v : T) (d d' k : Z) :
  let self' := (UnmapValue self str d).1 in
  UnmapString isnan nan_key self' v d k ≠ Throw out_of_range ∧
  (maps self !! d = None →
     UnmapString isnan nan_key self v d k = Throw out_of_range ∧
     UnmapString isnan nan_key self' v d k = Throw invalid_argument) ∧
  (is_Some (maps self !! d) ∨ d' ≠ d →
     UnmapString isnan nan_key self' v d' k = UnmapString isnan nan_key self v d' k).
Proof.
  intros self'. subst self'. rewrite UnmapValue_cases.
  rewrite !(UnmapString_cases isnan nan_key).
  destruct (maps self !! d) as [dd|] eqn:Hd; cbn [fst maps].
  - rewrite Hd. split; [|split].
    + destruct (dd.2 !! _) as [strings|]; [|done].
      case_bool_decide; [done|]. apply index_in_range_not_throw.
    + done.
    + done.
  - rewrite lookup_insert_eq. cbn [snd]. rewrite lookup_empty.
    split; [done|]. split; [done|].
    intros [[? ?]|Hne]; [done|].
    by rewrite lookup_insert_ne.
Qed.

(** X4.  [NumUnmappings(v, d)] throws [std::out_of_range] exactly when the
    key that [v] denotes has no mapping in dimension [d] (where [UnmapString]
    throws [std::invalid_argument] or [std::out_of_range]), and never throws
    anything else.  When it returns [n], the indices that [UnmapString]
    accepts for the same value are exactly those below [n]: it returns a
    string for each of them and throws [std::invalid_argument] from [n] on. *)
Theorem NumUnmappings_outcome {T : Type} `{Countable T} {PolicyType : Type}
    (isnan : T → bool) (nan_key : T)
    (self : DatasetMapper.t T PolicyType) (v : T) (d : Z) :
  let key := used_key isnan nan_key v in
  (NumUnmappings isnan nan_key self v d = Throw out_of_range
     ↔ ¬ has_mapping self key d) ∧
  (∀ e, NumUnmappings isnan nan_key self v d = Throw e → e = out_of_range) ∧
  NumUnmappings isnan nan_key self v d ≠ Undefined ∧
  (∀ n, NumUnmappings isnan nan_key self v d = Return n →
     0 ≤ n ∧
     ∀ k, 0 ≤ k →
       (k < n ↔ ∃ s, UnmapString isnan nan_key self v d k = Return s) ∧
       (n ≤ k ↔ UnmapString isnan nan_key self v d k = Throw invalid_argument)).
Proof.
  intros key. rewrite (NumUnmappings_cases isnan nan_key). fold key.
  unfold has_mapping, at_.
  destruct (maps self !! d) as [dd|] eqn:Hd; cbn.
  - destruct (dd.2 !! key) as [strings|] eqn:Hk; cbn.
    + split; [|split; [done|split; [done|]]].
      { split; [done|]. intros Hno. destruct Hno. by exists dd, strings. }
      intros n [= <-]. split; [lia|]. intros k Hk0.
      rewrite (UnmapString_cases isnan nan_key). fold key. rewrite Hd, Hk.
      case_bool_decide as Hlen.
      * split; [split; [lia|by intros [s ?]]|done].
      * destruct (index_in_range strings k) as (s & _ & Hs); [lia|]. rewrite Hs.
        split; [split; [by exists s|lia]|split; [lia|done]].
    + split; [|split; [by intros e [= <-]|split; [done|done]]].
      split; [|done]. intros _ (dd' & strings & ? & ?). simplify_eq.
  - split; [|split; [by intros e [= <-]|split; [done|done]]].
    split; [|done]. by intros _ (dd' & strings & ? & _).
Qed.



End DatasetMapperExtra.

(** ** The network engine: layout of the views *)

Module AnnLayout.

Import Ann Examples CxxFacts AnnSpec.

Section Views.

Context {Kind Mem OutputLayerType InitializationRuleType : Type}.
Context {caps : Capabilities (Kind := Kind) (Mem := Mem)
                  (OutputLayerType := OutputLayerType)
                  (InitializationRuleType := InitializationRuleType)}.

Abbreviation Layer := (Layer (Kind := Kind)).
Abbreviation FFN := (FFN (Kind := Kind) (OutputLayerType := OutputLayerType)
                     (InitializationRuleType := InitializationRuleType)).
Abbreviation World := (World (Mem := Mem)).

Implicit Types (l : Layer) (layers : list Layer) (self : FFN) (w : World).
Implicit Types (views vs : list Mat) (sizes : list Z).

Lemma slice_views_length base batchSize start sizes :
  length (slice_views base batchSize start sizes) = length sizes.
Proof. revert start. induction sizes; intros; cbn; [done|]. by rewrite IHsizes. Qed.

Lemma slice_views_lookup base batchSize start sizes i size :
  sizes !! i = Some size →
  slice_views base batchSize start sizes !! i
  = Some (MakeAlias (ptr_add base (start + batchSize * offset_of sizes i))
            size batchSize).
Proof.
  revert start i. induction sizes as [|a sizes IH]; intros start i Hs; [done|].
  destruct i as [|i].
  - apply (inj Some) in Hs as ->. rewrite offset_of_0, Z.mul_0_r, Z.add_0_r. done.
  - change (slice_views base batchSize (start + batchSize * a) sizes !! i
            = Some (MakeAlias
                      (ptr_add base (start + batchSize * offset_of (a :: sizes) (S i)))
                      size batchSize)).
    rewrite (IH _ _ Hs). unfold offset_of. cbn [take]. rewrite sum_sizes_cons.
    do 3 f_equal. lia.
Qed.

Lemma slice_views_inv base batchSize start sizes i v :
  slice_views base batchSize start sizes !! i = Some v →
  ∃ size, sizes !! i = Some size ∧
          v = MakeAlias (ptr_add base (start + batchSize * offset_of sizes i))
                size batchSize.
Proof.
  intros Hv. pose proof (lookup_lt_Some _ _ _ Hv) as Hi.
  rewrite slice_views_length in Hi.
  destruct (lookup_lt_is_Some_2 sizes i Hi) as [size Hs].
  exists size. split; [done|].
  rewrite (slice_views_lookup _ _ _ _ _ _ Hs) in Hv. by simplify_eq.
Qed.

(** Packed views lie between the start and the total, in order. *)
Lemma slice_views_packed base batchSize sizes :
  0 ≤ batchSize → Forall (λ z, 0 ≤ z) sizes →
  ∀ i j u v, (i ≤ j)%nat →
    slice_views base batchSize 0 sizes !! i = Some u →
    slice_views base batchSize 0 sizes !! j = Some v →
    block (memptr u) = block base ∧ n_cols u = batchSize ∧
    sizes !! i = Some (n_rows u) ∧
    offset base ≤ mat_start u ∧ mat_start u ≤ mat_start v ∧
    mat_end v ≤ offset base + batchSize * sum_sizes sizes ∧
    ((i < j)%nat → mat_end u ≤ mat_start v).
Proof.
  intros Hb Hnn i j u v Hij Hu Hv.
  apply slice_views_inv in Hu as (su & Hsu & ->).
  apply slice_views_inv in Hv as (sv & Hsv & ->).
  unfold mat_start, mat_end. cbn [MakeAlias memptr n_rows n_cols ptr_add block offset].
  pose proof (Forall_lookup_1 _ _ _ _ Hnn Hsu) as Hsu0.
  pose proof (Forall_lookup_1 _ _ _ _ Hnn Hsv) as Hsv0. cbn in Hsu0, Hsv0.
  pose proof (offset_of_mono sizes 0 i Hnn ltac:(lia)) as H0i.
  pose proof (offset_of_mono sizes i j Hnn Hij) as Hijo.
  pose proof (offset_of_mono sizes (S j) (length sizes) Hnn
                ltac:(apply lookup_lt_Some in Hsv; lia)) as Hjn.
  rewrite offset_of_0 in H0i. rewrite offset_of_all in Hjn.
  rewrite (offset_of_S _ _ _ Hsv) in Hjn.
  split; [done|]. split; [done|]. split; [done|].
  split; [nia|]. split; [nia|]. split; [nia|].
  intros Hlt. pose proof (offset_of_mono sizes (S i) j Hnn ltac:(lia)) as Hsij.
  rewrite (offset_of_S _ _ _ Hsu) in Hsij. nia.
Qed.

Lemma output_sizes_nonneg layers :
  output_sizes_valid layers → Forall (λ z, 0 ≤ z) (map OutputSize layers).
Proof.
  intros Hv. apply Forall_fmap. eapply Forall_impl; [exact Hv|]. by intros ? [? ?].
Qed.

(** The second loop of [InitializeForwardPassMemory] only looks at how many
    views there are. *)
Lemma alias_outputs_again base batchSize total start layers views vs :
  alias_outputs base batchSize total start layers views = Return vs →
  alias_outputs base batchSize total start layers vs = Return vs.
Proof.
  revert start layers vs. induction views as [|v0 views IH]; intros start layers vs Hrun.
  - cbn in Hrun. by simplify_eq.
  - destruct layers as [|l layers]; [done|]. cbn [alias_outputs] in Hrun.
    destruct (Log_Assert _ _) as [[]| |] eqn:Hassert; [|done..].
    rewrite bind_Return in Hrun.
    destruct (alias_outputs _ _ _ _ layers views) as [rest| |] eqn:Hrest; [|done..].
    rewrite bind_Return in Hrun. simplify_eq.
    cbn [alias_outputs]. rewrite Hassert, bind_Return.
    by rewrite (IH _ _ _ Hrest), bind_Return.
Qed.

Lemma SetLayerMemory_loop_again parameters total layers layers' total' :
  SetLayerMemory_loop parameters total layers = Return (layers', total') →
  SetLayerMemory_loop parameters total layers' = Return (layers', total').
Proof.
  revert total layers' total'.
  induction layers as [|l layers IH]; intros total layers' total' Hrun.
  - cbn in Hrun. by simplify_eq.
  - cbn [SetLayerMemory_loop] in Hrun.
    destruct (Log_Assert _ _) as [[]| |] eqn:Hassert; [|done..].
    rewrite bind_Return in Hrun.
    destruct (SetLayerMemory_loop _ _ layers) as [[rest t]| |] eqn:Hrest; [|done..].
    rewrite bind_Return in Hrun. cbn [fst snd] in Hrun. simplify_eq.
    cbn [SetLayerMemory_loop].
    change (WeightSize (SetWeights _ l)) with (WeightSize l).
    rewrite Hassert, bind_Return.
    by rewrite (IH _ _ _ Hrest), bind_Return.
Qed.

Lemma SetLayerMemory_loop_kinds parameters total layers layers' total' :
  SetLayerMemory_loop parameters total layers = Return (layers', total') →
  Forall2 (λ l l', kind l' = kind l
                   ∧ layer_inputDimensions l' = layer_inputDimensions l
                   ∧ layer_deterministic l' = layer_deterministic l)
    layers layers'.
Proof.
  revert total layers' total'.
  induction layers as [|l layers IH]; intros total layers' total' Hrun.
  - cbn in Hrun. simplify_eq. constructor.
  - cbn [SetLayerMemory_loop] in Hrun.
    destruct (Log_Assert _ _) as [[]| |]; [|done..].
    rewrite bind_Return in Hrun.
    destruct (SetLayerMemory_loop _ _ layers) as [[rest t]| |] eqn:Hrest; [|done..].
    rewrite bind_Return in Hrun. cbn [fst snd] in Hrun. simplify_eq.
    constructor; [done|]. by eapply IH.
Qed.

End Views.

(** X6.  [SetLayerMemory] changes nothing but the weight pointer of each
    layer and the flag [layerMemoryIsSet], which it sets; running it again on
    the network it returned assigns the same views again. *)
Theorem SetLayerMemory_again
    {Kind Mem OutputLayerType InitializationRuleType : Type}
    {caps : Capabilities (Kind := Kind) (Mem := Mem)
              (OutputLayerType := OutputLayerType)
              (InitializationRuleType := InitializationRuleType)}
    (self self' : FFN (Kind := Kind) (OutputLayerType := OutputLayerType)
                      (InitializationRuleType := InitializationRuleType)) :
  SetLayerMemory self = Return self' →
  SetLayerMemory self' = Return self' ∧
  layerMemoryIsSet self' = true ∧
  set_layerMemoryIsSet (layerMemoryIsSet self) (set_network (network self) self')
  = self ∧
  Forall2 (λ l l', kind l' = kind l
                   ∧ layer_inputDimensions l' = layer_inputDimensions l
                   ∧ layer_deterministic l' = layer_deterministic l
                   ∧ WeightSize l' = WeightSize l)
    (network self) (network self').
Proof.
  unfold SetLayerMemory. intros Hrun.
  destruct (SetLayerMemory_loop _ _ (network self)) as [[layers' total]| |] eqn:Hloop;
    [|done..].
  rewrite bind_Return in Hrun. cbn [fst snd] in Hrun.
  destruct (Log_Assert _ _) as [[]| |] eqn:Hassert; [|done..].
  rewrite bind_Return in Hrun. simplify_eq.
  cbn [network parameters set_layerMemoryIsSet set_network layerMemoryIsSet].
  split; [|split; [done|split; [by destruct self|]]].
  - rewrite (SetLayerMemory_loop_again _ _ _ _ _ Hloop), bind_Return.
    cbn [fst snd]. rewrite Hassert, bind_Return. by destruct self.
  - eapply Forall2_impl; [by eapply SetLayerMemory_loop_kinds|].
    intros l l' (Hk & Hd & Hdet). repeat split; try done.
    unfold WeightSize. by rewrite Hk, Hd.
Qed.

(** The three layers, whose 9 weights fill the 9 parameters. *)
Lemma SetLayerMemory_again_witness :
  SetLayerMemory three_layers = Return three_layers_with_memory.1 ∧
  SetLayerMemory three_layers_with_memory.1 = Return three_layers_with_memory.1.
Proof.
  assert (Hrun : SetLayerMemory three_layers = Return three_layers_with_memory.1)
    by (vm_compute; reflexivity).
  split; [exact Hrun|].
  exact (proj1 (SetLayerMemory_again three_layers _ Hrun)).
Defined.

(** X7.  After [InitializeForwardPassMemory(b)], on a network with one
    output view per layer whose sizes do not overflow, the output arena holds
    at least the [b * sum of output sizes] elements requested, and the views
    are memory-safe: each is a [OutputSize] by [b] alias into the arena's
    block, lies within the arena, and starts no earlier than the previous one
    ends. *)
Theorem InitializeForwardPassMemory_views_within_arena
    {Kind Mem OutputLayerType InitializationRuleType : Type}
    {caps : Capabilities (Kind := Kind) (Mem := Mem)
              (OutputLayerType := OutputLayerType)
              (InitializationRuleType := InitializationRuleType)}
    (batchSize : Z)
    (self self' : FFN (Kind := Kind) (OutputLayerType := OutputLayerType)
                      (InitializationRuleType := InitializationRuleType))
    (w w' : World (Mem := Mem)) :
  length (layerOutputs self) = length (network self) →
  output_sizes_valid (network self) → 0 ≤ batchSize →
  sum_sizes (map OutputSize (network self)) < SizeT.modulus →
  batchSize * sum_sizes (map OutputSize (network self)) < SizeT.modulus →
  InitializeForwardPassMemory batchSize (self, w) = Return (self', w') →
  let arena := layerOutputMatrix self' in
  batchSize * sum_sizes (map OutputSize (network self)) ≤ n_elem arena ∧
  network self' = network self ∧
  length (layerOutputs self') = length (network self) ∧
  ∀ i j u v, (i ≤ j)%nat →
    layerOutputs self' !! i = Some u → layerOutputs self' !! j = Some v →
    block (memptr u) = block (memptr arena) ∧ strict_alias u = true ∧
    (∃ l, network self !! i = Some l ∧ n_rows u = OutputSize l) ∧
    n_cols u = batchSize ∧
    mat_start arena ≤ mat_start u ∧ mat_start u ≤ mat_start v ∧
    mat_end v ≤ mat_start arena + n_elem arena ∧
    ((i < j)%nat → mat_end u ≤ mat_start v).
Proof.
  intros Hlen Hv Hb Hsum Hprod. rewrite InitializeForwardPassMemory_cases. cbv zeta.
  pose proof (output_sizes_nonneg _ Hv) as Hnn.
  pose proof (sum_sizes_nonneg _ Hnn) as Hsum0.
  rewrite (total_output_size_exact _ Hv Hsum).
  set (sizes := map OutputSize (network self)) in *.
  assert (Hreq : SizeT.mul batchSize (sum_sizes sizes) = batchSize * sum_sizes sizes).
  { apply SizeTFacts.mul_exact. unfold SizeT.valid. nia. }
  assert (Hviews : ∀ (base : Ptr) vs (arena : Mat),
            memptr arena = base →
            batchSize * sum_sizes sizes ≤ n_elem arena →
            vs = slice_views base batchSize 0 sizes →
            length vs = length (network self) ∧
            ∀ i j u v, (i ≤ j)%nat → vs !! i = Some u → vs !! j = Some v →
              block (memptr u) = block (memptr arena) ∧ strict_alias u = true ∧
              (∃ l, network self !! i = Some l ∧ n_rows u = OutputSize l) ∧
              n_cols u = batchSize ∧
              mat_start arena ≤ mat_start u ∧ mat_start u ≤ mat_start v ∧
              mat_end v ≤ mat_start arena + n_elem arena ∧
              ((i < j)%nat → mat_end u ≤ mat_start v)).
  { intros base vs arena Hbase Hcap ->.
    split; [rewrite slice_views_length; unfold sizes; by rewrite length_map|].
    intros i j u v Hij Hu Hv'.
    destruct (slice_views_packed base batchSize sizes Hb Hnn i j u v Hij Hu Hv')
      as (Hblock & Hcols & Hrows & Hstart & Hord & Hend & Hdisj).
    apply slice_views_inv in Hu as (su & _ & Hu).
    assert (Harena : mat_start arena = offset base)
      by (unfold mat_start; by rewrite Hbase).
    rewrite Harena, Hbase.
    split; [done|]. split; [by rewrite Hu|]. split.
    { unfold sizes in Hrows. rewrite list_lookup_fmap in Hrows.
      destruct (network self !! i) as [l|]; [|done]. exists l.
      split; [done|]. by simplify_eq/=. }
    split; [done|]. split; [done|]. split; [done|]. split; [lia|done]. }
  assert (Hfit : 0 + batchSize * sum_sizes (map OutputSize (network self))
                 ≤ SizeT.mul batchSize (sum_sizes sizes)) by (fold sizes; lia).
  destruct (must_reallocate _ _ _) eqn:Hre.
  - rewrite alias_outputs_fits by done. rewrite bind_Return.
    intros [= <- <-].
    cbn [layerOutputMatrix layerOutputs network set_layerOutputs set_layerOutputMatrix
         set_totalOutputSize set_totalInputSize alloc fst].
    assert (Hcap : n_elem (mkMat (mkPtr (next_block w) 0) 1
                             (SizeT.mul batchSize (sum_sizes sizes)) false)
                   = batchSize * sum_sizes sizes).
    { unfold n_elem. cbn [n_rows n_cols]. unfold SizeT.mul at 1. rewrite Z.mul_1_l.
      rewrite SizeTFacts.wrap_small by apply SizeTFacts.wrap_valid. done. }
    split; [lia|]. split; [done|].
    apply (Hviews (mkPtr (next_block w) 0)); [done|lia|done].
  - rewrite alias_outputs_fits by done. rewrite bind_Return.
    intros [= <- <-].
    cbn [layerOutputMatrix layerOutputs network set_layerOutputs set_layerOutputMatrix
         set_totalOutputSize set_totalInputSize].
    assert (Hcap : batchSize * sum_sizes sizes ≤ n_elem (layerOutputMatrix self)).
    { unfold must_reallocate in Hre. apply orb_false_iff in Hre as [Hgrow _].
      apply Z.ltb_ge in Hgrow. lia. }
    split; [done|]. split; [done|].
    apply (Hviews (memptr (layerOutputMatrix self))); done.
Qed.

(** A batch of 2 after a batch of 4, on the three layers. *)
Lemma InitializeForwardPassMemory_views_within_arena_witness :
  ∃ self',
    InitializeForwardPassMemory 2 after_batch_of_4 = Return (self', after_batch_of_4.2) ∧
    2 * 5 ≤ n_elem (layerOutputMatrix self').
Proof.
  eassert (Hrun : InitializeForwardPassMemory 2 (after_batch_of_4.1, after_batch_of_4.2)
                  = Return (_, after_batch_of_4.2)) by (vm_compute; reflexivity).
  eexists. split; [exact Hrun|].
  refine (proj1 (InitializeForwardPassMemory_views_within_arena 2 _ _ _ _ _ _ _ _ _ Hrun)).
  - reflexivity.
  - unfold output_sizes_valid. repeat constructor; by vm_compute.
  - lia.
  - by vm_compute.
  - by vm_compute.
Defined.

(** X8.  The reallocation policy is stable: once
    [InitializeForwardPassMemory(b)] has returned, calling it again with the
    same batch size allocates nothing and leaves the network exactly as it
    is. *)
Theorem InitializeForwardPassMemory_again
    {Kind Mem OutputLayerType InitializationRuleType : Type}
    {caps : Capabilities (Kind := Kind) (Mem := Mem)
              (OutputLayerType := OutputLayerType)
              (InitializationRuleType := InitializationRuleType)}
    (batchSize : Z)
    (self self' : FFN (Kind := Kind) (OutputLayerType := OutputLayerType)
                      (InitializationRuleType := InitializationRuleType))
    (w w' : World (Mem := Mem)) :
  InitializeForwardPassMemory batchSize (self, w) = Return (self', w') →
  InitializeForwardPassMemory batchSize (self', w') = Return (self', w').
Proof.
  rewrite !InitializeForwardPassMemory_cases. cbv zeta.
  assert (Hreq : SizeT.valid (SizeT.mul batchSize (total_output_size (network self))))
    by apply SizeTFacts.wrap_valid.
  assert (Hstay : ∀ requested capacity,
            SizeT.valid requested →
            capacity = requested ∨
              must_reallocate requested capacity capacity = false →
            must_reallocate requested capacity capacity = false).
  { intros requested capacity Hvalid [->|Hno]; [|done].
    unfold must_reallocate.
    rewrite Z.ltb_irrefl. by apply DoubleFacts.below_tenth_self. }
  destruct (must_reallocate _ _ _) eqn:Hre.
  - destruct (alias_outputs _ _ _ _ _ _) as [vs| |] eqn:Hvs; [|done..].
    rewrite bind_Return. intros [= <- <-].
    cbn [layerOutputMatrix layerOutputs network inputDimensions set_layerOutputs
         set_layerOutputMatrix set_totalOutputSize set_totalInputSize alloc fst snd].
    rewrite Hstay; [|done|].
    + cbn [memptr]. rewrite (alias_outputs_again _ _ _ _ _ _ _ Hvs), bind_Return.
      by destruct self.
    + left. unfold n_elem. cbn [n_rows n_cols]. unfold SizeT.mul at 1.
      rewrite Z.mul_1_l. by apply SizeTFacts.wrap_small.
  - destruct (alias_outputs _ _ _ _ _ _) as [vs| |] eqn:Hvs; [|done..].
    rewrite bind_Return. intros [= <- <-].
    cbn [layerOutputMatrix layerOutputs network inputDimensions set_layerOutputs
         set_layerOutputMatrix set_totalOutputSize set_totalInputSize].
    rewrite Hre.
    rewrite (alias_outputs_again _ _ _ _ _ _ _ Hvs), bind_Return.
    by destruct self.
Qed.

(** The three layers, given a batch of 4 twice. *)
Lemma InitializeForwardPassMemory_again_witness :
  ∃ self' w',
    InitializeForwardPassMemory 4 (three_layers, fresh_world) = Return (self', w') ∧
    InitializeForwardPassMemory 4 (self', w') = Return (self', w').
Proof.
  eassert (Hrun : InitializeForwardPassMemory 4 (three_layers, fresh_world)
                  = Return (_, _)) by (vm_compute; reflexivity).
  eexists _, _. split; [exact Hrun|].
  exact (InitializeForwardPassMemory_again 4 _ _ _ _ Hrun).
Defined.

(** *** The delta and gradient views *)

Section Deltas.

Context {Kind Mem OutputLayerType InitializationRuleType : Type}.
Context {caps : Capabilities (Kind := Kind) (Mem := Mem)
                  (OutputLayerType := OutputLayerType)
                  (InitializationRuleType := InitializationRuleType)}.

Abbreviation Layer := (Layer (Kind := Kind)).
Abbreviation FFN := (FFN (Kind := Kind) (OutputLayerType := OutputLayerType)
                     (InitializationRuleType := InitializationRuleType)).

Implicit Types (l : Layer) (layers : list Layer) (self : FFN).
Implicit Types (views vs : list Mat) (sizes : list Z).

(** [totalInputSize] as the first loop of [InitializeForwardPassMemory]
    leaves it: the input size and the output size of every layer, the last
    one included. *)
Lemma accumulate_sizes_input layers inputSize :
  output_sizes_valid layers → 0 ≤ inputSize →
  inputSize + sum_sizes (map OutputSize layers) < SizeT.modulus →
  (accumulate_sizes layers inputSize).1
  = inputSize + sum_sizes (map OutputSize layers).
Proof.
  unfold accumulate_sizes. generalize 0 at 2. intros tout. revert inputSize tout.
  induction layers as [|l layers IH]; intros tin tout Hv Htin Hmax.
  - cbn. lia.
  - apply Forall_cons in Hv as [[Hl0 Hl1] Hv].
    cbn [map fold_left fst snd] in *. rewrite sum_sizes_cons in *.
    pose proof (sum_sizes_nonneg _ (output_sizes_nonneg _ Hv)).
    rewrite IH by (done || rewrite SizeTFacts.add_exact
                             by (unfold SizeT.valid; lia); lia).
    rewrite SizeTFacts.add_exact by (unfold SizeT.valid; lia). lia.
Qed.

(** The loop over [layerDeltas] from view [i] on, when every view fits. *)
Lemma alias_deltas_fits layers base batchSize total inputSize start i views :
  (i + length views ≤ S (length layers))%nat →
  SizeT.valid inputSize → output_sizes_valid layers →
  0 ≤ batchSize → 0 ≤ start →
  start + batchSize
          * sum_sizes (take (length views) (drop i (inputSize :: map OutputSize layers)))
    ≤ SizeT.mul batchSize total →
  alias_deltas layers base batchSize total inputSize start i views
  = Return (slice_views base batchSize start
              (take (length views) (drop i (inputSize :: map OutputSize layers)))).
Proof.
  intros Hlen Hin Hv Hb. revert start i Hlen.
  assert (Hall : Forall (λ z, 0 ≤ z) (inputSize :: map OutputSize layers)).
  { constructor; [apply Hin|by apply output_sizes_nonneg]. }
  induction views as [|v0 views IH]; intros start i Hlen Hstart Hfit; [done|].
  cbn [length] in Hlen, Hfit |- *.
  destruct (lookup_lt_is_Some_2 (inputSize :: map OutputSize layers) i) as [size Hsize].
  { cbn [length]. rewrite length_map. lia. }
  assert (Hread :
    match i with
    | O => Return inputSize
    | S j => l ← index layers (Z.of_nat j); Return (OutputSize l)
    end = Return size).
  { destruct i as [|j]; [by simplify_eq/=|].
    change ((OutputSize <$> layers) !! j = Some size) in Hsize.
    rewrite list_lookup_fmap in Hsize.
    destruct (layers !! j) as [l|] eqn:Hl; [|done]. cbn in Hsize. simplify_eq.
    rewrite (index_lookup layers (Z.of_nat j) l) by (lia || by rewrite Nat2Z.id).
    done. }
  rewrite (drop_S _ _ _ Hsize) in Hfit |- *. cbn [take slice_views] in Hfit |- *.
  rewrite sum_sizes_cons in Hfit.
  cbn [alias_deltas]. rewrite Hread, bind_Return.
  assert (Hsize0 : 0 ≤ size) by exact (Forall_lookup_1 _ _ _ _ Hall Hsize).
  assert (0 ≤ sum_sizes (take (length views)
                           (drop (S i) (inputSize :: map OutputSize layers)))).
  { apply sum_sizes_nonneg, Forall_take, Forall_drop, Hall. }
  pose proof (SizeTFacts.wrap_valid (batchSize * total)) as [_ Hmax].
  fold (SizeT.mul batchSize total) in Hmax.
  assert (0 ≤ batchSize * size) by nia.
  rewrite (SizeTFacts.mul_comm size batchSize).
  rewrite !(SizeTFacts.mul_exact batchSize size) by (unfold SizeT.valid; nia).
  rewrite SizeTFacts.add_exact by (unfold SizeT.valid; nia).
  unfold Log_Assert.
  destruct (Z.leb_spec (start + batchSize * size) (SizeT.mul batchSize total)); [|nia].
  rewrite bind_Return, IH; [done|lia|lia|nia].
Qed.

Lemma delta_sizes_sum inputSize layers :
  0 ≤ inputSize → output_sizes_valid layers →
  0 ≤ sum_sizes (delta_sizes inputSize layers)
  ≤ inputSize + sum_sizes (map OutputSize layers).
Proof.
  intros Hin Hv. unfold delta_sizes.
  assert (Hall : Forall (λ z, 0 ≤ z) (inputSize :: map OutputSize layers)).
  { constructor; [done|by apply output_sizes_nonneg]. }
  pose proof (offset_of_mono _ 0 (length layers) Hall ltac:(lia)) as H0.
  pose proof (offset_of_mono _ (length layers) (S (length layers)) Hall ltac:(lia)) as H1.
  rewrite offset_of_0 in H0. unfold offset_of in H0, H1.
  rewrite (take_ge _ (S (length layers))) in H1 by (cbn; rewrite length_map; lia).
  rewrite sum_sizes_cons in H1. lia.
Qed.

End Deltas.

(** X9.  Once [InitializeForwardPassMemory(b)] has returned, on a network
    with one delta view per layer whose sizes do not overflow,
    [InitializeBackwardPassMemory(b)] passes every assertion.  It changes
    only the delta arena and the delta views: the arena holds at least
    [b * totalInputSize] elements, and the views are packed from its start,
    view 0 with the rows of the network's input and view [i] with the rows
    of the output of layer [i - 1]; together they take no more than the
    arena. *)
Theorem InitializeBackwardPassMemory_after_forward
    {Kind Mem OutputLayerType InitializationRuleType : Type}
    {caps : Capabilities (Kind := Kind) (Mem := Mem)
              (OutputLayerType := OutputLayerType)
              (InitializationRuleType := InitializationRuleType)}
    (batchSize : Z)
    (self self1 : FFN (Kind := Kind) (OutputLayerType := OutputLayerType)
                      (InitializationRuleType := InitializationRuleType))
    (w w1 : World (Mem := Mem)) :
  let inputSize := SizeT.of_int (SizeT.accumulate_int (inputDimensions self)) in
  let total := inputSize + sum_sizes (map OutputSize (network self)) in
  length (layerDeltas self) = length (network self) →
  output_sizes_valid (network self) → 0 ≤ batchSize →
  total < SizeT.modulus → batchSize * total < SizeT.modulus →
  InitializeForwardPassMemory batchSize (self, w) = Return (self1, w1) →
  ∃ self2 w2,
    InitializeBackwardPassMemory batchSize (self1, w1) = Return (self2, w2) ∧
    set_layerDeltas (layerDeltas self1) (set_deltaMatrix (deltaMatrix self1) self2)
    = self1 ∧
    totalInputSize self2 = total ∧
    batchSize * total ≤ n_elem (deltaMatrix self2) ∧
    layerDeltas self2
    = slice_views (memptr (deltaMatrix self2)) batchSize 0
        (delta_sizes inputSize (network self)) ∧
    batchSize * sum_sizes (delta_sizes inputSize (network self)) ≤ batchSize * total.
Proof.
  intros inputSize total Hlen Hv Hb Htotal Hmax Hrun.
  assert (Hin : SizeT.valid inputSize) by apply SizeTFacts.wrap_valid.
  assert (Hframe : network self1 = network self
                   ∧ inputDimensions self1 = inputDimensions self
                   ∧ layerDeltas self1 = layerDeltas self
                   ∧ totalInputSize self1 = total).
  { rewrite InitializeForwardPassMemory_cases in Hrun. cbv zeta in Hrun.
    assert (Hacc : (accumulate_sizes (network self) inputSize).1 = total)
      by (apply accumulate_sizes_input; [done|apply Hin|done]).
    destruct (must_reallocate _ _ _);
      destruct (alias_outputs _ _ _ _ _ _) as [views| |]; try done;
      cbn in Hrun; by simplify_eq. }
  destruct Hframe as (Hnet & Hdims & Hdeltas & Htin).
  pose proof (delta_sizes_sum inputSize (network self) (proj1 Hin) Hv) as [Hs0 Hs1].
  fold total in Hs1.
  assert (Hreq : SizeT.mul batchSize total = batchSize * total).
  { apply SizeTFacts.mul_exact. unfold SizeT.valid. destruct Hin. nia. }
  assert (Hviews : ∀ base,
    alias_deltas (network self) base batchSize total inputSize 0 0 (layerDeltas self)
    = Return (slice_views base batchSize 0 (delta_sizes inputSize (network self)))).
  { intros base.
    rewrite alias_deltas_fits; [by rewrite Hlen, drop_0|lia|done|done|done|lia|].
    rewrite Hlen, drop_0. fold (delta_sizes inputSize (network self)).
    rewrite Hreq. nia. }
  unfold InitializeBackwardPassMemory. cbv zeta.
  rewrite Hdims, Htin. fold inputSize.
  destruct (must_reallocate _ _ _) eqn:Hre.
  - cbn [alloc deltaMatrix set_deltaMatrix network layerDeltas totalInputSize].
    rewrite Hnet, Hdeltas, Htin, Hviews. rewrite bind_Return.
    eexists _, _. split; [done|].
    cbn [layerDeltas deltaMatrix set_layerDeltas set_deltaMatrix totalInputSize
         memptr].
    split; [rewrite <- Hdeltas; destruct self1; reflexivity|].
    split; [done|]. split; [|split; [done|nia]].
    unfold n_elem. cbn [n_rows n_cols]. rewrite Hreq.
    rewrite SizeTFacts.mul_exact; [lia|]. unfold SizeT.valid. destruct Hin. nia.
  - rewrite Hnet, Hdeltas, Htin, Hviews. rewrite bind_Return.
    eexists _, _. split; [done|].
    cbn [layerDeltas deltaMatrix set_layerDeltas set_deltaMatrix totalInputSize
         memptr].
    split; [rewrite <- Hdeltas; destruct self1; reflexivity|].
    split; [done|]. split; [|split; [done|nia]].
    unfold must_reallocate in Hre. apply orb_false_iff in Hre as [Hgrow _].
    apply Z.ltb_ge in Hgrow. lia.
Qed.

(** The three layers, for a batch of 4: 3 input rows and 2 + 2 + 1 output
    rows. *)
Lemma InitializeBackwardPassMemory_after_forward_witness :
  ∃ self1 w1 self2 w2,
    InitializeForwardPassMemory 4 (three_layers, fresh_world) = Return (self1, w1) ∧
    InitializeBackwardPassMemory 4 (self1, w1) = Return (self2, w2) ∧
    32 ≤ n_elem (deltaMatrix self2).
Proof.
  eassert (Hrun : InitializeForwardPassMemory 4 (three_layers, fresh_world)
                  = Return (_, _)) by (vm_compute; reflexivity).
  destruct (InitializeBackwardPassMemory_after_forward 4 three_layers _ fresh_world _
              ltac:(reflexivity)
              ltac:(unfold output_sizes_valid; repeat constructor; by vm_compute)
              ltac:(lia) ltac:(by vm_compute) ltac:(by vm_compute) Hrun)
    as (self2 & w2 & Hback & _ & _ & Harena & _ & _).
  eexists _, _, self2, w2. split; [exact Hrun|]. split; [exact Hback|].
  exact Harena.
Defined.

Section Gradients.

Context {Kind Mem OutputLayerType InitializationRuleType : Type}.
Context {caps : Capabilities (Kind := Kind) (Mem := Mem)
                  (OutputLayerType := OutputLayerType)
                  (InitializationRuleType := InitializationRuleType)}.

Abbreviation Layer := (Layer (Kind := Kind)).
Abbreviation FFN := (FFN (Kind := Kind) (OutputLayerType := OutputLayerType)
                     (InitializationRuleType := InitializationRuleType)).

Implicit Types (l : Layer) (layers : list Layer) (self : FFN).
Implicit Types (views vs : list Mat).

Lemma slice_views_column base start start' sizes :
  start' = start →
  slice_views base 1 start' sizes = slice_views base 1 start sizes.
Proof. by intros ->. Qed.

(** The loop over [layerGradients], when the sizes do not overflow. *)
Lemma alias_gradients_exact base start layers views :
  length views = length layers → sizes_valid layers → 0 ≤ start →
  start + sum_sizes (map WeightSize layers) < SizeT.modulus →
  alias_gradients base start layers views
  = Return (slice_views base 1 start (map WeightSize layers)).
Proof.
  revert start layers.
  induction views as [|v0 views IH]; intros start layers Hlen Hv Hstart Hmax.
  - by destruct layers.
  - destruct layers as [|l layers]; [done|].
    apply Forall_cons in Hv as [[Hl0 Hl1] Hv].
    cbn [map alias_gradients slice_views] in *. rewrite sum_sizes_cons in *.
    assert (0 ≤ sum_sizes (map WeightSize layers)).
    { apply sum_sizes_nonneg, Forall_fmap. eapply Forall_impl; [exact Hv|].
      by intros ? [? ?]. }
    rewrite SizeTFacts.add_exact by (unfold SizeT.valid; lia).
    rewrite IH; [|by simplify_eq/=|done|lia|lia].
    rewrite bind_Return. do 2 f_equal. apply slice_views_column. lia.
Qed.

(** The layers [SetLayerMemory] returns, whenever it returns. *)
Lemma SetLayerMemory_Return_views self self' :
  sizes_valid (network self) →
  sum_sizes (map WeightSize (network self)) < SizeT.modulus →
  SetLayerMemory self = Return self' →
  network self' = assign_views (memptr (parameters self)) 0 (network self).
Proof.
  intros Hv Hmax Hrun.
  destruct (Z.lt_trichotomy (sum_sizes (map WeightSize (network self)))
              (n_elem (parameters self))) as [Hlt|[Heq|Hgt]].
  - by rewrite SetLayerMemory_short in Hrun.
  - rewrite SetLayerMemory_exact in Hrun by done. by simplify_eq.
  - by rewrite SetLayerMemory_long in Hrun.
Qed.

End Gradients.

(** X10.  [InitializeGradientPassMemory(gradient)] makes no check against the
    size of [gradient]: with one gradient view per layer it always returns,
    and changes nothing but the gradient views.  View [i] is a column of
    [WeightSize] rows that starts at the sum of the weight sizes of the
    layers before it, so the gradient has the layout of the parameters: the
    view of a layer sits in [gradient] where [SetLayerMemory] puts the
    layer's weights in [parameters]. *)
Theorem InitializeGradientPassMemory_mirrors_weights
    {Kind Mem OutputLayerType InitializationRuleType : Type}
    {caps : Capabilities (Kind := Kind) (Mem := Mem)
              (OutputLayerType := OutputLayerType)
              (InitializationRuleType := InitializationRuleType)}
    (gradient : Mat)
    (self : FFN (Kind := Kind) (OutputLayerType := OutputLayerType)
                (InitializationRuleType := InitializationRuleType)) :
  length (layerGradients self) = length (network self) →
  sizes_valid (network self) →
  sum_sizes (map WeightSize (network self)) < SizeT.modulus →
  ∃ self',
    InitializeGradientPassMemory gradient self = Return self' ∧
    set_layerGradients (layerGradients self) self' = self ∧
    length (layerGradients self') = length (network self) ∧
    (∀ i l g, network self !! i = Some l → layerGradients self' !! i = Some g →
       g = MakeAlias (ptr_add (memptr gradient)
                        (offset_of (map WeightSize (network self)) i))
             (WeightSize l) 1) ∧
    (∀ selfW i l g,
       SetLayerMemory self = Return selfW →
       network selfW !! i = Some l → layerGradients self' !! i = Some g →
       n_rows g = WeightSize l ∧
       mat_start g - offset (memptr gradient)
       = view_start l - offset (memptr (parameters self))).
Proof.
  intros Hlen Hv Hmax. unfold InitializeGradientPassMemory.
  rewrite alias_gradients_exact by (done || lia). rewrite bind_Return.
  eexists. split; [done|]. cbn [layerGradients set_layerGradients].
  split; [by destruct self|].
  split; [by rewrite slice_views_length, length_map|].
  assert (Hview : ∀ i l g, network self !! i = Some l →
            slice_views (memptr gradient) 1 0 (map WeightSize (network self)) !! i
            = Some g →
            g = MakeAlias (ptr_add (memptr gradient)
                             (offset_of (map WeightSize (network self)) i))
                  (WeightSize l) 1).
  { intros i l g Hl Hg.
    apply slice_views_inv in Hg as (size & Hsize & ->).
    change ((WeightSize <$> network self) !! i = Some size) in Hsize.
    rewrite list_lookup_fmap, Hl in Hsize. cbn in Hsize. simplify_eq.
    do 2 f_equal. lia. }
  split; [exact Hview|].
  intros selfW i l g Hrun Hl Hg.
  rewrite (SetLayerMemory_Return_views _ _ Hv Hmax Hrun) in Hl.
  apply assign_views_inv in Hl as (l0 & Hl0 & ->).
  rewrite (Hview _ _ _ Hl0 Hg).
  unfold mat_start, view_start.
  cbn [MakeAlias memptr n_rows ptr_add offset SetWeights layer_weights].
  split; [done|lia].
Qed.

(** The three layers (6, 0 and 3 weights) and a gradient of 9 elements. *)
Lemma InitializeGradientPassMemory_mirrors_weights_witness :
  ∃ self',
    InitializeGradientPassMemory gradient_buffer three_layers = Return self' ∧
    length (layerGradients self') = 3%nat.
Proof.
  destruct (InitializeGradientPassMemory_mirrors_weights gradient_buffer three_layers
              ltac:(reflexivity)
              ltac:(unfold sizes_valid; repeat constructor; by vm_compute)
              ltac:(by vm_compute))
    as (self' & Hrun & _ & Hlen & _).
  exists self'. split; [exact Hrun|exact Hlen].
Defined.

(** X25.  The shrink threshold of lines 870 and 914,
    [std::floor(0.1 * n_elem)], is computed in [double] and compared with the
    request converted to [double].  For every arena of fewer than
    6755399441055749 elements the test [request < std::floor(0.1 * n_elem)]
    is the test [request < n_elem / 10] on integers; and whatever the size,
    no element count is below the threshold computed from itself, which is
    why a pass repeated with the same batch size never shrinks the arena it
    has just allocated. *)
Theorem below_tenth_is_integer_quotient (requested n_elem : Z) :
  SizeT.valid requested → SizeT.valid n_elem →
  (n_elem < 6755399441055749 →
   Double.below_tenth requested n_elem = (requested <? n_elem / 10)) ∧
  Double.below_tenth n_elem n_elem = false.
Proof.
  intros Hreq Hn. split.
  - intros Hbound. apply DoubleFacts.below_tenth_exact; [exact Hreq|].
    destruct Hn. lia.
  - by apply DoubleFacts.below_tenth_self.
Qed.

(** An arena of 160 elements and a request of 8: the threshold is 16. *)
Lemma below_tenth_is_integer_quotient_witness :
  Double.below_tenth 8 160 = (8 <? 160 / 10) ∧ Double.below_tenth 160 160 = false.
Proof.
  assert (H8 : SizeT.valid 8) by (by vm_compute).
  assert (H160 : SizeT.valid 160) by (by vm_compute).
  destruct (below_tenth_is_integer_quotient 8 160 H8 H160) as [Hexact Hself].
  split; [apply Hexact; lia|exact Hself].
Defined.

End AnnLayout.

(** ** [FFN]: the passes *)

Module AnnPasses.

Import Ann Examples CxxFacts AnnSpec AnnLayout.

(** In a sequence of steps known to return, look at the first step: it
    returned too. *)
Ltac first_step H x Hx :=
  lazymatch type of H with
  | (?m ≫= ?k) = ?r =>
      destruct m as [x| |] eqn:Hx; [change (k x = r) in H; cbv beta in H|done..]
  end.

Section Dimensions.

Context {Kind Mem OutputLayerType InitializationRuleType : Type}.
Context {caps : Capabilities (Kind := Kind) (Mem := Mem)
                  (OutputLayerType := OutputLayerType)
                  (InitializationRuleType := InitializationRuleType)}.

Abbreviation Layer := (Layer (Kind := Kind)).
Abbreviation FFN := (FFN (Kind := Kind) (OutputLayerType := OutputLayerType)
                     (InitializationRuleType := InitializationRuleType)).

Implicit Types (l previous : Layer) (layers : list Layer) (self : FFN).



End Dimensions.



(** A counted loop whose every iteration is one call: the loop makes the
    calls in order. *)
Lemma for_loop_calls {M C : Type} (run : M → C → M) (body : Z → M → outcome M)
    (call_at : nat → option C) (count i : nat) :
  (∀ k, (k < count)%nat →
     ∃ c, call_at (i + k)%nat = Some c
          ∧ ∀ m, body (Z.of_nat (i + k)) m = Return (run m c)) →
  ∃ calls : list C,
    length calls = count ∧
    (∀ k c, calls !! k = Some c → call_at (i + k)%nat = Some c) ∧
    ∀ m, for_loop count (Z.of_nat i) body m = Return (foldl run m calls).
Proof.
  revert i. induction count as [|count IH]; intros i Hbody.
  - exists []. split; [done|]. split; [done|]. done.
  - destruct (Hbody 0%nat) as (c & Hc & Hrun); [lia|].
    rewrite Nat.add_0_r in Hc, Hrun.
    destruct (IH (S i)) as (calls & Hlen & Hcalls & Hloop).
    { intros k Hk. destruct (Hbody (S k)) as (c' & Hc' & Hrun'); [lia|].
      exists c'. replace (S i + k)%nat with (i + S k)%nat by lia. done. }
    exists (c :: calls). split; [cbn; by rewrite Hlen|]. split.
    + intros [|k] c' Hk.
      * apply (inj Some) in Hk as <-. by rewrite Nat.add_0_r.
      * replace (i + S k)%nat with (S i + k)%nat by lia. by apply Hcalls.
    + intros m. cbn [for_loop foldl]. rewrite Hrun, bind_Return.
      replace (Z.of_nat i + 1) with (Z.of_nat (S i)) by lia. apply Hloop.
Qed.

(** X12.  The layer calls of [Forward(inputs, results, begin, end)]
    (lines 352-367), for [begin <= end] within the network: the layers
    [begin .. end] are called once each, in order.  The first reads
    [inputs] and every later one the output view of the layer before it; the
    last writes [results], not its own output view, and every earlier one
    its own output view. *)
Theorem run_layers_operands
    {Kind Mem OutputLayerType InitializationRuleType : Type}
    {caps : Capabilities (Kind := Kind) (Mem := Mem)
              (OutputLayerType := OutputLayerType)
              (InitializationRuleType := InitializationRuleType)}
    (inputs results : Mat) (begin end_ : nat)
    (self : FFN (Kind := Kind) (OutputLayerType := OutputLayerType)
                (InitializationRuleType := InitializationRuleType)) :
  let n := length (network self) in
  (begin ≤ end_ < n)%nat → Z.of_nat n < SizeT.modulus →
  length (layerOutputs self) = n →
  ∃ calls,
    (∀ m, run_layers inputs results (Z.of_nat begin) (Z.of_nat end_) self m
          = Return (foldl run_forward_call m calls)) ∧
    length calls = S (end_ - begin) ∧
    (∀ k c, calls !! k = Some c →
       forward_operands_at inputs results begin end_ self (begin + k) = Some c) ∧
    (∀ c, calls !! 0%nat = Some c → fw_input c = inputs) ∧
    (∀ c, calls !! (end_ - begin)%nat = Some c →
       network self !! end_ = Some (fw_layer c) ∧ fw_output c = results) ∧
    (∀ k c, (k < end_ - begin)%nat → calls !! k = Some c →
       layerOutputs self !! (begin + k)%nat = Some (fw_output c)) ∧
    (∀ k c, (0 < k)%nat → calls !! k = Some c →
       layerOutputs self !! (begin + k - 1)%nat = Some (fw_input c)).
Proof.
  intros n Hrange Hmod Hout.
  assert (Hat : ∀ k c, forward_operands_at inputs results begin end_ self (begin + k)
                       = Some c →
            network self !! (begin + k)%nat = Some (fw_layer c) ∧
            (if decide (k = 0%nat) then fw_input c = inputs
             else layerOutputs self !! (begin + k - 1)%nat = Some (fw_input c)) ∧
            (if decide ((begin + k)%nat = end_) then fw_output c = results
             else layerOutputs self !! (begin + k)%nat = Some (fw_output c))).
  { intros k c Hc. unfold forward_operands_at in Hc.
    apply bind_Some in Hc as (l & Hl & Hc).
    apply bind_Some in Hc as (a & Ha & Hc).
    apply bind_Some in Hc as (b & Hb & Hc).
    apply (inj Some) in Hc as <-. cbn.
    split; [done|]. split.
    - destruct (decide (k = 0%nat)) as [->|Hk].
      + rewrite Nat.add_0_r in Ha. rewrite decide_True in Ha by done. by simplify_eq.
      + rewrite decide_False in Ha by lia.
        by replace (begin + k - 1)%nat with (pred (begin + k)) by lia.
    - by destruct (decide ((begin + k)%nat = end_)); simplify_eq. }
  assert (Hfinish : ∀ calls,
            length calls = S (end_ - begin) →
            (∀ k c, calls !! k = Some c →
               forward_operands_at inputs results begin end_ self (begin + k) = Some c) →
            (∀ c, calls !! 0%nat = Some c → fw_input c = inputs) ∧
            (∀ c, calls !! (end_ - begin)%nat = Some c →
               network self !! end_ = Some (fw_layer c) ∧ fw_output c = results) ∧
            (∀ k c, (k < end_ - begin)%nat → calls !! k = Some c →
               layerOutputs self !! (begin + k)%nat = Some (fw_output c)) ∧
            (∀ k c, (0 < k)%nat → calls !! k = Some c →
               layerOutputs self !! (begin + k - 1)%nat = Some (fw_input c))).
  { intros calls Hlen Hcalls. split; [|split; [|split]].
    - intros c Hc. apply Hcalls, Hat in Hc as (_ & Hin & _).
      by rewrite decide_True in Hin.
    - intros c Hc. apply Hcalls, Hat in Hc as (Hl & _ & Hres).
      replace (begin + (end_ - begin))%nat with end_ in Hl, Hres by lia.
      by rewrite decide_True in Hres.
    - intros k c Hk Hc. apply Hcalls, Hat in Hc as (_ & _ & Hres).
      by rewrite decide_False in Hres by lia.
    - intros k c Hk Hc. apply Hcalls, Hat in Hc as (_ & Hin & _).
      by rewrite decide_False in Hin by lia. }
  destruct (lookup_lt_is_Some_2 (network self) end_) as [ln Hln]; [lia|].
  destruct (decide (begin = end_)) as [<-|Hne].
  - set (c := mkForwardOperands ln inputs results).
    assert (Hc : forward_operands_at inputs results begin begin self begin = Some c).
    { unfold forward_operands_at. rewrite Hln. cbn. by rewrite !decide_True. }
    assert (Hcalls : ∀ k c', [c] !! k = Some c' →
              forward_operands_at inputs results begin begin self (begin + k)
              = Some c').
    { intros k c' Hk. apply list_lookup_singleton_Some in Hk as [-> <-].
      by rewrite Nat.add_0_r. }
    exists [c]. split; [|split; [cbn; lia|split; [exact Hcalls|]]].
    + intros m. unfold run_layers. rewrite Z.ltb_irrefl.
      rewrite (index_lookup (network self) (Z.of_nat begin) ln)
        by (lia || by rewrite Nat2Z.id).
      by rewrite bind_Return.
    + apply Hfinish; [cbn; lia|exact Hcalls].
  - destruct (lookup_lt_is_Some_2 (network self) begin) as [lb Hlb]; [lia|].
    destruct (lookup_lt_is_Some_2 (layerOutputs self) begin) as [ob Hob]; [lia|].
    destruct (lookup_lt_is_Some_2 (layerOutputs self) (pred end_)) as [oe Hoe]; [lia|].
    set (c0 := mkForwardOperands lb inputs ob).
    set (cn := mkForwardOperands ln oe results).
    assert (Hc0 : forward_operands_at inputs results begin end_ self begin = Some c0).
    { unfold forward_operands_at. rewrite Hlb. cbn.
      rewrite (decide_True (P := begin = begin)) by done. cbn.
      rewrite (decide_False (P := begin = end_)) by done.
      by rewrite Hob. }
    assert (Hcn : forward_operands_at inputs results begin end_ self end_ = Some cn).
    { unfold forward_operands_at. rewrite Hln. cbn.
      rewrite (decide_False (P := end_ = begin)) by lia. rewrite Hoe. cbn.
      by rewrite decide_True. }
    destruct (for_loop_calls run_forward_call
                (λ i m,
                   l ← index (network self) (SizeT.add (Z.of_nat begin) i);
                   a ← index (layerOutputs self)
                         (SizeT.sub (SizeT.add (Z.of_nat begin) i) 1);
                   b ← index (layerOutputs self) (SizeT.add (Z.of_nat begin) i);
                   Return (layer_Forward l a b m))
                (λ i, forward_operands_at inputs results begin end_ self (begin + i))
                (end_ - begin - 1) 1)
      as (mids & Hmlen & Hmids & Hloop).
    { intros k Hk.
      destruct (lookup_lt_is_Some_2 (network self) (begin + S k)) as [l Hl]; [lia|].
      destruct (lookup_lt_is_Some_2 (layerOutputs self) (begin + k)) as [a Ha]; [lia|].
      destruct (lookup_lt_is_Some_2 (layerOutputs self) (begin + S k))
        as [b Hb]; [lia|].
      exists (mkForwardOperands l a b). change (1 + k)%nat with (S k). split.
      - unfold forward_operands_at. rewrite Hl. cbn.
        rewrite (decide_False (P := (begin + S k)%nat = begin)) by lia.
        replace (pred (begin + S k)) with (begin + k)%nat by lia. rewrite Ha. cbn.
        rewrite decide_False by lia. by rewrite Hb.
      - intros m.
        rewrite SizeTFacts.add_exact by (unfold SizeT.valid; lia).
        rewrite SizeTFacts.sub_exact by (unfold SizeT.valid; lia).
        rewrite (index_lookup (network self) (Z.of_nat begin + Z.of_nat (S k)) l);
          [|lia|by replace (Z.to_nat (Z.of_nat begin + Z.of_nat (S k)))
                     with (begin + S k)%nat by lia].
        rewrite bind_Return.
        rewrite (index_lookup (layerOutputs self)
                   (Z.of_nat begin + Z.of_nat (S k) - 1) a);
          [|lia|by replace (Z.to_nat (Z.of_nat begin + Z.of_nat (S k) - 1))
                     with (begin + k)%nat by lia].
        rewrite bind_Return.
        rewrite (index_lookup (layerOutputs self)
                   (Z.of_nat begin + Z.of_nat (S k)) b);
          [|lia|by replace (Z.to_nat (Z.of_nat begin + Z.of_nat (S k)))
                     with (begin + S k)%nat by lia].
        by rewrite bind_Return. }
    assert (Hcalls : ∀ k c, (c0 :: mids ++ [cn]) !! k = Some c →
              forward_operands_at inputs results begin end_ self (begin + k) = Some c).
    { intros [|k] c Hc.
      - apply (inj Some) in Hc as <-. by rewrite Nat.add_0_r.
      - cbn in Hc. apply lookup_app_Some in Hc as [Hc|[Hk Hc]].
        + replace (begin + S k)%nat with (begin + (1 + k))%nat by lia.
          by apply Hmids.
        + rewrite Hmlen in Hk, Hc. apply list_lookup_singleton_Some in Hc as [Hz <-].
          by replace (begin + S k)%nat with end_ by lia. }
    assert (Hlen : length (c0 :: mids ++ [cn]) = S (end_ - begin)).
    { cbn. rewrite length_app, Hmlen. cbn. lia. }
    exists (c0 :: mids ++ [cn]). split; [|split; [exact Hlen|split; [exact Hcalls|]]].
    + intros m. unfold run_layers.
      destruct (Z.ltb_spec (Z.of_nat begin) (Z.of_nat end_)); [|lia].
      rewrite (index_lookup (network self) (Z.of_nat begin) lb)
        by (lia || by rewrite Nat2Z.id).
      rewrite bind_Return.
      rewrite (index_lookup (layerOutputs self) (Z.of_nat begin) ob)
        by (lia || by rewrite Nat2Z.id).
      rewrite bind_Return. unfold for_range.
      rewrite (SizeTFacts.sub_exact (Z.of_nat end_) (Z.of_nat begin))
        by (unfold SizeT.valid; lia).
      replace (Z.to_nat (Z.of_nat end_ - Z.of_nat begin - 1))
        with (end_ - begin - 1)%nat by lia.
      rewrite (Hloop (layer_Forward lb inputs ob m)), bind_Return.
      rewrite (index_lookup (network self) (Z.of_nat end_) ln)
        by (lia || by rewrite Nat2Z.id).
      rewrite bind_Return.
      rewrite (SizeTFacts.sub_exact (Z.of_nat end_) 1) by (unfold SizeT.valid; lia).
      rewrite (index_lookup (layerOutputs self) (Z.of_nat end_ - 1) oe);
        [|lia|by replace (Z.to_nat (Z.of_nat end_ - 1)) with (pred end_) by lia].
      rewrite bind_Return. f_equal. cbn [foldl]. by rewrite foldl_app.
    + apply Hfinish; [exact Hlen|exact Hcalls].
Qed.

(** The three layers, run from the first to the last. *)
Lemma run_layers_operands_witness :
  ∃ calls,
    run_layers (matrix 20 3 4) (matrix 21 1 4) 0 2 three_layers []
    = Return (foldl run_forward_call [] calls) ∧
    length calls = 3%nat.
Proof.
  destruct (run_layers_operands (matrix 20 3 4) (matrix 21 1 4) 0 2 three_layers)
    as (calls & Hrun & Hlen & _).
  - cbn. lia.
  - by vm_compute.
  - reflexivity.
  - exists calls. split; [apply Hrun|exact Hlen].
Defined.

Section BackwardPass.

Context {Kind Mem OutputLayerType InitializationRuleType : Type}.
Context {caps : Capabilities (Kind := Kind) (Mem := Mem)
                  (OutputLayerType := OutputLayerType)
                  (InitializationRuleType := InitializationRuleType)}.

Abbreviation Layer := (Layer (Kind := Kind)).
Abbreviation FFN := (FFN (Kind := Kind) (OutputLayerType := OutputLayerType)
                     (InitializationRuleType := InitializationRuleType)).
Abbreviation World := (World (Mem := Mem)).

Implicit Types (l : Layer) (layers : list Layer) (self : FFN) (w : World).
Implicit Types (views vs : list Mat).

(** What the loop over [layerDeltas] produces, whenever it completes. *)
Lemma alias_deltas_inv layers base batchSize total inputSize start i views vs :
  alias_deltas layers base batchSize total inputSize start i views = Return vs →
  length vs = length views ∧
  Forall (λ v, block (memptr v) = block base ∧ n_cols v = batchSize
               ∧ strict_alias v = true) vs.
Proof.
  revert start i vs.
  induction views as [|v0 views IH]; intros start i vs Hrun.
  - cbn in Hrun. simplify_eq. by split.
  - cbn [alias_deltas] in Hrun.
    destruct (match i with
              | O => Return inputSize
              | S j => l ← index layers (Z.of_nat j); Return (OutputSize l)
              end) as [size| |]; [|done..].
    rewrite bind_Return in Hrun. unfold Log_Assert in Hrun.
    destruct (_ <=? _); [|done]. rewrite bind_Return in Hrun.
    destruct (alias_deltas _ _ _ _ _ _ _ views) as [rest| |] eqn:Hrest; [|done..].
    rewrite bind_Return in Hrun. injection Hrun as <-.
    destruct (IH _ _ _ Hrest) as [Hlen Hall].
    split; [cbn; by rewrite Hlen|]. constructor; [done|exact Hall].
Qed.

(** [InitializeBackwardPassMemory] changes the delta arena and the delta
    views only. *)
Lemma InitializeBackwardPassMemory_frame batchSize self w self' w' :
  InitializeBackwardPassMemory batchSize (self, w) = Return (self', w') →
  set_layerDeltas (layerDeltas self) (set_deltaMatrix (deltaMatrix self) self') = self
  ∧ store w' = store w
  ∧ length (layerDeltas self') = length (layerDeltas self)
  ∧ Forall (λ v, block (memptr v) = block (memptr (deltaMatrix self'))
                 ∧ n_cols v = batchSize ∧ strict_alias v = true)
      (layerDeltas self').
Proof.
  unfold InitializeBackwardPassMemory. cbv zeta.
  destruct (must_reallocate _ _ _).
  - cbn [alloc fst snd]. 
    destruct (alias_deltas _ _ _ _ _ _ _ _) as [views| |] eqn:Hviews; [|done..].
    rewrite bind_Return. intros [= <- <-].
    apply alias_deltas_inv in Hviews as [Hlen Hall].
    split; [by destruct self|]. split; [done|]. split; [exact Hlen|exact Hall].
  - destruct (alias_deltas _ _ _ _ _ _ _ _) as [views| |] eqn:Hviews; [|done..].
    rewrite bind_Return. intros [= <- <-].
    apply alias_deltas_inv in Hviews as [Hlen Hall].
    split; [by destruct self|]. split; [done|]. split; [exact Hlen|exact Hall].
Qed.

End BackwardPass.

(** X13.  [Backward()] (lines 708-726) on a network of [n >= 1] layers with
    one output and one delta view per layer: once
    [InitializeBackwardPassMemory] has returned, the layers are called once
    each from the last to the first.  Layer [i] is given its own output view
    and writes delta view [i]; the last layer receives [error] and every
    earlier one the delta view of the layer after it. *)
Theorem Backward_pass_operands
    {Kind Mem OutputLayerType InitializationRuleType : Type}
    {caps : Capabilities (Kind := Kind) (Mem := Mem)
              (OutputLayerType := OutputLayerType)
              (InitializationRuleType := InitializationRuleType)}
    (self self1 : FFN (Kind := Kind) (OutputLayerType := OutputLayerType)
                      (InitializationRuleType := InitializationRuleType))
    (w w1 : World (Mem := Mem)) (out : Mat) :
  let n := length (network self) in
  (1 ≤ n)%nat → Z.of_nat n + 1 < SizeT.modulus →
  length (layerOutputs self) = n → length (layerDeltas self) = n →
  layerOutputs self !! pred n = Some out →
  InitializeBackwardPassMemory (n_cols out) (self, w) = Return (self1, w1) →
  ∃ calls,
    Backward_pass (self, w)
    = Return (self1, mkWorld (next_block w1) (foldl run_backward_call (store w) calls)) ∧
    length calls = n ∧
    (∀ k c, calls !! k = Some c →
       backward_operands_at self1 (n - 1 - k) = Some c ∧
       network self !! (n - 1 - k)%nat = Some (bw_layer c) ∧
       layerOutputs self !! (n - 1 - k)%nat = Some (bw_output c) ∧
       layerDeltas self1 !! (n - 1 - k)%nat = Some (bw_delta c)) ∧
    (∀ c, calls !! 0%nat = Some c → bw_incoming c = error self) ∧
    (∀ k c, (0 < k)%nat → calls !! k = Some c →
       layerDeltas self1 !! (n - k)%nat = Some (bw_incoming c)).
Proof.
  intros n Hn Hmod Hout Hdel Hback Hinit.
  destruct (InitializeBackwardPassMemory_frame _ _ _ _ _ Hinit)
    as (Hframe & Hstore & Hlen & _).
  assert (Hnet : network self1 = network self) by exact (f_equal network Hframe).
  assert (Houts : layerOutputs self1 = layerOutputs self)
    by exact (f_equal layerOutputs Hframe).
  assert (Herr : error self1 = error self) by exact (f_equal error Hframe).
  assert (Hat : ∀ i c, backward_operands_at self1 i = Some c →
            network self !! i = Some (bw_layer c) ∧
            layerOutputs self !! i = Some (bw_output c) ∧
            (if decide (S i = n) then bw_incoming c = error self
             else layerDeltas self1 !! S i = Some (bw_incoming c)) ∧
            layerDeltas self1 !! i = Some (bw_delta c)).
  { intros i c Hc. unfold backward_operands_at in Hc.
    rewrite Hnet, Houts, Herr in Hc. fold n in Hc.
    apply bind_Some in Hc as (l & Hl & Hc).
    apply bind_Some in Hc as (o & Ho & Hc).
    apply bind_Some in Hc as (g & Hg & Hc).
    apply bind_Some in Hc as (d & Hd & Hc).
    apply (inj Some) in Hc as <-. cbn.
    split; [done|]. split; [done|]. split; [|done].
    by destruct (decide (S i = n)); simplify_eq. }
  assert (Hsome : ∀ i, (i < n)%nat → is_Some (backward_operands_at self1 i)).
  { intros i Hi. unfold backward_operands_at. rewrite Hnet, Houts. fold n.
    destruct (lookup_lt_is_Some_2 (network self) i) as [l ->]; [lia|].
    destruct (lookup_lt_is_Some_2 (layerOutputs self) i) as [o ->]; [lia|].
    destruct (lookup_lt_is_Some_2 (layerDeltas self1) i) as [d Hd]; [lia|].
    cbn. destruct (decide (S i = n)).
    - cbn. rewrite Hd. by eexists.
    - destruct (lookup_lt_is_Some_2 (layerDeltas self1) (S i)) as [g ->]; [lia|].
      cbn. rewrite Hd. by eexists. }
  destruct (Hsome (pred n)) as [cn Hcn]; [lia|].
  destruct (for_loop_calls run_backward_call
              (λ i m,
                 l ← index (network self1) (SizeT.sub (Z.of_nat n) i);
                 o ← index (layerOutputs self1) (SizeT.sub (Z.of_nat n) i);
                 din ← index (layerDeltas self1)
                         (SizeT.add (SizeT.sub (Z.of_nat n) i) 1);
                 dout ← index (layerDeltas self1) (SizeT.sub (Z.of_nat n) i);
                 Return (layer_Backward l o din dout m))
              (λ i, backward_operands_at self1 (n - i))
              (n - 1) 2)
    as (rest & Hrlen & Hrest & Hloop).
  { intros k Hk. destruct (Hsome (n - (2 + k))%nat) as [c Hc]; [lia|].
    exists c. split; [done|]. intros m.
    apply Hat in Hc as (Hl & Ho & Hg & Hd).
    rewrite decide_False in Hg by lia.
    rewrite Hnet, Houts.
    rewrite !(SizeTFacts.sub_exact (Z.of_nat n) (Z.of_nat (2 + k)))
      by (unfold SizeT.valid; lia).
    rewrite SizeTFacts.add_exact by (unfold SizeT.valid; lia).
    rewrite (index_lookup (network self) (Z.of_nat n - Z.of_nat (2 + k)) (bw_layer c));
      [|lia|by replace (Z.to_nat (Z.of_nat n - Z.of_nat (2 + k)))
                 with (n - (2 + k))%nat by lia].
    rewrite bind_Return.
    rewrite (index_lookup (layerOutputs self) (Z.of_nat n - Z.of_nat (2 + k))
               (bw_output c));
      [|lia|by replace (Z.to_nat (Z.of_nat n - Z.of_nat (2 + k)))
                 with (n - (2 + k))%nat by lia].
    rewrite bind_Return.
    rewrite (index_lookup (layerDeltas self1) (Z.of_nat n - Z.of_nat (2 + k) + 1)
               (bw_incoming c));
      [|lia|by replace (Z.to_nat (Z.of_nat n - Z.of_nat (2 + k) + 1))
                 with (S (n - (2 + k)))%nat by lia].
    rewrite bind_Return.
    rewrite (index_lookup (layerDeltas self1) (Z.of_nat n - Z.of_nat (2 + k))
               (bw_delta c));
      [|lia|by replace (Z.to_nat (Z.of_nat n - Z.of_nat (2 + k)))
                 with (n - (2 + k))%nat by lia].
    by rewrite bind_Return. }
  assert (Hcalls : ∀ k c, (cn :: rest) !! k = Some c →
            backward_operands_at self1 (n - 1 - k) = Some c).
  { intros [|k] c Hc.
    - apply (inj Some) in Hc as <-.
      by replace (n - 1 - 0)%nat with (pred n) by lia.
    - replace (n - 1 - S k)%nat with (n - (2 + k))%nat by lia. by apply Hrest. }
  exists (cn :: rest). split; [|split; [cbn; lia|split; [|split]]].
  - unfold Backward_pass. cbn [fst snd].
    rewrite (back_lookup _ _ ltac:(rewrite Hout; exact Hback)), bind_Return.
    rewrite Hinit, bind_Return. cbn [fst snd].
    pose proof (Hat _ _ Hcn) as (Hl & Ho & Hg & Hd).
    rewrite decide_True in Hg by lia.
    rewrite Hnet, Houts, Herr. fold n.
    rewrite (back_lookup (network self) (bw_layer cn)) by exact Hl.
    rewrite bind_Return.
    rewrite (back_lookup (layerOutputs self) (bw_output cn))
      by (rewrite Hout; exact Ho).
    rewrite bind_Return.
    rewrite (back_lookup (layerDeltas self1) (bw_delta cn))
      by (rewrite Hlen, Hdel; exact Hd).
    rewrite bind_Return. unfold for_range.
    replace (Z.to_nat (Z.of_nat n + 1 - 2)) with (n - 1)%nat by lia.
    rewrite <- Hnet, <- Houts.
    rewrite (Hloop (layer_Backward (bw_layer cn) (bw_output cn) (error self)
                      (bw_delta cn) (store w1))).
    rewrite bind_Return. rewrite Hstore. do 3 f_equal.
    cbn [foldl]. f_equal. unfold run_backward_call. by rewrite Hg.
  - intros k c Hc. pose proof (Hcalls k c Hc) as Hop. split; [exact Hop|].
    apply Hat in Hop as (Hl & Ho & _ & Hd). done.
  - intros c [= <-]. apply Hat in Hcn as (_ & _ & Hg & _).
    by rewrite decide_True in Hg by lia.
  - intros k c Hk Hc.
    assert (Hkn : (k < n)%nat).
    { apply lookup_lt_Some in Hc. cbn in Hc. lia. }
    apply Hcalls, Hat in Hc as (_ & _ & Hg & _).
    rewrite decide_False in Hg by lia.
    by replace (S (n - 1 - k)) with (n - k)%nat in Hg by lia.
Qed.

(** The three layers after a forward pass with a batch of 4. *)
Lemma Backward_pass_operands_witness :
  ∃ self1 (w1 : World (Mem := list Call)) calls,
    Backward_pass (after_batch_of_4.1, after_batch_of_4.2)
    = Return (self1, mkWorld (next_block w1)
                       (foldl run_backward_call (store after_batch_of_4.2) calls)) ∧
    length calls = 3%nat.
Proof.
  assert (Hout : layerOutputs after_batch_of_4.1 !! 2%nat
                 = Some (MakeAlias (mkPtr 100 16) 1 4)) by (vm_compute; reflexivity).
  eassert (Hinit : InitializeBackwardPassMemory 4
                     (after_batch_of_4.1, after_batch_of_4.2) = Return (_, _))
    by (vm_compute; reflexivity).
  destruct (Backward_pass_operands after_batch_of_4.1 _ after_batch_of_4.2 _
              (MakeAlias (mkPtr 100 16) 1 4)
              ltac:(cbn; lia) ltac:(by vm_compute) ltac:(reflexivity)
              ltac:(reflexivity) Hout Hinit)
    as (calls & Hrun & Hlen & _).
  eexists _, _, calls. split; [exact Hrun|exact Hlen].
Defined.

Section ForwardFrame.

Context {Kind Mem OutputLayerType InitializationRuleType : Type}.
Context {caps : Capabilities (Kind := Kind) (Mem := Mem)
                  (OutputLayerType := OutputLayerType)
                  (InitializationRuleType := InitializationRuleType)}.

Abbreviation Layer := (Layer (Kind := Kind)).
Abbreviation FFN := (FFN (Kind := Kind) (OutputLayerType := OutputLayerType)
                     (InitializationRuleType := InitializationRuleType)).
Abbreviation World := (World (Mem := Mem)).
Abbreviation State := (State (Kind := Kind) (Mem := Mem)
                         (OutputLayerType := OutputLayerType)
                         (InitializationRuleType := InitializationRuleType)).

Implicit Types (l : Layer) (layers : list Layer) (self : FFN) (w : World).
Implicit Types (s : State).

Lemma Forall2_map_eq {A B : Type} (f : A → B) (R : A → A → Prop) (xs ys : list A) :
  (∀ a b, R a b → f b = f a) → Forall2 R xs ys → map f ys = map f xs.
Proof.
  intros Hf Hall. induction Hall as [|a b xs ys Hab _ IH]; [done|].
  cbn. by rewrite (Hf _ _ Hab), IH.
Qed.

(** What each step of the forward pass leaves alone. *)
Lemma InitializeWeights_frame s :
  kept_by_Forward (InitializeWeights s).1 = kept_by_Forward s.1 ∧
  layer_modes (InitializeWeights s).1 = map (λ _, true) (network s.1) ∧
  layerMemoryIsSet (InitializeWeights s).1 = layerMemoryIsSet s.1 ∧
  inputDimensionsAreSet (InitializeWeights s).1 = inputDimensionsAreSet s.1 ∧
  (next_block s.2 ≤ next_block (InitializeWeights s).2)%N.
Proof.
  destruct s as [self w]. unfold InitializeWeights, NetworkInitialization_Initialize.
  unfold kept_by_Forward, layer_modes.
  destruct (is_empty (parameters (ResetDeterministic self)));
    cbn; rewrite !map_map; cbn; (split; [done|]); (split; [done|]);
    (split; [done|]); (split; [done|]); lia.
Qed.

Lemma SetLayerMemory_frame self self' :
  SetLayerMemory self = Return self' →
  kept_by_Forward self' = kept_by_Forward self ∧
  layer_modes self' = layer_modes self ∧
  parameters self' = parameters self ∧
  layerMemoryIsSet self' = true ∧
  inputDimensionsAreSet self' = inputDimensionsAreSet self.
Proof.
  unfold SetLayerMemory. intros Hrun.
  destruct (SetLayerMemory_loop _ _ _) as [[layers' total']| |] eqn:Hloop; [|done..].
  rewrite bind_Return in Hrun. destruct (Log_Assert _ _) as [[]| |]; [|done..].
  rewrite bind_Return in Hrun. injection Hrun as <-.
  apply SetLayerMemory_loop_kinds in Hloop.
  assert (Hkinds : map kind layers' = map kind (network self)).
  { eapply Forall2_map_eq; [|exact Hloop]. by intros a b (? & _ & _). }
  assert (Hmodes : map layer_deterministic layers'
                   = map layer_deterministic (network self)).
  { eapply Forall2_map_eq; [|exact Hloop]. by intros a b (_ & _ & ?). }
  unfold kept_by_Forward, layer_modes. cbn. by rewrite Hkinds, Hmodes.
Qed.

Lemma propagate_dimensions_same previous layers tin tout :
  Forall2 same_layer_but_dimensions layers
    (propagate_dimensions previous layers tin tout).1.
Proof.
  revert previous tin tout. induction layers as [|l layers IH]; intros; [constructor|].
  cbn [propagate_dimensions fst]. constructor; [done|apply IH].
Qed.

Lemma resolve_dimensions_frame inputs self self' :
  resolve_dimensions inputs self = Return self' →
  kept_by_Forward self' = kept_by_Forward self ∧
  layer_modes self' = layer_modes self ∧
  parameters self' = parameters self ∧
  layerMemoryIsSet self' = layerMemoryIsSet self ∧
  inputDimensionsAreSet self' = true.
Proof.
  unfold resolve_dimensions. intros Hrun.
  set (self1 := if (length (inputDimensions self) =? 0)%nat
                then set_inputDimensions [n_rows inputs] self else self) in Hrun.
  assert (Hself1 : kept_by_Forward self1 = kept_by_Forward self
                   ∧ network self1 = network self
                   ∧ parameters self1 = parameters self
                   ∧ layerMemoryIsSet self1 = layerMemoryIsSet self).
  { subst self1. by destruct (length (inputDimensions self) =? 0)%nat. }
  destruct Hself1 as (Hkept & Hnet & Hpar & Hmem).
  destruct (Log_Assert _ _) as [[]| |]; [|done..]. rewrite bind_Return in Hrun.
  cbn [network set_totalOutputSize set_totalInputSize] in Hrun.
  rewrite Hnet in Hrun.
  destruct (network self) as [|first rest] eqn:Hlayers; [done|].
  injection Hrun as <-.
  match goal with
  | |- context [propagate_dimensions ?p rest ?a ?b] =>
      pose proof (propagate_dimensions_same p rest a b) as Hsame;
      destruct (propagate_dimensions p rest a b) as [layers' totals]
  end.
  cbn [fst snd] in *.
  assert (Hkinds : map kind layers' = map kind rest).
  { eapply Forall2_map_eq; [|exact Hsame]. by intros a b (? & _ & _). }
  assert (Hmodes : map layer_deterministic layers' = map layer_deterministic rest).
  { eapply Forall2_map_eq; [|exact Hsame]. by intros a b (_ & ? & _). }
  unfold kept_by_Forward, layer_modes in *. cbn in *.
  rewrite Hkinds, Hmodes, Hlayers. rewrite Hnet, Hlayers in Hkept. cbn in *.
  split; [exact Hkept|done].
Qed.

Lemma ensure_dimensions_frame inputs self self' :
  ensure_dimensions inputs self = Return self' →
  kept_by_Forward self' = kept_by_Forward self ∧
  layer_modes self' = layer_modes self ∧
  parameters self' = parameters self ∧
  layerMemoryIsSet self' = layerMemoryIsSet self ∧
  inputDimensionsAreSet self' = true.
Proof.
  unfold ensure_dimensions. intros Hrun.
  destruct (front (network self)) as [first| |]; [|done..].
  rewrite bind_Return in Hrun.
  destruct (bool_decide _ || negb (inputDimensionsAreSet self)) eqn:Hcond.
  - by apply resolve_dimensions_frame in Hrun.
  - injection Hrun as <-. apply orb_false_iff in Hcond as [_ Hset].
    by apply negb_false_iff in Hset.
Qed.

Lemma InitializeForwardPassMemory_frame batchSize self w self' w' :
  InitializeForwardPassMemory batchSize (self, w) = Return (self', w') →
  kept_by_Forward self' = kept_by_Forward self ∧
  network self' = network self ∧
  parameters self' = parameters self ∧
  layerMemoryIsSet self' = layerMemoryIsSet self ∧
  inputDimensionsAreSet self' = inputDimensionsAreSet self ∧
  totalOutputSize self' = total_output_size (network self) ∧
  store w' = store w ∧ (next_block w ≤ next_block w')%N.
Proof.
  rewrite InitializeForwardPassMemory_cases. cbv zeta.
  destruct (must_reallocate _ _ _);
    destruct (alias_outputs _ _ _ _ _ _) as [views| |]; try done;
    rewrite bind_Return; intros [= <- <-]; cbn; repeat split; lia.
Qed.

Lemma ensure_weights_frame s s1 :
  ensure_weights s = Return s1 →
  kept_by_Forward s1.1 = kept_by_Forward s.1 ∧
  layer_modes s1.1 = (if is_empty (parameters s.1)
                      then map (λ _, true) (network s.1) else layer_modes s.1) ∧
  layerMemoryIsSet s1.1 = true ∧
  inputDimensionsAreSet s1.1 = inputDimensionsAreSet s.1 ∧
  (next_block s.2 ≤ next_block s1.2)%N ∧
  (is_empty (parameters s.1) = false → parameters s1.1 = parameters s.1).
Proof.
  unfold ensure_weights. intros Hrun.
  set (s0 := if is_empty (parameters s.1) then InitializeWeights s else s) in Hrun.
  assert (Hs0 : kept_by_Forward s0.1 = kept_by_Forward s.1 ∧
                layer_modes s0.1 = (if is_empty (parameters s.1)
                                    then map (λ _, true) (network s.1)
                                    else layer_modes s.1) ∧
                layerMemoryIsSet s0.1 = layerMemoryIsSet s.1 ∧
                inputDimensionsAreSet s0.1 = inputDimensionsAreSet s.1 ∧
                (next_block s.2 ≤ next_block s0.2)%N ∧
                (is_empty (parameters s.1) = false
                 → parameters s0.1 = parameters s.1)).
  { subst s0. destruct (is_empty (parameters s.1)).
    - destruct (InitializeWeights_frame s) as (? & ? & ? & ? & ?). done.
    - repeat split; (done || lia). }
  destruct Hs0 as (Hkept & Hmodes & Hmem & Hdims & Hblock & Hpar).
  destruct (layerMemoryIsSet s0.1) eqn:Hset; cbn [negb] in Hrun.
  - injection Hrun as <-. done.
  - destruct (SetLayerMemory s0.1) as [self'| |] eqn:Hlayers; [|done..].
    rewrite bind_Return in Hrun. injection Hrun as <-. cbn [fst snd].
    apply SetLayerMemory_frame in Hlayers as (Hk & Hm & Hp & Hl & Hd).
    rewrite Hk, Hm, Hl, Hd, Hp. done.
Qed.

Lemma write_ref_frame (r : MatRef) (m : Mat) self :
  kept_by_Forward (write_ref r m self).2 = kept_by_Forward self ∧
  network (write_ref r m self).2 = network self ∧
  parameters (write_ref r m self).2 = parameters self ∧
  layerMemoryIsSet (write_ref r m self).2 = layerMemoryIsSet self ∧
  inputDimensionsAreSet (write_ref r m self).2 = inputDimensionsAreSet self ∧
  totalOutputSize (write_ref r m self).2 = totalOutputSize self.
Proof. by destruct r. Qed.

Lemma Mat_set_size_result (n : Z) (m : Mat) w (r : Mat * World) :
  Mat_set_size n m w = Return r →
  n_rows r.1 = n ∧ n_cols r.1 = 1 ∧ store r.2 = store w
  ∧ (next_block w ≤ next_block r.2)%N.
Proof.
  unfold Mat_set_size. destruct (n_elem m =? SizeT.mul n 1).
  - intros [= <-]. cbn. repeat split; lia.
  - destruct (strict_alias m); [done|]. intros [= <-]. cbn. repeat split; lia.
Qed.

Lemma ensure_dimensions_layers inputs self self' :
  ensure_dimensions inputs self = Return self' →
  Forall2 same_layer_but_dimensions (network self) (network self').
Proof.
  unfold ensure_dimensions. intros Hrun.
  destruct (front (network self)) as [first| |]; [|done..].
  rewrite bind_Return in Hrun.
  destruct (bool_decide _ || negb (inputDimensionsAreSet self)).
  - unfold resolve_dimensions in Hrun.
    set (self1 := if (length (inputDimensions self) =? 0)%nat
                  then set_inputDimensions [n_rows inputs] self else self) in Hrun.
    assert (Hnet : network self1 = network self).
    { subst self1. by destruct (length (inputDimensions self) =? 0)%nat. }
    destruct (Log_Assert _ _) as [[]| |]; [|done..]. rewrite bind_Return in Hrun.
    cbn [network set_totalOutputSize set_totalInputSize] in Hrun.
    rewrite Hnet in Hrun.
    destruct (network self) as [|l rest]; [done|].
    injection Hrun as <-. cbn [network set_inputDimensionsAreSet
                               set_totalOutputSize set_totalInputSize set_network].
    constructor; [done|apply propagate_dimensions_same].
  - injection Hrun as <-. apply Forall_Forall2_diag, Forall_true. done.
Qed.

(** The weight views are assigned only while [layerMemoryIsSet] is unset:
    with the flag set and parameters that are not empty, a forward pass
    leaves every layer the weight pointer it has. *)
Lemma Forward_range_weights (inputs : Mat) (results r : MatRef) (begin end_ : Z) s s' :
  layerMemoryIsSet s.1 = true → is_empty (parameters s.1) = false →
  Forward_range inputs results begin end_ s = Return (r, s') →
  map layer_weights (network s'.1) = map layer_weights (network s.1) ∧
  parameters s'.1 = parameters s.1.
Proof.
  intros Hset Hfull. unfold Forward_range. destruct (end_ <? begin).
  { by intros [= <- <-]. }
  unfold ensure_weights. rewrite Hfull, Hset. cbn [negb]. rewrite bind_Return.
  intros Hrun.
  first_step Hrun self2 Hdims. first_step Hrun s3 Hmem. destruct s3 as [self3 w3].
  first_step Hrun l Hl. first_step Hrun out Hout. first_step Hrun r' Hsize.
  pose proof (write_ref_frame results r'.1 self3) as (_ & Hn4 & Hp4 & _).
  cbn [fst snd] in *.
  destruct (write_ref results r'.1 self3) as [results' self4].
  first_step Hrun m Hm. injection Hrun as _ <-. cbn [fst snd] in *.
  apply InitializeForwardPassMemory_frame in Hmem as (_ & Hn3 & Hp3 & _).
  pose proof (ensure_dimensions_frame _ _ _ Hdims) as (_ & _ & Hp2 & _).
  apply ensure_dimensions_layers in Hdims.
  split; [|by rewrite Hp4, Hp3, Hp2].
  rewrite Hn4, Hn3. eapply Forall2_map_eq; [|exact Hdims]. by intros a b (_ & _ & ?).
Qed.

(** The steps of a forward pass that returns. *)
Lemma Forward_range_steps (inputs : Mat) (results r : MatRef) (begin end_ : Z) s s' :
  begin ≤ end_ →
  Forward_range inputs results begin end_ s = Return (r, s') →
  ∃ s1 self2 s3 l out r' m,
    ensure_weights s = Return s1 ∧
    ensure_dimensions inputs s1.1 = Return self2 ∧
    InitializeForwardPassMemory (n_cols inputs) (self2, s1.2) = Return s3 ∧
    index (network s3.1) end_ = Return l ∧
    read_ref results s3.1 = Return out ∧
    Mat_set_size (SizeT.mul (n_cols inputs) (OutputSize l)) out s3.2 = Return r' ∧
    run_layers inputs r'.1 begin end_ (write_ref results r'.1 s3.1).2 (store r'.2)
    = Return m ∧
    r = (write_ref results r'.1 s3.1).1 ∧
    s' = ((write_ref results r'.1 s3.1).2, mkWorld (next_block r'.2) m).
Proof.
  unfold Forward_range. intros Hle Hrun.
  destruct (Z.ltb_spec end_ begin) as [Hlt|_]; [lia|].
  destruct (ensure_weights s) as [s1| |] eqn:Hweights; [|done..].
  rewrite bind_Return in Hrun.
  destruct (ensure_dimensions inputs s1.1) as [self2| |] eqn:Hdims; [|done..].
  rewrite bind_Return in Hrun.
  destruct (InitializeForwardPassMemory _ _) as [s3| |] eqn:Hmem; [|done..].
  rewrite bind_Return in Hrun.
  destruct (index (network s3.1) end_) as [l| |] eqn:Hlast; [|done..].
  rewrite bind_Return in Hrun.
  destruct (read_ref results s3.1) as [out| |] eqn:Hread; [|done..].
  rewrite bind_Return in Hrun.
  destruct (Mat_set_size _ _ _) as [r'| |] eqn:Hsize; [|done..].
  rewrite bind_Return in Hrun.
  destruct (write_ref results r'.1 s3.1) as [results' self4] eqn:Hwrite.
  destruct (run_layers _ _ _ _ _ _) as [m| |] eqn:Hlayers; [|done..].
  rewrite bind_Return in Hrun. injection Hrun as <- <-.
  exists s1, self2, s3, l, out, r', m. rewrite Hwrite. done.
Qed.

(** [Forward(inputs, layerOutputs.back())], as [Evaluate] calls it. *)
Lemma Forward_into_last_output (inputs : Mat) (r : MatRef) s s' :
  Forward inputs layerOutputs_back s = Return (r, s') →
  kept_by_Forward s'.1 = kept_by_Forward s.1 ∧
  layer_modes s'.1 = (if is_empty (parameters s.1)
                      then map (λ _, true) (network s.1) else layer_modes s.1).
Proof.
  unfold Forward. intros Hrun.
  apply Forward_range_steps in Hrun
    as (s1 & self2 & [self3 w3] & l & out & r' & m
        & Hweights & Hdims & Hmem & _ & Hread & Hsize & _ & _ & ->);
    [|apply SizeTFacts.wrap_valid].
  apply ensure_weights_frame in Hweights as (Hk1 & Hm1 & _).
  apply ensure_dimensions_frame in Hdims as (Hk2 & Hm2 & _).
  apply InitializeForwardPassMemory_frame in Hmem as (Hk3 & Hn3 & _).
  cbn [fst snd write_ref read_ref] in *.
  split; [unfold kept_by_Forward in *; cbn; by rewrite Hk3, Hk2, Hk1|].
  unfold layer_modes in *. cbn. by rewrite Hn3, Hm2, Hm1.
Qed.

End ForwardFrame.

(** X14.  What a forward pass [Forward(inputs, results, begin, end)] leaves
    alone when it returns: the output layer, the initialization rule, the
    flag [reset], the dataset, the error, the network's mode, the delta and
    gradient arenas and views, and the kind of every layer.  With
    [end < begin] it changes nothing at all.  Otherwise both
    [layerMemoryIsSet] and [inputDimensionsAreSet] are set afterwards, the
    parameters are the same matrix unless they were empty, and the mode
    flags of the layers are as before unless the parameters were empty, in
    which case every layer has been put in deterministic mode. *)
Theorem Forward_range_frame
    {Kind Mem OutputLayerType InitializationRuleType : Type}
    {caps : Capabilities (Kind := Kind) (Mem := Mem)
              (OutputLayerType := OutputLayerType)
              (InitializationRuleType := InitializationRuleType)}
    (inputs : Mat) (results r : MatRef) (begin end_ : Z)
    (s s' : State (Kind := Kind) (Mem := Mem) (OutputLayerType := OutputLayerType)
                  (InitializationRuleType := InitializationRuleType)) :
  Forward_range inputs results begin end_ s = Return (r, s') →
  kept_by_Forward s'.1 = kept_by_Forward s.1 ∧
  (next_block s.2 ≤ next_block s'.2)%N ∧
  (end_ < begin → r = results ∧ s' = s) ∧
  (begin ≤ end_ →
     layerMemoryIsSet s'.1 = true ∧ inputDimensionsAreSet s'.1 = true ∧
     totalOutputSize s'.1 = total_output_size (network s'.1) ∧
     layer_modes s'.1 = (if is_empty (parameters s.1)
                         then map (λ _, true) (network s.1) else layer_modes s.1) ∧
     (is_empty (parameters s.1) = false → parameters s'.1 = parameters s.1)).
Proof.
  unfold Forward_range. destruct (Z.ltb_spec end_ begin) as [Hlt|Hle].
  - intros [= <- <-]. split; [done|]. split; [lia|]. split; [done|lia].
  - intros Hrun.
    destruct (ensure_weights s) as [s1| |] eqn:Hweights; [|done..].
    rewrite bind_Return in Hrun.
    destruct (ensure_dimensions inputs s1.1) as [self2| |] eqn:Hdims; [|done..].
    rewrite bind_Return in Hrun.
    destruct (InitializeForwardPassMemory _ _) as [[self3 w3]| |] eqn:Hmem; [|done..].
    rewrite bind_Return in Hrun. cbn [fst snd] in Hrun.
    destruct (index (network self3) end_) as [l| |]; [|done..].
    rewrite bind_Return in Hrun.
    destruct (read_ref results self3) as [out| |]; [|done..].
    rewrite bind_Return in Hrun.
    destruct (Mat_set_size _ _ _) as [r'| |] eqn:Hsize; [|done..].
    rewrite bind_Return in Hrun.
    pose proof (write_ref_frame results r'.1 self3) as Hwrite.
    destruct (write_ref results r'.1 self3) as [results' self4].
    destruct (run_layers _ _ _ _ _ _) as [m| |]; [|done..].
    rewrite bind_Return in Hrun. injection Hrun as <- <-. cbn [fst snd] in *.
    apply ensure_weights_frame in Hweights as (Hk1 & Hm1 & Hl1 & Hd1 & Hb1 & Hp1).
    apply ensure_dimensions_frame in Hdims as (Hk2 & Hm2 & Hp2 & Hl2 & Hd2).
    apply InitializeForwardPassMemory_frame in Hmem
      as (Hk3 & Hn3 & Hp3 & Hl3 & Hd3 & Ht3 & _ & Hb3).
    apply Mat_set_size_result in Hsize as (_ & _ & _ & Hb4).
    destruct Hwrite as (Hk4 & Hn4 & Hp4 & Hl4 & Hd4 & Ht4).
    split; [by rewrite Hk4, Hk3, Hk2, Hk1|]. split; [cbn; lia|]. split; [lia|].
    intros _. split; [by rewrite Hl4, Hl3, Hl2, Hl1|].
    split; [by rewrite Hd4, Hd3, Hd2|].
    split; [by rewrite Ht4, Ht3, Hn4, Hn3|].
    split.
    + unfold layer_modes in *. by rewrite Hn4, Hn3, Hm2, Hm1.
    + intros Hfull. by rewrite Hp4, Hp3, Hp2, Hp1.
Qed.

(** The first forward pass over the three layers, on a batch of 4. *)
Lemma Forward_range_frame_witness :
  ∃ r s',
    Forward_range (matrix 20 3 4) (caller_matrix empty_Mat) 0 2
      (three_layers, fresh_world) = Return (r, s') ∧
    kept_by_Forward s'.1 = kept_by_Forward three_layers.
Proof.
  eassert (Hrun : Forward_range (matrix 20 3 4) (caller_matrix empty_Mat) 0 2
                    (three_layers, fresh_world) = Return (_, _))
    by (vm_compute; reflexivity).
  eexists _, _. split; [exact Hrun|].
  exact (proj1 (Forward_range_frame _ _ _ _ _ _ _ Hrun)).
Defined.

Section Objective.

Context {Kind Mem OutputLayerType InitializationRuleType : Type}.
Context {caps : Capabilities (Kind := Kind) (Mem := Mem)
                  (OutputLayerType := OutputLayerType)
                  (InitializationRuleType := InitializationRuleType)}.

Abbreviation Layer := (Layer (Kind := Kind)).
Abbreviation FFN := (FFN (Kind := Kind) (OutputLayerType := OutputLayerType)
                     (InitializationRuleType := InitializationRuleType)).
Abbreviation State := (State (Kind := Kind) (Mem := Mem)
                         (OutputLayerType := OutputLayerType)
                         (InitializationRuleType := InitializationRuleType)).

Implicit Types (l : Layer) (layers : list Layer) (self : FFN) (s : State).

Lemma modes_all_true layers layers' :
  map layer_deterministic layers = map (λ _, true) layers' →
  Forall (λ l, layer_deterministic l = true) layers.
Proof.
  revert layers'. induction layers as [|l layers IH]; intros layers' Heq; [constructor|].
  destruct layers' as [|l' layers']; [done|]. cbn in Heq.
  injection Heq as Hl Hrest. constructor; [done|]. by eapply IH.
Qed.

Lemma all_true_same_length {A B : Type} (xs : list A) (ys : list B) :
  length xs = length ys → map (λ _, true) xs = map (λ _, true) ys.
Proof.
  revert ys. induction xs as [|x xs IH]; intros [|y ys] Hlen; try done.
  cbn. f_equal. apply IH. by injection Hlen.
Qed.

(** [Evaluate], up to the call of [Forward]: the state in which [Forward]
    is called. *)
Lemma Evaluate_steps (begin batchSize : Z) (det : bool) s (res : float) s' :
  Evaluate begin batchSize det s = Return (res, s') →
  let s0 := if is_empty (parameters s.1) then InitializeWeights s else s in
  let s1 := if bool_decide (det ≠ deterministic s0.1)
            then (ResetDeterministic (set_deterministic det s0.1), s0.2)
            else s0 in
  ∃ inputs r, Forward inputs layerOutputs_back s1 = Return (r, s').
Proof.
  unfold Evaluate. cbv zeta. intros Hrun.
  destruct (cols _ _ _) as [inputs| |]; [|done..]. rewrite bind_Return in Hrun.
  destruct (Forward inputs layerOutputs_back _) as [[r s2]| |] eqn:Hforward;
    [|done..].
  rewrite bind_Return in Hrun. cbn [fst snd] in Hrun.
  destruct (back _) as [out| |]; [|done..]. rewrite bind_Return in Hrun.
  destruct (cols _ _ _) as [targets| |]; [|done..]. rewrite bind_Return in Hrun.
  injection Hrun as _ <-. by exists inputs, r.
Qed.

Lemma Gradient_frame (input gradient : Mat) s s' :
  Gradient input gradient s = Return s' →
  set_layerGradients (layerGradients s.1) s'.1 = s.1.
Proof.
  unfold Gradient, InitializeGradientPassMemory. intros Hrun.
  destruct (alias_gradients _ _ _ _) as [views| |]; [|done..].
  rewrite !bind_Return in Hrun.
  first_step Hrun l Hl. first_step Hrun d Hd. first_step Hrun g Hg.
  first_step Hrun m Hm. first_step Hrun ln Hln. first_step Hrun o Ho.
  first_step Hrun gn Hgn.
  injection Hrun as <-. cbn. by destruct s.1.
Qed.

Lemma Backward_pass_steps s s' :
  Backward_pass s = Return s' →
  ∃ out s1,
    back (layerOutputs s.1) = Return out ∧
    InitializeBackwardPassMemory (n_cols out) s = Return s1 ∧
    s'.1 = s1.1.
Proof.
  unfold Backward_pass. intros Hrun.
  first_step Hrun out Hout. first_step Hrun s1 Hinit. cbv zeta in Hrun.
  first_step Hrun l Hl. first_step Hrun o Ho. first_step Hrun d Hd.
  first_step Hrun m Hm. injection Hrun as <-. by exists out, s1.
Qed.

(** [Evaluate] keeps what [Forward] keeps, but for the mode it is given. *)
Lemma Evaluate_kept (begin batchSize : Z) (det : bool) s (res : float) s' :
  Evaluate begin batchSize det s = Return (res, s') →
  kept_by_Forward s'.1 = kept_by_Forward (set_deterministic det s.1).
Proof.
  intros Hrun. apply Evaluate_steps in Hrun as (inputs & r & Hforward).
  cbv zeta in Hforward.
  apply Forward_into_last_output in Hforward as (Hkept & _).
  rewrite Hkept. clear Hkept.
  set (s0 := if is_empty (parameters s.1) then InitializeWeights s else s).
  assert (Hk0 : kept_by_Forward s0.1 = kept_by_Forward s.1).
  { subst s0. destruct (is_empty (parameters s.1)); [|done].
    by destruct (InitializeWeights_frame s) as (? & _). }
  unfold kept_by_Forward in *.
  injection Hk0 as Ho0 Hi0 Hr0 Hn0 Hx0 Hy0 Hf0 He0 Hd0 Hdm0 Hld0 Hgm0 Hlg0.
  case_bool_decide as Hchange.
  - unfold ResetDeterministic.
    cbn [fst snd network set_network set_deterministic deterministic predictors
         responses error outputLayer initializeRule reset numFunctions deltaMatrix
         layerDeltas gradientMatrix layerGradients].
    rewrite map_map. cbn [kind set_Deterministic].
    change (map (λ x : Layer, kind x) (network s0.1)) with (map kind (network s0.1)).
    by rewrite Ho0, Hi0, Hr0, Hn0, Hx0, Hy0, Hf0, He0, Hdm0, Hld0, Hgm0, Hlg0.
  - cbn [deterministic set_deterministic predictors
         responses error outputLayer initializeRule reset numFunctions deltaMatrix
         layerDeltas gradientMatrix layerGradients network].
    by rewrite Ho0, Hi0, Hr0, Hn0, Hx0, Hy0, Hf0, He0, Hdm0, Hld0, Hgm0, Hlg0, Hchange.
Qed.

Lemma alias_gradients_not_Throw base start layers (views : list Mat) e :
  alias_gradients base start layers views ≠ Throw e.
Proof.
  revert start layers. induction views as [|v views IH]; intros start layers; [done|].
  destruct layers as [|l layers]; [done|]. cbn [alias_gradients].
  specialize (IH (SizeT.add start (WeightSize l)) layers).
  by destruct (alias_gradients _ _ layers views).
Qed.

Lemma Gradient_short (input gradient : Mat) s :
  (length (layerDeltas s.1) < 2)%nat → Gradient input gradient s = Undefined.
Proof.
  intros Hlen. unfold Gradient, InitializeGradientPassMemory.
  pose proof (alias_gradients_not_Throw (memptr gradient) 0 (network s.1)
                (layerGradients s.1)) as Hviews.
  destruct (alias_gradients _ _ _ _) as [views|e|]; [|by destruct (Hviews e)|done].
  rewrite !bind_Return. cbn [network layerDeltas set_layerGradients].
  destruct (front (network s.1)) as [l| |] eqn:Hfront; [|by destruct (network s.1)|done].
  rewrite bind_Return.
  assert (Hd : index (layerDeltas s.1) 1 = Undefined).
  { unfold index. change (Z.to_nat 1) with 1%nat. cbn [Z.ltb Z.compare].
    by rewrite lookup_ge_None_2 by lia. }
  by rewrite Hd.
Qed.

End Objective.

(** X15.  When [Evaluate(parameters, begin, batchSize, deterministic)]
    returns, the network's mode is the requested one and the dataset, the
    error and the kinds of the layers are as before.  No layer is ever put
    in training mode: if the mode had to change, or the parameters were
    empty, every layer is in deterministic mode afterwards, also when
    training mode was requested; otherwise the layers keep the mode flags
    they had. *)
Theorem Evaluate_modes
    {Kind Mem OutputLayerType InitializationRuleType : Type}
    {caps : Capabilities (Kind := Kind) (Mem := Mem)
              (OutputLayerType := OutputLayerType)
              (InitializationRuleType := InitializationRuleType)}
    (begin batchSize : Z) (det : bool) (res : float)
    (s s' : State (Kind := Kind) (Mem := Mem) (OutputLayerType := OutputLayerType)
                  (InitializationRuleType := InitializationRuleType)) :
  Evaluate begin batchSize det s = Return (res, s') →
  deterministic s'.1 = det ∧
  predictors s'.1 = predictors s.1 ∧ responses s'.1 = responses s.1 ∧
  error s'.1 = error s.1 ∧ map kind (network s'.1) = map kind (network s.1) ∧
  (is_empty (parameters s.1) = true ∨ det ≠ deterministic s.1 →
     Forall (λ l, layer_deterministic l = true) (network s'.1)) ∧
  (is_empty (parameters s.1) = false → det = deterministic s.1 →
     layer_modes s'.1 = layer_modes s.1).
Proof.
  intros Hrun. apply Evaluate_steps in Hrun as (inputs & r & Hforward).
  cbv zeta in Hforward.
  apply Forward_into_last_output in Hforward as (Hkept & Hmodes).
  set (s0 := if is_empty (parameters s.1) then InitializeWeights s else s) in *.
  assert (Hs0 : kept_by_Forward s0.1 = kept_by_Forward s.1 ∧
                layer_modes s0.1 = (if is_empty (parameters s.1)
                                    then map (λ _, true) (network s.1)
                                    else layer_modes s.1) ∧
                (is_empty (parameters s.1) = false
                 → parameters s0.1 = parameters s.1)).
  { subst s0. destruct (is_empty (parameters s.1)); [|done].
    destruct (InitializeWeights_frame s) as (? & ? & _). done. }
  destruct Hs0 as (Hk0 & Hm0 & Hp0).
  assert (Hdet0 : deterministic s0.1 = deterministic s.1).
  { unfold kept_by_Forward in Hk0. by simplify_eq. }
  rewrite Hdet0 in Hkept, Hmodes.
  set (s1 := if bool_decide (det ≠ deterministic s.1)
             then (ResetDeterministic (set_deterministic det s0.1), s0.2)
             else s0) in *.
  assert (Hs1 : deterministic s1.1 = det ∧
                predictors s1.1 = predictors s0.1 ∧ responses s1.1 = responses s0.1 ∧
                error s1.1 = error s0.1 ∧
                map kind (network s1.1) = map kind (network s0.1) ∧
                parameters s1.1 = parameters s0.1 ∧
                layer_modes s1.1 = (if bool_decide (det ≠ deterministic s.1)
                                    then map (λ _, true) (network s0.1)
                                    else layer_modes s0.1)).
  { subst s1. destruct (bool_decide_reflect (det ≠ deterministic s.1)) as [Hchange|Hchange].
    - unfold layer_modes, ResetDeterministic.
      cbn [fst snd network set_network set_deterministic deterministic predictors
           responses error parameters].
      rewrite !map_map. done.
    - apply dec_stable in Hchange. by rewrite Hdet0. }
  destruct Hs1 as (Hd1 & Hx1 & Hy1 & He1 & Hn1 & Hp1 & Hm1).
  assert (Hlen0 : length (network s0.1) = length (network s.1)).
  { unfold kept_by_Forward in Hk0. simplify_eq.
    rewrite <- (length_map kind (network s0.1)), <- (length_map kind (network s.1)).
    by f_equal. }
  assert (Hlen1 : length (network s1.1) = length (network s0.1)).
  { rewrite <- (length_map kind (network s1.1)), <- (length_map kind (network s0.1)).
    by f_equal. }
  unfold kept_by_Forward in Hkept, Hk0.
  injection Hkept as Ho Hi Hr Hn Hx Hy Hf He Hd Hdm Hld Hgm Hlg.
  injection Hk0 as Ho0 Hi0 Hr0 Hn0 Hx0 Hy0 Hf0 He0 Hd0 Hdm0 Hld0 Hgm0 Hlg0.
  split; [by rewrite Hd|]. split; [by rewrite Hx, Hx1|].
  split; [by rewrite Hy, Hy1|]. split; [by rewrite He, He1|].
  split; [by rewrite Hn, Hn1|]. split.
  - intros Hcase. rewrite Hm1, Hp1 in Hmodes.
    destruct (is_empty (parameters s0.1)) eqn:Hempty0;
      [by eapply modes_all_true|].
    case_bool_decide as Hchange; [by eapply modes_all_true|].
    rewrite Hm0 in Hmodes.
    destruct (is_empty (parameters s.1)) eqn:Hempty; [by eapply modes_all_true|].
    by destruct Hcase.
  - intros Hempty Hsame. rewrite Hm1, Hp1, (Hp0 Hempty), Hempty in Hmodes.
    rewrite bool_decide_eq_false_2 in Hmodes by (intros Hne; by apply Hne).
    by rewrite Hmodes, Hm0, Hempty.
Qed.

(** The three layers with their dataset of 4 samples, left in deterministic
    mode by a prediction and then evaluated in training mode on the first
    sample. *)
Lemma Evaluate_modes_witness :
  ∃ res s',
    Evaluate 0 1 false (set_deterministic true with_dataset.1, with_dataset.2)
    = Return (res, s') ∧
    deterministic s'.1 = false ∧
    Forall (λ l, layer_deterministic l = true) (network s'.1).
Proof.
  eassert (Hrun : Evaluate 0 1 false
                    (set_deterministic true with_dataset.1, with_dataset.2)
                  = Return (_, _))
    by (vm_compute; reflexivity).
  destruct (Evaluate_modes _ _ _ _ _ _ Hrun) as (Hdet & _ & _ & _ & _ & Hall & _).
  eexists _, _. split; [exact Hrun|]. split; [exact Hdet|].
  apply Hall. right. discriminate.
Defined.

(** X17.  Training needs at least two layers.  [Gradient(input, gradient)]
    reads [layerDeltas[1]] for the first layer, so on a network with fewer
    than two delta views (fewer than two layers, with one view per layer) it
    reads past the end of the vector: the behaviour is undefined, whatever
    the other members hold.  [EvaluateWithGradient], which ends with that
    call, has then no way to return. *)
Theorem Gradient_needs_two_layers
    {Kind Mem OutputLayerType InitializationRuleType : Type}
    {caps : Capabilities (Kind := Kind) (Mem := Mem)
              (OutputLayerType := OutputLayerType)
              (InitializationRuleType := InitializationRuleType)}
    (input gradient : Mat) (begin batchSize : Z)
    (s : State (Kind := Kind) (Mem := Mem) (OutputLayerType := OutputLayerType)
               (InitializationRuleType := InitializationRuleType)) :
  (length (layerDeltas s.1) < 2)%nat →
  Gradient input gradient s = Undefined ∧
  ∀ res s', EvaluateWithGradient begin gradient batchSize s ≠ Return (res, s').
Proof.
  intros Hlen. split; [by apply Gradient_short|].
  intros res s' Hrun. unfold EvaluateWithGradient in Hrun.
  first_step Hrun r Hevaluate. cbv zeta in Hrun.
  first_step Hrun out Hout. first_step Hrun targets Htargets.
  destruct (outputLayer_Backward _ _ _ _ _) as [error' w].
  first_step Hrun s2 Hbackward. first_step Hrun inputs Hinputs.
  destruct r as [res0 s1]. cbn [fst snd] in *.
  apply Evaluate_kept in Hevaluate. unfold kept_by_Forward in Hevaluate.
  injection Hevaluate as _ _ _ _ _ _ _ _ _ _ Hdeltas _ _.
  cbn [layerDeltas set_deterministic] in Hdeltas.
  apply Backward_pass_steps in Hbackward as (out' & [selfB wB] & _ & Hinit & HsB).
  apply InitializeBackwardPassMemory_frame in Hinit as (_ & _ & HlenB & _).
  cbn [fst snd layerDeltas set_error] in HlenB, HsB.
  rewrite Gradient_short in Hrun; [done|].
  rewrite HsB, HlenB, Hdeltas. exact Hlen.
Qed.

(** A network of a single layer. *)
Lemma Gradient_needs_two_layers_witness :
  Gradient (matrix 20 3 1) gradient_buffer
    (fresh_network [simple_layer 6 2 0] [3], fresh_world) = Undefined.
Proof.
  apply (Gradient_needs_two_layers (matrix 20 3 1) gradient_buffer 0 1
           (fresh_network [simple_layer 6 2 0] [3], fresh_world)).
  cbn. lia.
Defined.

(** X18.  A network without layers cannot be run: [Forward] reads
    [network.front()] of the empty vector, so neither [Forward] nor
    [Evaluate] nor [Backward()] returns, whatever the input and the other
    members are.  ([Forward] computes its last layer as
    [network.size() - 1], which wraps around to [SIZE_MAX].) *)
Theorem Forward_empty_network
    {Kind Mem OutputLayerType InitializationRuleType : Type}
    {caps : Capabilities (Kind := Kind) (Mem := Mem)
              (OutputLayerType := OutputLayerType)
              (InitializationRuleType := InitializationRuleType)}
    (inputs : Mat) (results : MatRef) (begin batchSize : Z) (det : bool)
    (s : State (Kind := Kind) (Mem := Mem) (OutputLayerType := OutputLayerType)
               (InitializationRuleType := InitializationRuleType)) :
  network s.1 = [] →
  SizeT.sub (Z.of_nat (length (network s.1))) 1 = SizeT.SIZE_MAX ∧
  (∀ r s', Forward inputs results s ≠ Return (r, s')) ∧
  (∀ res s', Evaluate begin batchSize det s ≠ Return (res, s')) ∧
  (∀ s', Backward_pass s ≠ Return s').
Proof.
  intros Hempty.
  assert (Hforward : ∀ inputs results (s0 : State (Kind := Kind) (Mem := Mem)) r s',
            map kind (network s0.1) = [] →
            Forward inputs results s0 ≠ Return (r, s')).
  { intros inputs0 results0 s0 r s' Hnone Hrun. unfold Forward in Hrun.
    apply Forward_range_steps in Hrun
      as (s1 & self2 & _ & _ & _ & _ & _ & Hweights & Hdims & _);
      [|apply SizeTFacts.wrap_valid].
    apply ensure_weights_frame in Hweights as (Hkept & _).
    unfold kept_by_Forward in Hkept. injection Hkept as _ _ _ Hkinds _ _ _ _ _ _ _ _ _.
    rewrite Hnone in Hkinds. apply map_eq_nil in Hkinds.
    unfold ensure_dimensions in Hdims. by rewrite Hkinds in Hdims. }
  split; [by rewrite Hempty|]. split; [|split].
  - intros r s'. apply Hforward. by rewrite Hempty.
  - intros res s' Hrun. apply Evaluate_steps in Hrun as (inputs0 & r & Hrun).
    cbv zeta in Hrun. apply Hforward in Hrun; [done|].
    assert (Hs0 : map kind (network (if is_empty (parameters s.1)
                                     then InitializeWeights s else s).1) = []).
    { destruct (is_empty (parameters s.1)); [|by rewrite Hempty].
      destruct (InitializeWeights_frame s) as (Hkept & _).
      unfold kept_by_Forward in Hkept.
      injection Hkept as _ _ _ Hkinds _ _ _ _ _ _ _ _ _. by rewrite Hkinds, Hempty. }
    case_bool_decide; [|exact Hs0].
    unfold ResetDeterministic. cbn [fst network set_network set_deterministic].
    rewrite map_map. exact Hs0.
  - intros s' Hrun. unfold Backward_pass in Hrun.
    first_step Hrun out Hout. first_step Hrun s1 Hinit. cbv zeta in Hrun.
    destruct s as [self w], s1 as [self1 w1].
    apply InitializeBackwardPassMemory_frame in Hinit as (Hframe & _).
    pose proof (f_equal network Hframe) as Hnet. cbn in Hnet, Hempty.
    cbn [fst] in Hrun. by rewrite Hnet, Hempty in Hrun.
Qed.

(** A network without layers, given an input of 3 rows. *)
Lemma Forward_empty_network_witness :
  is_Return (Forward (matrix 20 3 1) (caller_matrix empty_Mat)
               (fresh_network [] [3], fresh_world)) = false.
Proof.
  pose proof (proj1 (proj2 (Forward_empty_network (matrix 20 3 1)
                              (caller_matrix empty_Mat) 0 1 false
                              (fresh_network [] [3], fresh_world) eq_refl)))
    as Hnever.
  destruct (Forward (matrix 20 3 1) (caller_matrix empty_Mat)
              (fresh_network [] [3], fresh_world)) as [[r s']| |];
    [by destruct (Hnever r s')|done|done].
Defined.

(** X19.  Loading leaves [layerMemoryIsSet], [inputDimensionsAreSet], the
    two cached totals and [error] as the object loaded into had them.  So
    when that object had [layerMemoryIsSet] set and the archive holds
    parameters, a forward pass on the loaded network does not run
    [SetLayerMemory]: it returns with the loaded parameters and with every
    loaded layer still holding the weight pointer it came with. *)
Theorem serialize_loading_keeps_flags
    {Kind Mem OutputLayerType InitializationRuleType : Type}
    {caps : Capabilities (Kind := Kind) (Mem := Mem)
              (OutputLayerType := OutputLayerType)
              (InitializationRuleType := InitializationRuleType)}
    (a : Archived (Kind := Kind) (OutputLayerType := OutputLayerType)
           (InitializationRuleType := InitializationRuleType))
    (self : FFN (Kind := Kind) (OutputLayerType := OutputLayerType)
                (InitializationRuleType := InitializationRuleType)) :
  let loaded := (serialize (loading a) self).2 in
  layerMemoryIsSet loaded = layerMemoryIsSet self ∧
  inputDimensionsAreSet loaded = inputDimensionsAreSet self ∧
  totalInputSize loaded = totalInputSize self ∧
  totalOutputSize loaded = totalOutputSize self ∧
  error loaded = error self ∧
  (layerMemoryIsSet self = true → is_empty (ar_parameters a) = false →
   ∀ (inputs : Mat) (results r : MatRef) (w : World (Mem := Mem)) s',
     Forward inputs results (loaded, w) = Return (r, s') →
     parameters s'.1 = ar_parameters a ∧
     map layer_weights (network s'.1) = map layer_weights (ar_network a)).
Proof.
  intros loaded. repeat (split; [reflexivity|]).
  intros Hset Hfull inputs results r w s' Hrun. unfold Forward in Hrun.
  apply Forward_range_weights in Hrun as [Hweights Hparameters]; [|exact Hset|exact Hfull].
  split; [exact Hparameters|exact Hweights].
Qed.

(** X20.  [Swap] exchanges the two networks but for [totalInputSize],
    [layerMemoryIsSet] and [inputDimensionsAreSet], which stay where they
    were; swapping twice restores both.  So when a network whose
    [layerMemoryIsSet] is set takes the layers and the parameters of
    another, a forward pass on it leaves every layer the weight pointer it
    had in the other network, whether or not that one had assigned its
    views. *)
Theorem Swap_keeps_flags
    {Kind Mem OutputLayerType InitializationRuleType : Type}
    {caps : Capabilities (Kind := Kind) (Mem := Mem)
              (OutputLayerType := OutputLayerType)
              (InitializationRuleType := InitializationRuleType)}
    (self other : FFN (Kind := Kind) (OutputLayerType := OutputLayerType)
                      (InitializationRuleType := InitializationRuleType)) :
  let swapped := Swap self other in
  Swap swapped.1 swapped.2 = (self, other) ∧
  kept_by_Forward swapped.1 = kept_by_Forward other ∧
  kept_by_Forward swapped.2 = kept_by_Forward self ∧
  (network swapped.1 = network other ∧ parameters swapped.1 = parameters other) ∧
  (layerMemoryIsSet swapped.1 = layerMemoryIsSet self ∧
   inputDimensionsAreSet swapped.1 = inputDimensionsAreSet self ∧
   totalInputSize swapped.1 = totalInputSize self) ∧
  (layerMemoryIsSet self = true → is_empty (parameters other) = false →
   ∀ (inputs : Mat) (results r : MatRef) (w : World (Mem := Mem)) s',
     Forward inputs results (assign self other, w) = Return (r, s') →
     map layer_weights (network s'.1) = map layer_weights (network other)).
Proof.
  intros swapped. split; [by destruct self, other|].
  split; [reflexivity|]. split; [reflexivity|]. split; [by split|].
  split; [by repeat split|].
  intros Hset Hfull inputs results r w s' Hrun. unfold Forward in Hrun.
  apply Forward_range_weights in Hrun as [Hweights _]; [|exact Hset|exact Hfull].
  exact Hweights.
Qed.

Section Prediction.

Context {Kind Mem OutputLayerType InitializationRuleType : Type}.
Context {caps : Capabilities (Kind := Kind) (Mem := Mem)
                  (OutputLayerType := OutputLayerType)
                  (InitializationRuleType := InitializationRuleType)}.

Abbreviation Layer := (Layer (Kind := Kind)).
Abbreviation FFN := (FFN (Kind := Kind) (OutputLayerType := OutputLayerType)
                     (InitializationRuleType := InitializationRuleType)).
Abbreviation State := (State (Kind := Kind) (Mem := Mem)
                         (OutputLayerType := OutputLayerType)
                         (InitializationRuleType := InitializationRuleType)).

Implicit Types (l : Layer) (layers : list Layer) (self : FFN) (s : State).

(** A property that every iteration preserves holds when the loop returns. *)
Lemma for_loop_invariant {M : Type} (P : M → Prop) (body : Z → M → outcome M)
    (count : nat) (i : Z) (m m' : M) :
  (∀ i m m', P m → body i m = Return m' → P m') →
  P m → for_loop count i body m = Return m' → P m'.
Proof.
  intros Hbody. revert i m. induction count as [|count IH]; intros i m Hm Hrun.
  - cbn in Hrun. by simplify_eq.
  - cbn [for_loop] in Hrun. first_step Hrun m1 Hm1.
    eapply IH; [|exact Hrun]. by eapply Hbody.
Qed.

Lemma Forward_kept (inputs : Mat) (results r : MatRef) s s' :
  Forward inputs results s = Return (r, s') →
  kept_by_Forward s'.1 = kept_by_Forward s.1 ∧
  layer_modes s'.1 = (if is_empty (parameters s.1)
                      then map (λ _, true) (network s.1) else layer_modes s.1) ∧
  (is_empty (parameters s.1) = false → parameters s'.1 = parameters s.1).
Proof.
  unfold Forward. intros Hrun.
  apply Forward_range_steps in Hrun
    as (s1 & self2 & [self3 w3] & l & out & r' & m
        & Hweights & Hdims & Hmem & _ & _ & _ & _ & _ & ->);
    [|apply SizeTFacts.wrap_valid].
  apply ensure_weights_frame in Hweights as (Hk1 & Hm1 & _ & _ & _ & Hp1).
  apply ensure_dimensions_frame in Hdims as (Hk2 & Hm2 & Hp2 & _).
  apply InitializeForwardPassMemory_frame in Hmem as (Hk3 & Hn3 & Hp3 & _).
  destruct (write_ref_frame results r'.1 self3) as (Hk4 & Hn4 & Hp4 & _).
  cbn [fst snd] in *.
  split; [by rewrite Hk4, Hk3, Hk2, Hk1|]. split.
  - unfold layer_modes in *. by rewrite Hn4, Hn3, Hm2, Hm1.
  - intros Hfull. by rewrite Hp4, Hp3, Hp2, Hp1.
Qed.

(** The last call of the layer loop writes [results]. *)
Lemma run_layers_last (inputs results : Mat) (begin end_ : Z) self (m m' : Mem) :
  run_layers inputs results begin end_ self m = Return m' →
  ∃ l input m0,
    index (network self) end_ = Return l ∧ m' = layer_Forward l input results m0.
Proof.
  unfold run_layers. intros Hrun. destruct (begin <? end_).
  - first_step Hrun lb Hlb. first_step Hrun out Hout.
    first_step Hrun m1 Hloop. first_step Hrun l Hl. first_step Hrun a Ha.
    injection Hrun as <-. by exists l, a, m1.
  - first_step Hrun l Hl. injection Hrun as <-. by exists l, inputs, m.
Qed.

End Prediction.

(** X21.  When [Predict(predictors, results)] returns, [results] has one
    column per column of the predictors and as many rows as the last layer's
    [OutputSize()] was on entry, and the network is in deterministic mode.
    It leaves alone what a forward pass leaves alone, the mode apart.  If
    the network was in training mode, or had no parameters yet, every layer
    is in deterministic mode afterwards; otherwise the layers keep their
    mode flags. *)
Theorem Predict_outcome
    {Kind Mem OutputLayerType InitializationRuleType : Type}
    {caps : Capabilities (Kind := Kind) (Mem := Mem)
              (OutputLayerType := OutputLayerType)
              (InitializationRuleType := InitializationRuleType)}
    (predictors' results out : Mat)
    (s s' : State (Kind := Kind) (Mem := Mem) (OutputLayerType := OutputLayerType)
                  (InitializationRuleType := InitializationRuleType)) :
  Predict predictors' results s = Return (out, s') →
  (∃ l, last (network s.1) = Some l ∧ n_rows out = OutputSize l) ∧
  n_cols out = n_cols predictors' ∧
  deterministic s'.1 = true ∧
  kept_by_Forward s'.1 = kept_by_Forward (set_deterministic true s.1) ∧
  (is_empty (parameters s.1) = true ∨ deterministic s.1 = false →
     Forall (λ l, layer_deterministic l = true) (network s'.1)) ∧
  (is_empty (parameters s.1) = false → deterministic s.1 = true →
     layer_modes s'.1 = layer_modes s.1).
Proof.
  unfold Predict. cbv zeta.
  set (s0 := if is_empty (parameters s.1) then InitializeWeights s else s).
  set (s1 := if negb (deterministic s0.1)
             then (ResetDeterministic (set_deterministic true s0.1), s0.2)
             else s0).
  intros Hrun.
  first_step Hrun l1 Hlast. first_step Hrun r Hsize. first_step Hrun s2 Hloop.
  injection Hrun as <- <-.
  assert (Hs0 : kept_by_Forward s0.1 = kept_by_Forward s.1 ∧
                layer_modes s0.1 = (if is_empty (parameters s.1)
                                    then map (λ _, true) (network s.1)
                                    else layer_modes s.1) ∧
                (is_empty (parameters s.1) = false → s0 = s) ∧
                (last (network s0.1) =
                 if is_empty (parameters s.1)
                 then set_Deterministic true <$> last (network s.1)
                 else last (network s.1))).
  { subst s0. destruct (is_empty (parameters s.1)); [|done].
    destruct (InitializeWeights_frame s) as (? & ? & _).
    destruct (InitializeWeights_layers s) as [Hnet _].
    rewrite Hnet. change (map (set_Deterministic true) (network s.1))
      with (set_Deterministic true <$> network s.1). by rewrite fmap_last. }
  destruct Hs0 as (Hk0 & Hm0 & Hsame0 & Hlast0).
  assert (Hdet0 : deterministic s0.1 = deterministic s.1).
  { unfold kept_by_Forward in Hk0. by simplify_eq. }
  assert (Hs1 : kept_by_Forward s1.1 = kept_by_Forward (set_deterministic true s.1) ∧
                deterministic s1.1 = true ∧
                layer_modes s1.1 = (if negb (deterministic s.1)
                                    then map (λ _, true) (network s0.1)
                                    else layer_modes s0.1) ∧
                parameters s1.1 = parameters s0.1 ∧
                (∃ l, last (network s.1) = Some l ∧ OutputSize l1 = OutputSize l)).
  { unfold back in Hlast. subst s1. rewrite Hdet0 in *.
    unfold kept_by_Forward in Hk0 |- *.
    injection Hk0 as Ho0 Hi0 Hr0 Hn0 Hx0 Hy0 Hf0 He0 Hd0 Hdm0 Hld0 Hgm0 Hlg0.
    destruct (deterministic s.1) eqn:Hdet; cbn [negb] in *.
    - rewrite Hlast0 in Hlast.
      split; [cbn; by rewrite Ho0, Hi0, Hr0, Hn0, Hx0, Hy0, Hf0, He0, Hdm0, Hld0,
                              Hgm0, Hlg0, Hdet0|].
      split; [done|]. split; [done|]. split; [done|].
      destruct (is_empty (parameters s.1)), (last (network s.1)) as [l0|];
        cbn in Hlast; try done; simplify_eq; by eexists.
    - unfold ResetDeterministic, layer_modes in *.
      cbn [fst snd network set_network set_deterministic deterministic predictors
           responses error outputLayer initializeRule reset numFunctions
           deltaMatrix layerDeltas gradientMatrix layerGradients parameters]
        in Hlast |- *.
      rewrite !map_map. cbn [kind set_Deterministic layer_deterministic].
      change (map (λ x : Layer, kind x) (network s0.1)) with (map kind (network s0.1)).
      split; [by rewrite Ho0, Hi0, Hr0, Hn0, Hx0, Hy0, Hf0, He0, Hdm0, Hld0,
                         Hgm0, Hlg0|].
      split; [done|]. split; [done|]. split; [done|].
      change (map (set_Deterministic true) (network s0.1))
        with (set_Deterministic true <$> network s0.1) in Hlast.
      rewrite fmap_last, Hlast0 in Hlast.
      destruct (is_empty (parameters s.1)), (last (network s.1)) as [l0|];
        cbn in Hlast; try done; simplify_eq; by eexists. }
  destruct Hs1 as (Hk1 & Hd1 & Hm1 & Hp1 & l & Hl & Hrows).
  assert (Hshape : n_rows r.1 = OutputSize l1 ∧ n_cols r.1 = n_cols predictors').
  { unfold Mat_set_size_2 in Hsize. destruct (n_elem results =? _).
    - by injection Hsize as <-.
    - destruct (strict_alias results); [done|]. by injection Hsize as <-. }
  destruct Hshape as [Hr Hc].
  pose (P := λ st : State (Kind := Kind) (Mem := Mem),
          kept_by_Forward st.1 = kept_by_Forward s1.1 ∧
          (Forall (λ l, layer_deterministic l = true) (network s1.1) →
           Forall (λ l, layer_deterministic l = true) (network st.1)) ∧
          (is_empty (parameters s1.1) = false →
           parameters st.1 = parameters s1.1 ∧ layer_modes st.1 = layer_modes s1.1)).
  assert (HP : P s2).
  { unfold for_range in Hloop.
    eapply (for_loop_invariant P _ _ _ (s1.1, r.2)); [|by repeat split|exact Hloop].
    intros i st st' (Hkept & Hall & Hfull) Hbody.
    first_step Hbody rr Hforward. injection Hbody as <-. destruct rr as [ref st2].
    apply Forward_kept in Hforward as (Hk & Hm & Hp). cbn [fst snd] in *.
    split; [by rewrite Hk|]. split.
    - intros Htrue. specialize (Hall Htrue).
      destruct (is_empty (parameters st.1)); [by eapply modes_all_true|].
      unfold layer_modes in Hm. clear -Hm Hall.
      revert Hm Hall. generalize (network st.1). generalize (network st2.1).
      induction l as [|a l IH]; intros [|b l0] Hm Hall; try done.
      cbn in Hm. injection Hm as Hab Hrest. apply Forall_cons in Hall as [Hb Hall].
      constructor; [by rewrite Hab|by eapply IH].
    - intros Hne. destruct (Hfull Hne) as [Hpar Hmod].
      rewrite <- Hpar in Hne. rewrite Hne in Hm.
      split; [by rewrite (Hp Hne)|by rewrite Hm]. }
  destruct HP as (Hk2 & Hall2 & Hfull2).
  split; [exists l; split; [exact Hl|by rewrite Hr]|]. split; [exact Hc|].
  split.
  { rewrite <- Hd1. unfold kept_by_Forward in Hk2.
    by injection Hk2 as _ _ _ _ _ _ _ _ ? _ _ _ _. }
  split; [by rewrite Hk2|]. split.
  - intros Hcase. apply Hall2. unfold layer_modes in Hm1, Hm0.
    destruct (deterministic s.1) eqn:Hdet; cbn [negb] in Hm1;
      [|by eapply modes_all_true].
    destruct Hcase as [Hempty|]; [|done]. rewrite Hempty in Hm0.
    rewrite Hm0 in Hm1. by eapply modes_all_true.
  - intros Hne Hdet. rewrite Hdet in Hm1. cbn [negb] in Hm1.
    rewrite Hne in Hm0. rewrite Hp1, (Hsame0 Hne) in Hfull2.
    destruct (Hfull2 Hne) as [_ Hmod]. by rewrite Hmod, Hm1, Hm0.
Qed.

(** A prediction for 4 samples with the three layers, whose last layer has
    one output. *)
Lemma Predict_outcome_witness :
  ∃ out s',
    Predict (matrix 20 3 4) empty_Mat (three_layers, fresh_world) = Return (out, s') ∧
    n_cols out = 4 ∧ deterministic s'.1 = true.
Proof.
  eassert (Hrun : Predict (matrix 20 3 4) empty_Mat (three_layers, fresh_world)
                  = Return (_, _))
    by (vm_compute; reflexivity).
  destruct (Predict_outcome _ _ _ _ _ Hrun) as (_ & Hcols & Hdet & _).
  eexists _, _. split; [exact Hrun|]. split; [exact Hcols|exact Hdet].
Defined.

(** X22.  [Forward(inputs, results)] resizes [results] with the
    one-argument [set_size] before the layers run (line 350): the matrix
    that the last layer is handed as its output (lines 362 and 366) is a
    single column of [inputs.n_cols * OutputSize()] elements of that layer
    (its output size once the input dimensions have been passed through the
    network), not a matrix with one column per sample; a matrix that already
    has that many elements keeps its memory.  The shape of the result beyond
    that is the last layer's doing. *)
Theorem Forward_hands_last_layer_a_column
    {Kind Mem OutputLayerType InitializationRuleType : Type}
    {caps : Capabilities (Kind := Kind) (Mem := Mem)
              (OutputLayerType := OutputLayerType)
              (InitializationRuleType := InitializationRuleType)}
    (inputs results : Mat) (r : MatRef)
    (s s' : State (Kind := Kind) (Mem := Mem) (OutputLayerType := OutputLayerType)
                  (InitializationRuleType := InitializationRuleType)) :
  Z.of_nat (length (network s.1)) < SizeT.modulus →
  Forward inputs (caller_matrix results) s = Return (r, s') →
  ∃ out l input m,
    last (network s'.1) = Some l ∧
    store s'.2 = layer_Forward l input out m ∧
    n_rows out = SizeT.mul (n_cols inputs) (OutputSize l) ∧ n_cols out = 1 ∧
    (n_elem results = SizeT.mul (SizeT.mul (n_cols inputs) (OutputSize l)) 1 →
     memptr out = memptr results).
Proof.
  intros Hmod Hrun. unfold Forward in Hrun.
  apply Forward_range_steps in Hrun
    as (s1 & self2 & [self3 w3] & l & out & r' & m
        & Hweights & Hdims & Hmem & Hl & Hread & Hsize & Hlayers & -> & ->);
    [|apply SizeTFacts.wrap_valid].
  cbn [fst snd write_ref read_ref] in *. injection Hread as <-.
  apply ensure_weights_frame in Hweights as (Hk1 & _).
  apply ensure_dimensions_frame in Hdims as (Hk2 & _).
  pose proof (InitializeForwardPassMemory_frame _ _ _ _ _ Hmem) as (Hk3 & Hn3 & _).
  assert (Hlen : length (network self3) = length (network s.1)).
  { rewrite <- (length_map kind (network self3)), <- (length_map kind (network s.1)).
    unfold kept_by_Forward in Hk1, Hk2, Hk3.
    injection Hk1 as _ _ _ Hkinds1 _ _ _ _ _ _ _ _ _.
    injection Hk2 as _ _ _ Hkinds2 _ _ _ _ _ _ _ _ _.
    injection Hk3 as _ _ _ Hkinds3 _ _ _ _ _ _ _ _ _.
    by rewrite Hkinds3, Hkinds2, Hkinds1. }
  assert (Hlast : last (network self3) = Some l).
  { unfold index in Hl. destruct (_ <? 0); [done|].
    destruct (network self3 !! _) as [l'|] eqn:Hlookup; [|done].
    injection Hl as ->. pose proof (lookup_lt_Some _ _ _ Hlookup) as Hlt.
    rewrite last_lookup, Hlen, <- Hlookup. f_equal.
    destruct (length (network s.1)) as [|n] eqn:Hn.
    - rewrite Hlen in Hlt. lia.
    - rewrite SizeTFacts.sub_exact by (unfold SizeT.valid; lia). lia. }
  destruct (run_layers_last _ _ _ _ _ _ _ Hlayers) as (l' & input & m0 & Hl' & Hm).
  rewrite Hl in Hl'. injection Hl' as <-.
  exists r'.1, l, input, m0. split; [exact Hlast|]. split; [exact Hm|].
  pose proof (Mat_set_size_result _ _ _ _ Hsize) as (Hrows & Hcols & _).
  split; [exact Hrows|]. split; [exact Hcols|].
  intros Hsame. unfold Mat_set_size in Hsize. rewrite Hsame, Z.eqb_refl in Hsize.
  by injection Hsize as <-.
Qed.

(** The three layers, on a batch of 4: the last layer is handed a column. *)
Lemma Forward_hands_last_layer_a_column_witness :
  ∃ r s' out l input m,
    Forward (matrix 20 3 4) (caller_matrix empty_Mat) (three_layers, fresh_world)
    = Return (r, s') ∧
    store s'.2 = layer_Forward l input out m ∧ n_cols out = 1.
Proof.
  eassert (Hrun : Forward (matrix 20 3 4) (caller_matrix empty_Mat)
                    (three_layers, fresh_world) = Return (_, _))
    by (vm_compute; reflexivity).
  assert (Hmod : Z.of_nat (length (network (three_layers, fresh_world).1))
                 < SizeT.modulus) by (by vm_compute).
  destruct (Forward_hands_last_layer_a_column (matrix 20 3 4) empty_Mat _
              (three_layers, fresh_world) _ Hmod Hrun)
    as (out & l & input & m & _ & Hstore & _ & Hcols & _).
  eexists _, _, out, l, input, m.
  split; [exact Hrun|]. split; [exact Hstore|exact Hcols].
Defined.

Section WeightViews.

Context {Kind Mem OutputLayerType InitializationRuleType : Type}.
Context {caps : Capabilities (Kind := Kind) (Mem := Mem)
                  (OutputLayerType := OutputLayerType)
                  (InitializationRuleType := InitializationRuleType)}.

Abbreviation FFN := (FFN (Kind := Kind) (OutputLayerType := OutputLayerType)
                     (InitializationRuleType := InitializationRuleType)).

(** [SetLayerMemory] returns only when the weight sizes add up to the
    parameters. *)
Lemma SetLayerMemory_Return_sum (self self' : FFN) :
  sizes_valid (network self) →
  sum_sizes (map WeightSize (network self)) < SizeT.modulus →
  SetLayerMemory self = Return self' →
  sum_sizes (map WeightSize (network self)) = n_elem (parameters self).
Proof.
  intros Hv Hmax Hrun.
  destruct (Z.lt_trichotomy (sum_sizes (map WeightSize (network self)))
              (n_elem (parameters self))) as [Hlt|[Heq|Hgt]]; [|done|].
  - by rewrite SetLayerMemory_short in Hrun.
  - by rewrite SetLayerMemory_long in Hrun.
Qed.

End WeightViews.

(** X23.  [Forward] assigns the weight views before it passes the input
    dimensions through the network.  On a network with parameters whose
    layer memory is not set yet, a forward pass returns only if the weight
    sizes the layers report on entry add up to the parameter count, and it
    leaves layer [i] with a weight view at the sum of those sizes over the
    layers before it, whatever [WeightSize()] the layers report once their
    input dimensions are known. *)
Theorem Forward_weight_views_use_entry_sizes
    {Kind Mem OutputLayerType InitializationRuleType : Type}
    {caps : Capabilities (Kind := Kind) (Mem := Mem)
              (OutputLayerType := OutputLayerType)
              (InitializationRuleType := InitializationRuleType)}
    (inputs : Mat) (results r : MatRef) (begin end_ : Z)
    (s s' : State (Kind := Kind) (Mem := Mem) (OutputLayerType := OutputLayerType)
                  (InitializationRuleType := InitializationRuleType)) :
  begin ≤ end_ →
  layerMemoryIsSet s.1 = false → is_empty (parameters s.1) = false →
  sizes_valid (network s.1) →
  sum_sizes (map WeightSize (network s.1)) < SizeT.modulus →
  Forward_range inputs results begin end_ s = Return (r, s') →
  sum_sizes (map WeightSize (network s.1)) = n_elem (parameters s.1) ∧
  length (network s'.1) = length (network s.1) ∧
  ∀ i l', network s'.1 !! i = Some l' →
    layer_weights l'
    = ptr_add (memptr (parameters s.1)) (offset_of (map WeightSize (network s.1)) i).
Proof.
  intros Hle Hunset Hfull Hv Hmax Hrun.
  apply Forward_range_steps in Hrun
    as (s1 & self2 & [self3 w3] & l & out & r' & m
        & Hweights & Hdims & Hmem & _ & _ & _ & _ & _ & ->); [|exact Hle].
  unfold ensure_weights in Hweights. rewrite Hfull, Hunset in Hweights.
  cbn [negb] in Hweights. first_step Hweights self1 Hlayers.
  injection Hweights as <-. cbn [fst snd] in *.
  pose proof (SetLayerMemory_Return_sum _ _ Hv Hmax Hlayers) as Hsum.
  pose proof (SetLayerMemory_Return_views _ _ Hv Hmax Hlayers) as Hviews.
  apply ensure_dimensions_layers in Hdims.
  apply InitializeForwardPassMemory_frame in Hmem as (_ & Hn3 & _).
  destruct (write_ref_frame results r'.1 self3) as (_ & Hn4 & _).
  rewrite Hn4, Hn3. split; [exact Hsum|]. split.
  - rewrite <- (Forall2_length _ _ _ Hdims), Hviews. apply assign_views_length.
  - intros i l' Hl'.
    destruct (Forall2_lookup_r _ _ _ _ _ Hdims Hl') as (l1 & Hl1 & _ & _ & Hw).
    rewrite Hw. rewrite Hviews in Hl1.
    apply assign_views_inv in Hl1 as (l0 & _ & ->). done.
Qed.

(** The two fully connected layers with their 6 parameters: the pass
    returns, the second layer's weights start at element 4, and the first
    layer now reports 8 weights. *)
Lemma Forward_weight_views_use_entry_sizes_witness :
  ∃ r s' l0 l1,
    Forward_range (matrix 20 3 1) (caller_matrix empty_Mat) 0 1
      (two_linear_layers, stateless_world) = Return (r, s') ∧
    network s'.1 = [l0; l1] ∧
    layer_weights l1 = mkPtr 1 4 ∧ WeightSize l0 = 8.
Proof.
  eassert (Hrun : Forward_range (matrix 20 3 1) (caller_matrix empty_Mat) 0 1
                    (two_linear_layers, stateless_world) = Return (_, (_, _)))
    by (vm_compute; reflexivity).
  assert (Hv : sizes_valid (network (two_linear_layers, stateless_world).1)).
  { unfold sizes_valid. repeat constructor; by vm_compute. }
  assert (Hmax : sum_sizes (map WeightSize
                              (network (two_linear_layers, stateless_world).1))
                 < SizeT.modulus) by (by vm_compute).
  destruct (Forward_weight_views_use_entry_sizes (matrix 20 3 1)
              (caller_matrix empty_Mat) _ 0 1 (two_linear_layers, stateless_world) _
              ltac:(lia) eq_refl eq_refl Hv Hmax Hrun) as (_ & _ & Hweights).
  eexists _, _, _, _. split; [exact Hrun|]. split; [reflexivity|].
  split; [exact (Hweights 1%nat _ eq_refl)|reflexivity].
Defined.

Section Totality.

Context {Kind Mem OutputLayerType InitializationRuleType : Type}.
Context {caps : Capabilities (Kind := Kind) (Mem := Mem)
                  (OutputLayerType := OutputLayerType)
                  (InitializationRuleType := InitializationRuleType)}.

Abbreviation Layer := (Layer (Kind := Kind)).
Abbreviation FFN := (FFN (Kind := Kind) (OutputLayerType := OutputLayerType)
                     (InitializationRuleType := InitializationRuleType)).
Abbreviation World := (World (Mem := Mem)).
Abbreviation State := (State (Kind := Kind) (Mem := Mem)
                         (OutputLayerType := OutputLayerType)
                         (InitializationRuleType := InitializationRuleType)).

Implicit Types (l : Layer) (layers : list Layer) (self : FFN) (w : World).
Implicit Types (s : State).









End Totality.



End AnnPasses.
